(** * aria-fbx: the marshaling layer of [c_src/ufbx_nif.c]

    A shallow embedding of the NIF that carries an FBX scene between the
    typed scene graph of the ufbx / ufbx_write libraries and the host
    runtime's dynamically typed terms, and the properties the
    specification states about it.

    Layout: the host term runtime ([enif_*]), the parser-side records
    ([ufbx_*]), the extractor ([extract_*], [load_fbx_nif]), the writer-side
    scene ([ufbxw_*]), the builder ([build_ufbxw_scene_from_map],
    [write_fbx_nif]), then the theorems. *)

From Stdlib Require Import ZArith String Ascii List Floats DecimalString DecimalFacts
  Lia Sorted.
From stdpp Require Import base option list.
Import ListNotations.
Local Open Scope string_scope.
Local Open Scope list_scope.
Local Open Scope Z_scope.
Set Warnings "-register-all".

(** ** Host runtime terms

    C [double] is IEEE-754 binary64, which is what Rocq's primitive [float]
    is; the code never does arithmetic on them, it only moves them. *)
Definition double : Type := float.
Bind Scope float_scope with double.

(** [ERL_NIF_TERM].  A list is a chain of cons cells ending in nil (a chain
    ending in anything else is an improper list); a map is kept as its
    key/value pairs. *)
Inductive term : Type :=
| TAtom (name : string)
| TInt (z : Z)
| TFloat (d : double)
| TBinary (bytes : string)
| TNil
| TCons (head tail : term)
| TTuple (elems : list term)
| TMap (pairs : list (term * term)).

(** What a NIF hands back to the runtime: a term, or the badarg exception
    raised through [enif_make_badarg]. *)
Inductive nif_result : Type :=
| Badarg
| Return (t : term).

Definition UINT_MAX : Z := 4294967295.

Definition enif_make_atom (name : string) : term := TAtom name.
Definition enif_make_uint (v : Z) : term := TInt v.
(** The runtime only has finite floats: [enif_make_double] makes the term
    of a finite double, and for a NaN or an infinity it raises badarg
    instead.  The code never tests for these; the model follows the call
    on finite doubles, so a statement about a delivered term is about a
    scene whose doubles are finite (see [finite_doubles]). *)
Definition enif_make_double (d : double) : term := TFloat d.
Definition enif_make_binary (bytes : string) : term := TBinary bytes.
Definition enif_make_list_cell (head tail : term) : term := TCons head tail.
Definition enif_make_list0 : term := TNil.
Definition enif_make_list2 (a b : term) : term := TCons a (TCons b TNil).
Definition enif_make_list3 (a b c : term) : term :=
  TCons a (TCons b (TCons c TNil)).
Definition enif_make_list4 (a b c d : term) : term :=
  TCons a (TCons b (TCons c (TCons d TNil))).
Definition enif_make_tuple2 (a b : term) : term := TTuple [a; b].

(** A C string stops at its first NUL byte. *)
Fixpoint c_str (s : string) : string :=
  match s with
  | EmptyString => EmptyString
  | String c rest =>
      if Ascii.eqb c Ascii.zero then EmptyString else String c (c_str rest)
  end.

Fixpoint charlist (s : string) : term :=
  match s with
  | EmptyString => TNil
  | String c rest => TCons (TInt (Z.of_nat (nat_of_ascii c))) (charlist rest)
  end.

(** [enif_make_string(env, s, ERL_NIF_LATIN1)]: the list of the character
    codes of the C string [s]. *)
Definition enif_make_string (s : string) : term := charlist (c_str s).

Fixpoint enif_get_list_length (t : term) : option nat :=
  match t with
  | TNil => Some O
  | TCons _ tl =>
      match enif_get_list_length tl with
      | Some n => Some (S n)
      | None => None
      end
  | _ => None
  end.

Definition enif_get_list_cell (t : term) : option (term * term) :=
  match t with
  | TCons hd tl => Some (hd, tl)
  | _ => None
  end.

Definition enif_get_double (t : term) : option double :=
  match t with
  | TFloat d => Some d
  | _ => None
  end.

(** [enif_get_uint]: an integer that fits C's 32-bit [unsigned int]. *)
Definition enif_get_uint (t : term) : option Z :=
  match t with
  | TInt z => if (0 <=? z) && (z <=? UINT_MAX) then Some z else None
  | _ => None
  end.

Definition enif_inspect_binary (t : term) : option string :=
  match t with
  | TBinary b => Some b
  | _ => None
  end.

Definition enif_is_map (t : term) : bool :=
  match t with
  | TMap _ => true
  | _ => false
  end.

Definition enif_get_atom_length (t : term) : option nat :=
  match t with
  | TAtom a => Some (String.length a)
  | _ => None
  end.

(** [enif_get_atom(env, t, buf, size, ERL_NIF_LATIN1)]: fails when [t] is
    not an atom or its name and the terminating NUL do not fit [size]
    bytes; otherwise [buf] holds the name. *)
Definition enif_get_atom (t : term) (size : nat) : option string :=
  match t with
  | TAtom a => if (String.length a <? size)%nat then Some a else None
  | _ => None
  end.

Definition is_atom_named (name : string) (t : term) : bool :=
  match t with
  | TAtom a => String.eqb a name
  | _ => false
  end.

(** The code only ever builds and looks up atom keys, so the map functions
    take the key by its atom name. *)
Fixpoint pairs_get (name : string) (pairs : list (term * term)) : option term :=
  match pairs with
  | [] => None
  | (k, v) :: rest => if is_atom_named name k then Some v else pairs_get name rest
  end.

Fixpoint pairs_put (name : string) (v : term) (pairs : list (term * term))
  : list (term * term) :=
  match pairs with
  | [] => [(TAtom name, v)]
  | (k, v0) :: rest =>
      if is_atom_named name k then (k, v) :: rest
      else (k, v0) :: pairs_put name v rest
  end.

Definition enif_make_new_map : term := TMap [].

(** [enif_get_map_value(env, map, enif_make_atom(env, name), &value)]. *)
Definition enif_get_map_value (map : term) (name : string) : option term :=
  match map with
  | TMap pairs => pairs_get name pairs
  | _ => None
  end.

(** [enif_make_map_put(env, map, key, value, &map)]; the code ignores the
    return value, and on failure the output is left as it was. *)
Definition enif_make_map_put (map : term) (name : string) (v : term) : term :=
  match map with
  | TMap pairs => TMap (pairs_put name v pairs)
  | _ => map
  end.

(** The idiom that closes every extractor: the [keys]/[values] arrays
    filled up to [idx], then put into a fresh map one by one. *)
Definition build_map (kvs : list (string * term)) : term :=
  fold_left (fun map kv => enif_make_map_put map (fst kv) (snd kv)) kvs
            enif_make_new_map.

(** [for (i = count; i > 0; i--) acc = body(data[i - 1], acc);] *)
Definition for_down {A S : Type} (data : list A) (body : A -> S -> S) (init : S) : S :=
  fold_left (fun acc a => body a acc) (rev data) init.

(** ** The parser's typed scene (the fields of [ufbx.h] the code reads) *)

Record ufbx_vec2 := { v2_x : double; v2_y : double }.
Record ufbx_vec3 := { v3_x : double; v3_y : double; v3_z : double }.
Record ufbx_vec4 := { v4_x : double; v4_y : double; v4_z : double; v4_w : double }.
Record ufbx_quat := { q_x : double; q_y : double; q_z : double; q_w : double }.

(** [ufbx_string]: [length] bytes of [data]. *)
Definition ufbx_string : Type := string.

(** A pointer to another element of the scene.  The code follows such a
    pointer only to read the pointee's [typed_id]. *)
Record ufbx_element_ptr := { ptr_typed_id : Z }.

Record ufbx_transform := {
  translation : ufbx_vec3;
  rotation : ufbx_quat;
  scale : ufbx_vec3 }.

Record ufbx_node := {
  node_typed_id : Z;
  node_name : ufbx_string;
  node_parent : option ufbx_element_ptr;
  node_children : list ufbx_element_ptr;
  node_local_transform : ufbx_transform;
  node_mesh : option ufbx_element_ptr }.

Record ufbx_vertex_vec3 := {
  vv3_exists : bool;
  vv3_values : list ufbx_vec3;
  vv3_indices : list Z }.

Record ufbx_vertex_vec2 := {
  vv2_exists : bool;
  vv2_values : list ufbx_vec2;
  vv2_indices : list Z }.

Record ufbx_mesh := {
  mesh_typed_id : Z;
  mesh_name : ufbx_string;
  vertex_position : ufbx_vertex_vec3;
  vertex_normal : ufbx_vertex_vec3;
  vertex_uv : ufbx_vertex_vec2;
  mesh_materials : list ufbx_element_ptr }.

Record ufbx_material_map := {
  has_value : bool;
  value_components : Z;
  value_vec3 : ufbx_vec3 }.

Record ufbx_material_pbr_maps := {
  base_color : ufbx_material_map;
  pbr_specular_color : ufbx_material_map;
  pbr_emission_color : ufbx_material_map }.

Record ufbx_material_fbx_maps := {
  diffuse_color : ufbx_material_map;
  fbx_specular_color : ufbx_material_map;
  fbx_emission_color : ufbx_material_map }.

Record ufbx_material := {
  material_typed_id : Z;
  material_name : ufbx_string;
  pbr : ufbx_material_pbr_maps;
  fbx : ufbx_material_fbx_maps }.

Record ufbx_texture := {
  texture_typed_id : Z;
  texture_name : ufbx_string;
  filename : ufbx_string }.

Record ufbx_baked_vec3 := { bv3_time : double; bv3_value : ufbx_vec3 }.
Record ufbx_baked_quat := { bq_time : double; bq_value : ufbx_quat }.

Record ufbx_baked_node := {
  baked_typed_id : Z;
  translation_keys : list ufbx_baked_vec3;
  rotation_keys : list ufbx_baked_quat;
  scale_keys : list ufbx_baked_vec3 }.

Record ufbx_baked_anim := { baked_nodes : list ufbx_baked_node }.

(** [ufbx_anim] is only passed on to the baker. *)
Definition ufbx_anim : Type := nat.

Record ufbx_anim_stack := {
  stack_typed_id : Z;
  stack_name : ufbx_string;
  stack_anim : ufbx_anim }.

Record ufbx_bake_opts := { resample_rate : double }.

Record ufbx_scene := {
  nodes : list ufbx_node;
  meshes : list ufbx_mesh;
  materials : list ufbx_material;
  textures : list ufbx_texture;
  anim_stacks : list ufbx_anim_stack;
  metadata_version : Z }.

(** ** Extraction: typed scene to term *)

Definition make_vec3 (vec : ufbx_vec3) : term :=
  let x := enif_make_double (v3_x vec) in
  let y := enif_make_double (v3_y vec) in
  let z := enif_make_double (v3_z vec) in
  enif_make_list3 x y z.

Definition make_vec4 (vec : ufbx_vec4) : term :=
  let x := enif_make_double (v4_x vec) in
  let y := enif_make_double (v4_y vec) in
  let z := enif_make_double (v4_z vec) in
  let w := enif_make_double (v4_w vec) in
  enif_make_list4 x y z w.

Definition make_vec3_list (list : list ufbx_vec3) : term :=
  for_down list (fun v result => enif_make_list_cell (make_vec3 v) result)
           enif_make_list0.

Definition make_uint32_list (list : list Z) : term :=
  for_down list (fun v result => enif_make_list_cell (enif_make_uint v) result)
           enif_make_list0.

Definition typed_id_list (ptrs : list ufbx_element_ptr) : term :=
  for_down ptrs
           (fun p result => enif_make_list_cell (enif_make_uint (ptr_typed_id p)) result)
           enif_make_list0.

(** [if (cond) { keys[idx] = k; values[idx] = v; idx++; }] *)
Definition put_if (cond : bool) (k : string) (v : term) : list (string * term) :=
  if cond then [(k, v)] else [].

Definition nonempty {A : Type} (l : list A) : bool :=
  match l with
  | [] => false
  | _ :: _ => true
  end.

Definition is_some {A : Type} (o : option A) : bool :=
  match o with
  | Some _ => true
  | None => false
  end.

(** [if (ptr) { keys[idx] = k; values[idx] = enif_make_uint(env,
    ptr->typed_id); idx++; }] *)
Definition put_ptr (ptr : option ufbx_element_ptr) (k : string) : list (string * term) :=
  match ptr with
  | Some p => [(k, enif_make_uint (ptr_typed_id p))]
  | None => []
  end.

Definition version_string (version : Z) : string :=
  ("FBX " ++ NilZero.string_of_uint (N.to_uint (Z.to_N (version / 1000)))
          ++ "." ++ NilZero.string_of_uint (N.to_uint (Z.to_N ((version mod 1000) / 100))))%string.

Section Extractor.

(** Whether the runtime grants a binary of the given size
    ([enif_alloc_binary]). *)
Variable enif_alloc_binary : nat -> bool.

(** The external baker, [ufbx_bake_anim]; [None] is its NULL. *)
Variable ufbx_bake_anim :
  ufbx_scene -> ufbx_anim -> ufbx_bake_opts -> option ufbx_baked_anim.

Definition make_string (str : ufbx_string) : term :=
  if (String.length str =? 0)%nat then enif_make_string ""
  else if negb (enif_alloc_binary (String.length str)) then enif_make_atom "error"
  else enif_make_binary str.

Definition extract_node (node : ufbx_node) (node_id : Z) : term :=
  let rot_vec4 :=
    {| v4_x := q_x (rotation (node_local_transform node));
       v4_y := q_y (rotation (node_local_transform node));
       v4_z := q_z (rotation (node_local_transform node));
       v4_w := q_w (rotation (node_local_transform node)) |} in
  build_map
    ([("id", enif_make_uint node_id);
      ("name", make_string (node_name node))]
     ++ put_ptr (node_parent node) "parent_id"
     ++ put_if (nonempty (node_children node)) "children"
               (typed_id_list (node_children node))
     ++ [("translation", make_vec3 (translation (node_local_transform node)));
         ("rotation", make_vec4 rot_vec4);
         ("scale", make_vec3 (scale (node_local_transform node)))]
     ++ put_ptr (node_mesh node) "mesh_id").

Definition make_texcoords (uvs : list ufbx_vec2) : term :=
  for_down uvs
           (fun uv texcoords =>
              let u := enif_make_double (v2_x uv) in
              let v := enif_make_double (v2_y uv) in
              let uv_vec := enif_make_list2 u v in
              enif_make_list_cell uv_vec texcoords)
           enif_make_list0.

Definition extract_mesh (mesh : ufbx_mesh) : term :=
  let pos := vertex_position mesh in
  let has_pos := vv3_exists pos && nonempty (vv3_values pos) in
  build_map
    ([("id", enif_make_uint (mesh_typed_id mesh));
      ("name", make_string (mesh_name mesh))]
     ++ put_if has_pos "positions" (make_vec3_list (vv3_values pos))
     ++ put_if (has_pos && nonempty (vv3_indices pos)) "indices"
               (make_uint32_list (vv3_indices pos))
     ++ put_if (vv3_exists (vertex_normal mesh)
                && nonempty (vv3_values (vertex_normal mesh)))
               "normals" (make_vec3_list (vv3_values (vertex_normal mesh)))
     ++ put_if (vv2_exists (vertex_uv mesh)
                && nonempty (vv2_values (vertex_uv mesh)))
               "texcoords" (make_texcoords (vv2_values (vertex_uv mesh)))
     ++ put_if (nonempty (mesh_materials mesh)) "material_ids"
               (typed_id_list (mesh_materials mesh))).

(** One colour field of [extract_material]: the [if] / [else if] on the
    physically-based map and the legacy map. *)
Definition color_entry (key : string) (pbr_map fbx_map : ufbx_material_map)
  : list (string * term) :=
  if has_value pbr_map && (3 <=? value_components pbr_map) then
    [(key, make_vec3 (value_vec3 pbr_map))]
  else if has_value fbx_map && (3 <=? value_components fbx_map) then
    [(key, make_vec3 (value_vec3 fbx_map))]
  else [].

Definition extract_material (material : ufbx_material) : term :=
  build_map
    ([("id", enif_make_uint (material_typed_id material));
      ("name", make_string (material_name material))]
     ++ color_entry "diffuse_color"
          (base_color (pbr material)) (diffuse_color (fbx material))
     ++ color_entry "specular_color"
          (pbr_specular_color (pbr material)) (fbx_specular_color (fbx material))
     ++ color_entry "emissive_color"
          (pbr_emission_color (pbr material)) (fbx_emission_color (fbx material))).

Definition extract_texture (texture : ufbx_texture) : term :=
  build_map
    ([("id", enif_make_uint (texture_typed_id texture));
      ("name", make_string (texture_name texture))]
     ++ put_if (0 <? String.length (filename texture))%nat "file_path"
               (make_string (filename texture))).

Definition extract_vec3_keyframe (key : ufbx_baked_vec3) (field_name : string) : term :=
  let map := enif_make_new_map in
  let map := enif_make_map_put map "time" (enif_make_double (bv3_time key)) in
  enif_make_map_put map field_name (make_vec3 (bv3_value key)).

Definition extract_quat_keyframe (key : ufbx_baked_quat) : term :=
  let x := enif_make_double (q_x (bq_value key)) in
  let y := enif_make_double (q_y (bq_value key)) in
  let z := enif_make_double (q_z (bq_value key)) in
  let w := enif_make_double (q_w (bq_value key)) in
  let map := enif_make_new_map in
  let map := enif_make_map_put map "time" (enif_make_double (bq_time key)) in
  enif_make_map_put map "rotation" (enif_make_list4 x y z w).

(** The body shared by the three inner loops of [extract_animation]: a
    fresh map with [node_id], into which [time] and the channel field of
    [keyframe] are copied when they are found. *)
Definition tag_keyframe (node_id : Z) (keyframe : term) (field_name : string) : term :=
  let keyframe_map := enif_make_new_map in
  let keyframe_map := enif_make_map_put keyframe_map "node_id" (enif_make_uint node_id) in
  let keyframe_map :=
    match enif_get_map_value keyframe "time" with
    | Some value => enif_make_map_put keyframe_map "time" value
    | None => keyframe_map
    end in
  match enif_get_map_value keyframe field_name with
  | Some value => enif_make_map_put keyframe_map field_name value
  | None => keyframe_map
  end.

Definition extract_node_keyframes (baked_node : ufbx_baked_node) (all_keyframes : term)
  : term :=
  let node_id := baked_typed_id baked_node in
  let all_keyframes :=
    for_down (translation_keys baked_node)
      (fun trans_key all =>
         enif_make_list_cell
           (tag_keyframe node_id (extract_vec3_keyframe trans_key "translation")
                         "translation") all)
      all_keyframes in
  let all_keyframes :=
    for_down (rotation_keys baked_node)
      (fun rot_key all =>
         enif_make_list_cell
           (tag_keyframe node_id (extract_quat_keyframe rot_key) "rotation") all)
      all_keyframes in
  for_down (scale_keys baked_node)
    (fun scale_key all =>
       enif_make_list_cell
         (tag_keyframe node_id (extract_vec3_keyframe scale_key "scale") "scale") all)
    all_keyframes.

Definition extract_keyframes (baked : ufbx_baked_anim) : term :=
  for_down (baked_nodes baked) extract_node_keyframes enif_make_list0.

Definition extract_animation (baked : ufbx_baked_anim) (anim_stack : ufbx_anim_stack)
  : term :=
  build_map
    [("id", enif_make_uint (stack_typed_id anim_stack));
     ("name", make_string (stack_name anim_stack));
     ("keyframes", extract_keyframes baked)].

Definition extract_scene_data (scene : ufbx_scene) : term :=
  let nodes_t :=
    for_down (nodes scene)
      (fun node acc => enif_make_list_cell (extract_node node (node_typed_id node)) acc)
      enif_make_list0 in
  let meshes_t :=
    for_down (meshes scene)
      (fun mesh acc => enif_make_list_cell (extract_mesh mesh) acc) enif_make_list0 in
  let materials_t :=
    for_down (materials scene)
      (fun material acc => enif_make_list_cell (extract_material material) acc)
      enif_make_list0 in
  let textures_t :=
    for_down (textures scene)
      (fun texture acc => enif_make_list_cell (extract_texture texture) acc)
      enif_make_list0 in
  let bake_opts := {| resample_rate := 30%float |} in
  let animations_t :=
    for_down (anim_stacks scene)
      (fun anim_stack acc =>
         match ufbx_bake_anim scene (stack_anim anim_stack) bake_opts with
         | Some baked => enif_make_list_cell (extract_animation baked anim_stack) acc
         | None => acc
         end)
      enif_make_list0 in
  build_map
    [("version", enif_make_string (version_string (metadata_version scene)));
     ("nodes", nodes_t);
     ("meshes", meshes_t);
     ("materials", materials_t);
     ("textures", textures_t);
     ("animations", animations_t)].

(** The external parser: [ufbx_load_file] on a path, [ufbx_load_memory]
    on bytes; the error carries [error.description.data]. *)
Variable ufbx_load_file : string -> ufbx_scene + string.
Variable ufbx_load_memory : string -> ufbx_scene + string.

Definition load_fbx_nif (argv0 : term) : nif_result :=
  match enif_inspect_binary argv0 with
  | None => Badarg
  | Some file_path_bin =>
      let file_path := c_str file_path_bin in
      match ufbx_load_file file_path with
      | inr description =>
          Return (enif_make_tuple2 (enif_make_atom "error")
                                   (enif_make_string description))
      | inl scene =>
          let scene_data := extract_scene_data scene in
          Return (enif_make_tuple2 (enif_make_atom "ok") scene_data)
      end
  end.

Definition load_fbx_binary_nif (argv0 : term) : nif_result :=
  match enif_inspect_binary argv0 with
  | None => Badarg
  | Some data_bin =>
      match ufbx_load_memory data_bin with
      | inr description =>
          Return (enif_make_tuple2 (enif_make_atom "error")
                                   (enif_make_string description))
      | inl scene =>
          let scene_data := extract_scene_data scene in
          Return (enif_make_tuple2 (enif_make_atom "ok") scene_data)
      end
  end.

End Extractor.

(** ** The writer's scene (ufbx_write) *)

Record ufbxw_vec2 := { w2_x : double; w2_y : double }.
Record ufbxw_vec3 := { w3_x : double; w3_y : double; w3_z : double }.
Record ufbxw_vec4 := { w4_x : double; w4_y : double; w4_z : double; w4_w : double }.
Record ufbxw_quat := { wq_x : double; wq_y : double; wq_z : double; wq_w : double }.

Inductive ufbxw_rotation_order := UFBXW_ROTATION_ORDER_XYZ.
Inductive ufbxw_attribute_mapping := UFBXW_ATTRIBUTE_MAPPING_VERTEX.
Inductive ufbxw_save_format := UFBXW_SAVE_FORMAT_BINARY | UFBXW_SAVE_FORMAT_ASCII.
Inductive ufbxw_element_type := UFBXW_ELEMENT_MATERIAL.

Record ufbxw_save_opts := { format : ufbxw_save_format; version : Z }.

(** Typed handles ([ufbxw_node], [ufbxw_mesh]) and the untyped element id
    ([ufbxw_id], the [.id] member of a handle): an element is named by its
    kind and its rank among the elements of that kind, in creation order. *)
Abbreviation ufbxw_node := nat (only parsing).
Abbreviation ufbxw_mesh := nat (only parsing).

Inductive ufbxw_id : Type :=
| IdNode (n : ufbxw_node)
| IdMesh (m : ufbxw_mesh)
| IdMaterial (k : nat).

Record ufbxw_node_data := {
  wn_name : option string;
  wn_translation : option ufbxw_vec3;
  wn_rotation : option (ufbxw_quat * ufbxw_rotation_order);
  wn_scaling : option ufbxw_vec3;
  wn_parent : option ufbxw_node;
  wn_attribute : option ufbxw_id }.

Record ufbxw_mesh_data := {
  wm_name : option string;
  wm_vertices : option (list ufbxw_vec3);
  wm_triangles : option (list Z);
  wm_normals : option (list ufbxw_vec3 * ufbxw_attribute_mapping);
  wm_uvs : list (Z * (list ufbxw_vec2 * ufbxw_attribute_mapping)) }.

Record ufbxw_material_data := {
  wmat_name : option string;
  wmat_props : list (string * ufbxw_vec3) }.

Record ufbxw_scene := {
  sc_nodes : list ufbxw_node_data;
  sc_meshes : list ufbxw_mesh_data;
  sc_materials : list ufbxw_material_data }.

Definition empty_scene : ufbxw_scene :=
  {| sc_nodes := []; sc_meshes := []; sc_materials := [] |}.

Definition new_node : ufbxw_node_data :=
  {| wn_name := None; wn_translation := None; wn_rotation := None;
     wn_scaling := None; wn_parent := None; wn_attribute := None |}.

Definition new_mesh : ufbxw_mesh_data :=
  {| wm_name := None; wm_vertices := None; wm_triangles := None;
     wm_normals := None; wm_uvs := [] |}.

Definition new_material : ufbxw_material_data :=
  {| wmat_name := None; wmat_props := [] |}.

Definition with_nodes (f : list ufbxw_node_data -> list ufbxw_node_data)
  (scene : ufbxw_scene) : ufbxw_scene :=
  {| sc_nodes := f (sc_nodes scene); sc_meshes := sc_meshes scene;
     sc_materials := sc_materials scene |}.

Definition with_meshes (f : list ufbxw_mesh_data -> list ufbxw_mesh_data)
  (scene : ufbxw_scene) : ufbxw_scene :=
  {| sc_nodes := sc_nodes scene; sc_meshes := f (sc_meshes scene);
     sc_materials := sc_materials scene |}.

Definition with_materials (f : list ufbxw_material_data -> list ufbxw_material_data)
  (scene : ufbxw_scene) : ufbxw_scene :=
  {| sc_nodes := sc_nodes scene; sc_meshes := sc_meshes scene;
     sc_materials := f (sc_materials scene) |}.

(** *** The calls of ufbx_write the builder makes

    The writer library is an external collaborator of the marshaling
    layer and its source is not part of it.  The spec speaks of creating
    native nodes, meshes and materials, of setting their attributes, of
    attaching a parent and of attaching a mesh as a node's payload; the
    definitions below give the calls that meaning: a creator appends a
    blank element and returns its handle, a setter overwrites one field of
    the element it names and does nothing when there is no such element. *)

(** Modelled from the spec: [ufbxw_create_node], "create one native
    node". *)
Definition ufbxw_create_node (scene : ufbxw_scene) : ufbxw_scene * ufbxw_node :=
  (with_nodes (fun l => l ++ [new_node]) scene, length (sc_nodes scene)).

(** Modelled from the spec: [ufbxw_create_mesh], "create one native
    mesh". *)
Definition ufbxw_create_mesh (scene : ufbxw_scene) : ufbxw_scene * ufbxw_mesh :=
  (with_meshes (fun l => l ++ [new_mesh]) scene, length (sc_meshes scene)).

(** Modelled from the spec: [ufbxw_create_element], "create one native
    material". *)
Definition ufbxw_create_element (scene : ufbxw_scene) (type : ufbxw_element_type)
  : ufbxw_scene * ufbxw_id :=
  match type with
  | UFBXW_ELEMENT_MATERIAL =>
      (with_materials (fun l => l ++ [new_material]) scene,
       IdMaterial (length (sc_materials scene)))
  end.

Definition node_set_name (name : string) (d : ufbxw_node_data) : ufbxw_node_data :=
  {| wn_name := Some name; wn_translation := wn_translation d;
     wn_rotation := wn_rotation d; wn_scaling := wn_scaling d;
     wn_parent := wn_parent d; wn_attribute := wn_attribute d |}.

Definition node_set_translation (v : ufbxw_vec3) (d : ufbxw_node_data) : ufbxw_node_data :=
  {| wn_name := wn_name d; wn_translation := Some v;
     wn_rotation := wn_rotation d; wn_scaling := wn_scaling d;
     wn_parent := wn_parent d; wn_attribute := wn_attribute d |}.

Definition node_set_rotation (q : ufbxw_quat) (order : ufbxw_rotation_order)
  (d : ufbxw_node_data) : ufbxw_node_data :=
  {| wn_name := wn_name d; wn_translation := wn_translation d;
     wn_rotation := Some (q, order); wn_scaling := wn_scaling d;
     wn_parent := wn_parent d; wn_attribute := wn_attribute d |}.

Definition node_set_scaling (v : ufbxw_vec3) (d : ufbxw_node_data) : ufbxw_node_data :=
  {| wn_name := wn_name d; wn_translation := wn_translation d;
     wn_rotation := wn_rotation d; wn_scaling := Some v;
     wn_parent := wn_parent d; wn_attribute := wn_attribute d |}.

Definition node_set_parent (parent : ufbxw_node) (d : ufbxw_node_data) : ufbxw_node_data :=
  {| wn_name := wn_name d; wn_translation := wn_translation d;
     wn_rotation := wn_rotation d; wn_scaling := wn_scaling d;
     wn_parent := Some parent; wn_attribute := wn_attribute d |}.

Definition node_set_attribute (attrib : ufbxw_id) (d : ufbxw_node_data) : ufbxw_node_data :=
  {| wn_name := wn_name d; wn_translation := wn_translation d;
     wn_rotation := wn_rotation d; wn_scaling := wn_scaling d;
     wn_parent := wn_parent d; wn_attribute := Some attrib |}.

Definition mesh_set_name (name : string) (d : ufbxw_mesh_data) : ufbxw_mesh_data :=
  {| wm_name := Some name; wm_vertices := wm_vertices d;
     wm_triangles := wm_triangles d; wm_normals := wm_normals d; wm_uvs := wm_uvs d |}.

Definition mesh_set_vertices (buf : list ufbxw_vec3) (d : ufbxw_mesh_data) : ufbxw_mesh_data :=
  {| wm_name := wm_name d; wm_vertices := Some buf;
     wm_triangles := wm_triangles d; wm_normals := wm_normals d; wm_uvs := wm_uvs d |}.

Definition mesh_set_triangles (buf : list Z) (d : ufbxw_mesh_data) : ufbxw_mesh_data :=
  {| wm_name := wm_name d; wm_vertices := wm_vertices d;
     wm_triangles := Some buf; wm_normals := wm_normals d; wm_uvs := wm_uvs d |}.

Definition mesh_set_normals (buf : list ufbxw_vec3) (mapping : ufbxw_attribute_mapping)
  (d : ufbxw_mesh_data) : ufbxw_mesh_data :=
  {| wm_name := wm_name d; wm_vertices := wm_vertices d;
     wm_triangles := wm_triangles d; wm_normals := Some (buf, mapping);
     wm_uvs := wm_uvs d |}.

Definition mesh_set_uvs (set : Z) (buf : list ufbxw_vec2) (mapping : ufbxw_attribute_mapping)
  (d : ufbxw_mesh_data) : ufbxw_mesh_data :=
  {| wm_name := wm_name d; wm_vertices := wm_vertices d;
     wm_triangles := wm_triangles d; wm_normals := wm_normals d;
     wm_uvs := (set, (buf, mapping)) :: wm_uvs d |}.

Definition material_set_name (name : string) (d : ufbxw_material_data)
  : ufbxw_material_data :=
  {| wmat_name := Some name; wmat_props := wmat_props d |}.

Definition material_set_prop (prop : string) (v : ufbxw_vec3) (d : ufbxw_material_data)
  : ufbxw_material_data :=
  {| wmat_name := wmat_name d; wmat_props := (prop, v) :: wmat_props d |}.

(** Modelled from the spec: [ufbxw_set_name_len], "set name". *)
Definition ufbxw_set_name_len (scene : ufbxw_scene) (id : ufbxw_id) (name : string)
  : ufbxw_scene :=
  match id with
  | IdNode n => with_nodes (alter (node_set_name name) n) scene
  | IdMesh m => with_meshes (alter (mesh_set_name name) m) scene
  | IdMaterial k => with_materials (alter (material_set_name name) k) scene
  end.

(** Modelled from the spec: [ufbxw_set_vec3], which sets a named vec3
    property (the diffuse colour of a material). *)
Definition ufbxw_set_vec3 (scene : ufbxw_scene) (id : ufbxw_id) (prop : string)
  (v : ufbxw_vec3) : ufbxw_scene :=
  match id with
  | IdMaterial k => with_materials (alter (material_set_prop prop v) k) scene
  | _ => scene
  end.

(** Modelled from the spec: [ufbxw_node_set_translation]. *)
Definition ufbxw_node_set_translation (scene : ufbxw_scene) (node : ufbxw_node)
  (v : ufbxw_vec3) : ufbxw_scene :=
  with_nodes (alter (node_set_translation v) node) scene.

(** Modelled from the spec: [ufbxw_node_set_rotation_quat], the rotation
    as a quaternion with its rotation order. *)
Definition ufbxw_node_set_rotation_quat (scene : ufbxw_scene) (node : ufbxw_node)
  (q : ufbxw_quat) (order : ufbxw_rotation_order) : ufbxw_scene :=
  with_nodes (alter (node_set_rotation q order) node) scene.

(** Modelled from the spec: [ufbxw_node_set_scaling]. *)
Definition ufbxw_node_set_scaling (scene : ufbxw_scene) (node : ufbxw_node)
  (v : ufbxw_vec3) : ufbxw_scene :=
  with_nodes (alter (node_set_scaling v) node) scene.

(** Modelled from the spec: [ufbxw_node_set_parent], "attach the native
    parent relationship". *)
Definition ufbxw_node_set_parent (scene : ufbxw_scene) (node parent : ufbxw_node)
  : ufbxw_scene :=
  with_nodes (alter (node_set_parent parent) node) scene.

(** Modelled from the spec: [ufbxw_node_set_attribute], "attach it as
    the node's renderable payload". *)
Definition ufbxw_node_set_attribute (scene : ufbxw_scene) (node : ufbxw_node)
  (attrib : ufbxw_id) : ufbxw_scene :=
  with_nodes (alter (node_set_attribute attrib) node) scene.

(** Modelled from the spec: [ufbxw_mesh_set_vertices], the position
    attribute of a mesh. *)
Definition ufbxw_mesh_set_vertices (scene : ufbxw_scene) (mesh : ufbxw_mesh)
  (buf : list ufbxw_vec3) : ufbxw_scene :=
  with_meshes (alter (mesh_set_vertices buf) mesh) scene.

(** Modelled from the spec: [ufbxw_mesh_set_triangles], the indices of
    a mesh. *)
Definition ufbxw_mesh_set_triangles (scene : ufbxw_scene) (mesh : ufbxw_mesh)
  (buf : list Z) : ufbxw_scene :=
  with_meshes (alter (mesh_set_triangles buf) mesh) scene.

(** Modelled from the spec: [ufbxw_mesh_set_normals]. *)
Definition ufbxw_mesh_set_normals (scene : ufbxw_scene) (mesh : ufbxw_mesh)
  (buf : list ufbxw_vec3) (mapping : ufbxw_attribute_mapping) : ufbxw_scene :=
  with_meshes (alter (mesh_set_normals buf mapping) mesh) scene.

(** Modelled from the spec: [ufbxw_mesh_set_uvs], one set of texture
    coordinates. *)
Definition ufbxw_mesh_set_uvs (scene : ufbxw_scene) (mesh : ufbxw_mesh) (set : Z)
  (buf : list ufbxw_vec2) (mapping : ufbxw_attribute_mapping) : ufbxw_scene :=
  with_meshes (alter (mesh_set_uvs set buf mapping) mesh) scene.

(** Modelled from the spec: [ufbxw_copy_vec3_array(scene, data, count)]
    and its siblings, a buffer holding the first [count] elements of
    [data]. *)
Definition ufbxw_copy_array {A : Type} (data : list A) (count : nat) : list A :=
  take count data.

(** ** Building: term to writer scene *)

(** [for (i = 0; i < count; i++) { if (!enif_get_list_cell(env, tail,
    &head, &tail)) break; body }] *)
Fixpoint for_cells {St : Type} (count i : nat) (tail : term)
  (body : nat -> term -> St -> St) (st : St) : St :=
  match count with
  | O => st
  | S count' =>
      match enif_get_list_cell tail with
      | None => st
      | Some (head, tail') => for_cells count' (S i) tail' body (body i head st)
      end
  end.

(** [for (i = 0; i < count; i++) body] *)
Definition for_range {St : Type} (count : nat) (body : nat -> St -> St) (st : St) : St :=
  fold_left (fun acc i => body i acc) (seq 0 count) st.

(** The loop of [parse_vec3_from_list] / [parse_vec4_from_list]: [n] cells,
    each of which must hold a double. *)
Fixpoint parse_doubles (n : nat) (tail : term) : option (list double) :=
  match n with
  | O => Some []
  | S n' =>
      match enif_get_list_cell tail with
      | None => None
      | Some (head, tail') =>
          match enif_get_double head with
          | None => None
          | Some d =>
              match parse_doubles n' tail' with
              | None => None
              | Some ds => Some (d :: ds)
              end
          end
      end
  end.

Definition parse_vec3_from_list (list : term) : option ufbxw_vec3 :=
  match enif_get_list_length list with
  | Some 3%nat =>
      match parse_doubles 3 list with
      | Some [x; y; z] => Some {| w3_x := x; w3_y := y; w3_z := z |}
      | _ => None
      end
  | _ => None
  end.

Definition parse_vec4_from_list (list : term) : option ufbxw_vec4 :=
  match enif_get_list_length list with
  | Some 4%nat =>
      match parse_doubles 4 list with
      | Some [x; y; z; w] => Some {| w4_x := x; w4_y := y; w4_z := z; w4_w := w |}
      | _ => None
      end
  | _ => None
  end.

Definition parse_string (t : term) : option string :=
  match enif_inspect_binary t with
  | Some bin => Some bin
  | None =>
      match enif_get_atom_length t with
      | Some atom_len => enif_get_atom t (atom_len + 1)
      | None => None
      end
  end.

Definition get_map_uint (map : term) (key : string) : option Z :=
  match enif_get_map_value map key with
  | Some value => enif_get_uint value
  | None => None
  end.

Definition get_map_string (map : term) (key : string) : option string :=
  match enif_get_map_value map key with
  | Some value => parse_string value
  | None => None
  end.

Definition get_map_vec3 (map : term) (key : string) : option ufbxw_vec3 :=
  match enif_get_map_value map key with
  | Some value => parse_vec3_from_list value
  | None => None
  end.

Definition get_map_vec4 (map : term) (key : string) : option ufbxw_vec4 :=
  match enif_get_map_value map key with
  | Some value => parse_vec4_from_list value
  | None => None
  end.

Definition get_map_list (map : term) (key : string) : option term :=
  enif_get_map_value map key.

(** [(int32_t)v] for an [unsigned int] [v]. *)
Definition to_int32 (v : Z) : Z :=
  if v <? 2147483648 then v else v - 4294967296.

(** One component of a vertex: [if (enif_get_list_cell(env, tail, &head,
    &tail)) enif_get_double(env, head, &x);] with [x] preset to [dflt]. *)
Definition next_double (tail : term) (dflt : double) : double * term :=
  match enif_get_list_cell tail with
  | Some (head, tail') =>
      (match enif_get_double head with
       | Some d => d
       | None => dflt
       end, tail')
  | None => (dflt, tail)
  end.

(** The loops that fill [vertices] and [normals]: every slot [v <
    count] is written, with [z] preset to [z0]. *)
Fixpoint decode_vec3_array (count : nat) (tail : term) (z0 : double) : list ufbxw_vec3 :=
  match count with
  | O => []
  | S count' =>
      let '(x, tail) := next_double tail 0%float in
      let '(y, tail) := next_double tail 0%float in
      let '(z, tail) := next_double tail z0 in
      {| w3_x := x; w3_y := y; w3_z := z |} :: decode_vec3_array count' tail z0
  end.

Fixpoint decode_vec2_array (count : nat) (tail : term) : list ufbxw_vec2 :=
  match count with
  | O => []
  | S count' =>
      let '(u_val, tail) := next_double tail 0%float in
      let '(v_val, tail) := next_double tail 0%float in
      {| w2_x := u_val; w2_y := v_val |} :: decode_vec2_array count' tail
  end.

(** The places where the builder calls [enif_alloc] for an array that it
    may read before writing every slot. *)
Inductive alloc_site : Type :=
| NodeHandles
| NodeIds
| MeshHandles
| MeshIds
| Indices (mesh : nat).

Definition opt_apply {A B : Type} (o : option A) (f : A -> B -> B) (b : B) : B :=
  match o with
  | Some a => f a b
  | None => b
  end.

Section Builder.

(** [enif_alloc] returns memory with indeterminate contents: [uninit site
    k] is what slot [k] of the array allocated at [site] holds before the
    code writes it.  Allocation itself is taken to succeed wherever the
    code does not test its result. *)
Variable uninit : alloc_site -> nat -> Z.

(** Whether [ufbxw_create_scene] returns a scene (or NULL). *)
Variable ufbxw_create_scene_ok : bool.

(** The external writer, [ufbxw_save_file]: success, and the
    [error.description] it leaves. *)
Variable ufbxw_save_file : ufbxw_scene -> string -> ufbxw_save_opts -> bool * string.

Definition enif_alloc_uint (site : alloc_site) (n : nat) : list Z :=
  uninit site <$> seq 0 n.

Definition enif_alloc_handles (site : alloc_site) (n : nat) : list nat :=
  (fun k => Z.to_nat (uninit site k)) <$> seq 0 n.

Definition ufbxw_create_scene : option ufbxw_scene :=
  if ufbxw_create_scene_ok then Some empty_scene else None.

(** Lines 752-794: the body of the loop that creates the nodes. *)
Definition create_node_step (i : nat) (head : term)
  (st : ufbxw_scene * list ufbxw_node * list Z)
  : ufbxw_scene * list ufbxw_node * list Z :=
  let '(scene, node_handles, node_ids) := st in
  let '(scene, node) := ufbxw_create_node scene in
  let node_handles := <[i := node]> node_handles in
  let node_ids :=
    opt_apply (get_map_uint head "id") (fun node_id ids => <[i := node_id]> ids)
              node_ids in
  let scene :=
    opt_apply (get_map_string head "name")
              (fun name_str sc => ufbxw_set_name_len sc (IdNode node) name_str) scene in
  let scene :=
    opt_apply (get_map_vec3 head "translation")
              (fun translation sc => ufbxw_node_set_translation sc node translation)
              scene in
  let scene :=
    opt_apply (get_map_vec4 head "rotation")
              (fun rotation_vec4 sc =>
                 let rotation_quat :=
                   {| wq_x := w4_x rotation_vec4; wq_y := w4_y rotation_vec4;
                      wq_z := w4_z rotation_vec4; wq_w := w4_w rotation_vec4 |} in
                 ufbxw_node_set_rotation_quat sc node rotation_quat
                                              UFBXW_ROTATION_ORDER_XYZ)
              scene in
  let scene :=
    opt_apply (get_map_vec3 head "scale")
              (fun scale sc => ufbxw_node_set_scaling sc node scale) scene in
  (scene, node_handles, node_ids).

(** Lines 811-816: [for (j = 0; j < count; j++) if (ids[j] == key) {
    ...; break; }], as the first matching [j]. *)
Fixpoint search_id (count j : nat) (ids : list Z) (key : Z) : option nat :=
  match count with
  | O => None
  | S count' =>
      if (ids !!! j) =? key then Some j else search_id count' (S j) ids key
  end.

(** Lines 804-824: the body of the loop that sets parents and collects
    the nodes' [mesh_id]s. *)
Definition wire_node_step (nodes_len : nat) (node_handles : list ufbxw_node)
  (node_ids : list Z) (i : nat) (head : term) (st : ufbxw_scene * list Z)
  : ufbxw_scene * list Z :=
  let '(scene, node_mesh_ids) := st in
  let scene :=
    opt_apply (get_map_uint head "parent_id")
              (fun parent_id sc =>
                 opt_apply (search_id nodes_len 0 node_ids parent_id)
                           (fun j sc =>
                              ufbxw_node_set_parent sc (node_handles !!! i)
                                                    (node_handles !!! j))
                           sc)
              scene in
  let node_mesh_ids :=
    opt_apply (get_map_uint head "mesh_id")
              (fun mesh_id ids => <[i := mesh_id]> ids) node_mesh_ids in
  (scene, node_mesh_ids).

(** Lines 860-894 and 1046-1077: the [positions] block. *)
Definition set_vertices_step (head : term) (mesh : ufbxw_mesh) (scene : ufbxw_scene)
  : ufbxw_scene :=
  match get_map_list head "positions" with
  | Some positions_list =>
      match enif_get_list_length positions_list with
      | Some positions_len =>
          let vertex_count := (positions_len / 3)%nat in
          if (0 <? vertex_count)%nat && (positions_len mod 3 =? 0)%nat then
            let vertices := decode_vec3_array vertex_count positions_list 0%float in
            let vertices_buf := ufbxw_copy_array vertices vertex_count in
            ufbxw_mesh_set_vertices scene mesh vertices_buf
          else scene
      | None => scene
      end
  | None => scene
  end.

(** Lines 897-917 and 1080-1100: the [indices] block. *)
Definition set_triangles_step (i : nat) (head : term) (mesh : ufbxw_mesh)
  (scene : ufbxw_scene) : ufbxw_scene :=
  match get_map_list head "indices" with
  | Some indices_list =>
      match enif_get_list_length indices_list with
      | Some indices_len =>
          let indices := enif_alloc_uint (Indices i) indices_len in
          let indices :=
            for_cells indices_len 0 indices_list
              (fun j idx_head indices =>
                 opt_apply (enif_get_uint idx_head)
                           (fun idx_val indices => <[j := to_int32 idx_val]> indices)
                           indices)
              indices in
          let indices_buf := ufbxw_copy_array indices indices_len in
          ufbxw_mesh_set_triangles scene mesh indices_buf
      | None => scene
      end
  | None => scene
  end.

(** Lines 921-955: the [normals] block. *)
Definition set_normals_step (head : term) (mesh : ufbxw_mesh) (scene : ufbxw_scene)
  : ufbxw_scene :=
  match get_map_list head "normals" with
  | Some normals_list =>
      match enif_get_list_length normals_list with
      | Some normals_len =>
          let normal_count := (normals_len / 3)%nat in
          if (0 <? normal_count)%nat && (normals_len mod 3 =? 0)%nat then
            let normals := decode_vec3_array normal_count normals_list 1%float in
            let normals_buf := ufbxw_copy_array normals normal_count in
            ufbxw_mesh_set_normals scene mesh normals_buf UFBXW_ATTRIBUTE_MAPPING_VERTEX
          else scene
      | None => scene
      end
  | None => scene
  end.

(** Lines 959-988: the [texcoords] block. *)
Definition set_uvs_step (head : term) (mesh : ufbxw_mesh) (scene : ufbxw_scene)
  : ufbxw_scene :=
  match get_map_list head "texcoords" with
  | Some texcoords_list =>
      match enif_get_list_length texcoords_list with
      | Some texcoords_len =>
          let uv_count := (texcoords_len / 2)%nat in
          if (0 <? uv_count)%nat && (texcoords_len mod 2 =? 0)%nat then
            let uvs := decode_vec2_array uv_count texcoords_list in
            let uvs_buf := ufbxw_copy_array uvs uv_count in
            ufbxw_mesh_set_uvs scene mesh 0 uvs_buf UFBXW_ATTRIBUTE_MAPPING_VERTEX
          else scene
      | None => scene
      end
  | None => scene
  end.

(** Lines 841-856 and 1028-1043: create the mesh, record its id, set
    its name. *)
Definition create_mesh_step (i : nat) (head : term)
  (st : ufbxw_scene * list ufbxw_mesh * list Z)
  : ufbxw_scene * ufbxw_mesh * list ufbxw_mesh * list Z :=
  let '(scene, mesh_handles, mesh_ids) := st in
  let '(scene, mesh) := ufbxw_create_mesh scene in
  let mesh_handles := <[i := mesh]> mesh_handles in
  let mesh_ids :=
    opt_apply (get_map_uint head "id") (fun mesh_id ids => <[i := mesh_id]> ids)
              mesh_ids in
  let scene :=
    opt_apply (get_map_string head "name")
              (fun name_str sc => ufbxw_set_name_len sc (IdMesh mesh) name_str) scene in
  (scene, mesh, mesh_handles, mesh_ids).

(** Lines 838-989: the body of the mesh loop when the scene term has a
    [nodes] list. *)
Definition parse_mesh_step (i : nat) (head : term)
  (st : ufbxw_scene * list ufbxw_mesh * list Z)
  : ufbxw_scene * list ufbxw_mesh * list Z :=
  let '(scene, mesh, mesh_handles, mesh_ids) := create_mesh_step i head st in
  let scene := set_vertices_step head mesh scene in
  let scene := set_triangles_step i head mesh scene in
  let scene := set_normals_step head mesh scene in
  let scene := set_uvs_step head mesh scene in
  (scene, mesh_handles, mesh_ids).

(** Lines 1025-1101: the body of the mesh loop of the branch taken when
    the scene term has no [nodes] key. *)
Definition parse_mesh_step_no_nodes (i : nat) (head : term)
  (st : ufbxw_scene * list ufbxw_mesh * list Z)
  : ufbxw_scene * list ufbxw_mesh * list Z :=
  let '(scene, mesh, mesh_handles, mesh_ids) := create_mesh_step i head st in
  let scene := set_vertices_step head mesh scene in
  let scene := set_triangles_step i head mesh scene in
  (scene, mesh_handles, mesh_ids).

(** Lines 995-1006: the body of the loop that connects meshes to nodes. *)
Definition connect_mesh_step (node_handles : list ufbxw_node) (node_mesh_ids : list Z)
  (meshes_len : nat) (mesh_handles : list ufbxw_mesh) (mesh_ids : list Z)
  (i : nat) (scene : ufbxw_scene) : ufbxw_scene :=
  if negb ((node_mesh_ids !!! i) =? 0) then
    opt_apply (search_id meshes_len 0 mesh_ids (node_mesh_ids !!! i))
              (fun j sc =>
                 ufbxw_node_set_attribute sc (node_handles !!! i)
                                          (IdMesh (mesh_handles !!! j)))
              scene
  else scene.

(** Lines 1115-1133: the body of the materials loop. *)
Definition create_material_step (i : nat) (head : term) (scene : ufbxw_scene)
  : ufbxw_scene :=
  let '(scene, material_id) := ufbxw_create_element scene UFBXW_ELEMENT_MATERIAL in
  let scene :=
    opt_apply (get_map_string head "name")
              (fun name_str sc => ufbxw_set_name_len sc material_id name_str) scene in
  opt_apply (get_map_vec3 head "diffuse_color")
            (fun diffuse sc => ufbxw_set_vec3 sc material_id "DiffuseColor" diffuse)
            scene.

(** Lines 743-1014: the branch taken when the scene term has a [nodes]
    key. *)
Definition build_with_nodes (scene_data_map nodes_list : term) (scene : ufbxw_scene)
  : ufbxw_scene :=
  match enif_get_list_length nodes_list with
  | Some nodes_len =>
      let node_handles := enif_alloc_handles NodeHandles nodes_len in
      let node_ids := enif_alloc_uint NodeIds nodes_len in
      let '(scene, node_handles, node_ids) :=
        for_cells nodes_len 0 nodes_list create_node_step
                  (scene, node_handles, node_ids) in
      let node_mesh_ids := replicate nodes_len 0 in
      let '(scene, node_mesh_ids) :=
        for_cells nodes_len 0 nodes_list
                  (wire_node_step nodes_len node_handles node_ids)
                  (scene, node_mesh_ids) in
      let '(scene, mesh_tables) :=
        match get_map_list scene_data_map "meshes" with
        | Some meshes_list =>
            match enif_get_list_length meshes_list with
            | Some meshes_len =>
                let mesh_handles := enif_alloc_handles MeshHandles meshes_len in
                let mesh_ids := enif_alloc_uint MeshIds meshes_len in
                let '(scene, mesh_handles, mesh_ids) :=
                  for_cells meshes_len 0 meshes_list parse_mesh_step
                            (scene, mesh_handles, mesh_ids) in
                (scene, Some (meshes_len, mesh_handles, mesh_ids))
            | None => (scene, None)
            end
        | None => (scene, None)
        end in
      match mesh_tables with
      | Some (meshes_len, mesh_handles, mesh_ids) =>
          for_range nodes_len
                    (connect_mesh_step node_handles node_mesh_ids
                                       meshes_len mesh_handles mesh_ids)
                    scene
      | None => scene
      end
  | None => scene
  end.

(** Lines 1015-1107: the branch taken when it has none. *)
Definition build_without_nodes (scene_data_map : term) (scene : ufbxw_scene)
  : ufbxw_scene :=
  match get_map_list scene_data_map "meshes" with
  | Some meshes_list =>
      match enif_get_list_length meshes_list with
      | Some meshes_len =>
          let mesh_handles := enif_alloc_handles MeshHandles meshes_len in
          let mesh_ids := enif_alloc_uint MeshIds meshes_len in
          let '(scene, _, _) :=
            for_cells meshes_len 0 meshes_list parse_mesh_step_no_nodes
                      (scene, mesh_handles, mesh_ids) in
          scene
      | None => scene
      end
  | None => scene
  end.

(** Lines 1110-1135. *)
Definition build_materials (scene_data_map : term) (scene : ufbxw_scene)
  : ufbxw_scene :=
  match get_map_list scene_data_map "materials" with
  | Some materials_list =>
      match enif_get_list_length materials_list with
      | Some materials_len =>
          for_cells materials_len 0 materials_list create_material_step scene
      | None => scene
      end
  | None => scene
  end.

Definition build_ufbxw_scene_from_map (scene_data_map : term) : option ufbxw_scene :=
  match ufbxw_create_scene with
  | None => None
  | Some scene =>
      let scene :=
        match get_map_list scene_data_map "nodes" with
        | Some nodes_list => build_with_nodes scene_data_map nodes_list scene
        | None => build_without_nodes scene_data_map scene
        end in
      Some (build_materials scene_data_map scene)
  end.

(** Lines 1181-1192: the format and the save options. *)
Definition determine_format (format_atom : term) : ufbxw_save_format :=
  match enif_get_atom format_atom 256 with
  | Some atom_buf =>
      if String.eqb (c_str atom_buf) "ascii" then UFBXW_SAVE_FORMAT_ASCII
      else UFBXW_SAVE_FORMAT_BINARY
  | None => UFBXW_SAVE_FORMAT_BINARY
  end.

Definition save_opts_for (format_atom : term) : ufbxw_save_opts :=
  {| format := determine_format format_atom; version := 7400 |}.

(** [snprintf(error_msg, 256, "Failed to save FBX: %s", description)]. *)
Definition save_error_message (description : string) : string :=
  substring 0 255 ("Failed to save FBX: " ++ c_str description)%string.

(** Lines 1194-1217: save, and the reply. *)
Definition save_and_report (scene : ufbxw_scene) (file_path : string)
  (opts : ufbxw_save_opts) : nif_result :=
  let '(success, description) := ufbxw_save_file scene file_path opts in
  if negb success then
    Return (enif_make_tuple2 (enif_make_atom "error")
                             (enif_make_string (save_error_message description)))
  else
    Return (enif_make_tuple2 (enif_make_atom "ok") (enif_make_string file_path)).

Definition write_fbx_nif (argv : list term) : nif_result :=
  match argv with
  | [argv0; argv1; argv2] =>
      match enif_inspect_binary argv0 with
      | None => Badarg
      | Some file_path_bin =>
          if negb (enif_is_map argv1) then Badarg
          else
            let scene_data_map := argv1 in
            let format_atom := argv2 in
            let file_path := c_str file_path_bin in
            match build_ufbxw_scene_from_map scene_data_map with
            | None =>
                Return (enif_make_tuple2
                          (enif_make_atom "error")
                          (enif_make_string "Failed to create ufbxw_scene"))
            | Some scene => save_and_report scene file_path (save_opts_for format_atom)
            end
      end
  | _ => Badarg
  end.

End Builder.

(** ** Vocabulary of the statements *)

(** The proper list term with the given elements, and back. *)
Fixpoint term_list (l : list term) : term :=
  match l with
  | [] => TNil
  | t :: rest => TCons t (term_list rest)
  end.

Fixpoint list_of_term (t : term) : option (list term) :=
  match t with
  | TNil => Some []
  | TCons hd tl =>
      match list_of_term tl with
      | Some l => Some (hd :: l)
      | None => None
      end
  | _ => None
  end.

(** The entries of the list a scene term holds under [key]. *)
Definition map_list_entries (map : term) (key : string) : option (list term) :=
  match get_map_list map key with
  | Some t => list_of_term t
  | None => None
  end.

(** The [nodes] key is absent, or holds a proper list: the two cases in
    which the builder goes on to the meshes. *)
Definition nodes_absent_or_list (scene_data_map : term) : Prop :=
  get_map_list scene_data_map "nodes" = None
  \/ is_Some (map_list_entries scene_data_map "nodes").

(** The term is a double. *)
Definition is_double (t : term) : bool :=
  match t with
  | TFloat _ => true
  | _ => false
  end.

(** A flat sequence of doubles: a proper list whose elements are all
    doubles. *)
Definition flat_doubles (t : term) : bool :=
  match list_of_term t with
  | Some l => forallb is_double l
  | None => false
  end.

(** [for_cells] over the elements of a proper list. *)
Fixpoint fold_cells {St : Type} (i : nat) (l : list term)
  (body : nat -> term -> St -> St) (st : St) : St :=
  match l with
  | [] => st
  | head :: rest => fold_cells (S i) rest body (body i head st)
  end.

(** An element read as a double, or the default when it is not one. *)
Definition double_or (dflt : double) (t : term) : double :=
  match t with
  | TFloat d => d
  | _ => dflt
  end.

(** The elements of a flat list taken three by three (two by two), each
    read with [double_or]. *)
Fixpoint group3 (z0 : double) (l : list term) : list ufbxw_vec3 :=
  match l with
  | x :: y :: z :: rest =>
      {| w3_x := double_or 0%float x; w3_y := double_or 0%float y;
         w3_z := double_or z0 z |} :: group3 z0 rest
  | _ => []
  end.

Fixpoint group2 (l : list term) : list ufbxw_vec2 :=
  match l with
  | u :: v :: rest =>
      {| w2_x := double_or 0%float u; w2_y := double_or 0%float v |} :: group2 rest
  | _ => []
  end.

(** What slot [k] of an id table holds once the entry [head] has been
    through the creation loop: the declared id, or what the memory held. *)
Definition recorded_id (uninit : alloc_site -> nat -> Z) (site : alloc_site)
  (k : nat) (head : term) : Z :=
  match get_map_uint head "id" with
  | Some id => id
  | None => uninit site k
  end.

(** The attribute blocks of the mesh loop, as what they do to the one mesh
    they are given. *)
Definition positions_update (head : term) (d : ufbxw_mesh_data) : ufbxw_mesh_data :=
  match get_map_list head "positions" with
  | Some positions_list =>
      match enif_get_list_length positions_list with
      | Some positions_len =>
          let vertex_count := (positions_len / 3)%nat in
          if (0 <? vertex_count)%nat && (positions_len mod 3 =? 0)%nat then
            mesh_set_vertices
              (ufbxw_copy_array (decode_vec3_array vertex_count positions_list 0%float)
                                vertex_count) d
          else d
      | None => d
      end
  | None => d
  end.

Definition triangles_update (uninit : alloc_site -> nat -> Z) (i : nat) (head : term)
  (d : ufbxw_mesh_data) : ufbxw_mesh_data :=
  match get_map_list head "indices" with
  | Some indices_list =>
      match enif_get_list_length indices_list with
      | Some indices_len =>
          mesh_set_triangles
            (ufbxw_copy_array
               (for_cells indices_len 0 indices_list
                  (fun j idx_head indices =>
                     opt_apply (enif_get_uint idx_head)
                               (fun idx_val indices => <[j := to_int32 idx_val]> indices)
                               indices)
                  (enif_alloc_uint uninit (Indices i) indices_len))
               indices_len) d
      | None => d
      end
  | None => d
  end.

Definition normals_update (head : term) (d : ufbxw_mesh_data) : ufbxw_mesh_data :=
  match get_map_list head "normals" with
  | Some normals_list =>
      match enif_get_list_length normals_list with
      | Some normals_len =>
          let normal_count := (normals_len / 3)%nat in
          if (0 <? normal_count)%nat && (normals_len mod 3 =? 0)%nat then
            mesh_set_normals
              (ufbxw_copy_array (decode_vec3_array normal_count normals_list 1%float)
                                normal_count)
              UFBXW_ATTRIBUTE_MAPPING_VERTEX d
          else d
      | None => d
      end
  | None => d
  end.

Definition uvs_update (head : term) (d : ufbxw_mesh_data) : ufbxw_mesh_data :=
  match get_map_list head "texcoords" with
  | Some texcoords_list =>
      match enif_get_list_length texcoords_list with
      | Some texcoords_len =>
          let uv_count := (texcoords_len / 2)%nat in
          if (0 <? uv_count)%nat && (texcoords_len mod 2 =? 0)%nat then
            mesh_set_uvs 0 (ufbxw_copy_array (decode_vec2_array uv_count texcoords_list)
                                             uv_count)
                         UFBXW_ATTRIBUTE_MAPPING_VERTEX d
          else d
      | None => d
      end
  | None => d
  end.

(** The mesh an entry becomes: in the loop of the [nodes] branch
    ([full]), and in the loop of the branch without [nodes]. *)
Definition built_mesh (uninit : alloc_site -> nat -> Z) (full : bool) (i : nat)
  (head : term) : ufbxw_mesh_data :=
  let d := opt_apply (get_map_string head "name") mesh_set_name new_mesh in
  let d := positions_update head d in
  let d := triangles_update uninit i head d in
  if full then uvs_update head (normals_update head d) else d.

(** The node an entry becomes in the creation loop. *)
Definition built_node (head : term) : ufbxw_node_data :=
  let d := opt_apply (get_map_string head "name") node_set_name new_node in
  let d := opt_apply (get_map_vec3 head "translation") node_set_translation d in
  let d :=
    opt_apply (get_map_vec4 head "rotation")
              (fun v =>
                 node_set_rotation
                   {| wq_x := w4_x v; wq_y := w4_y v; wq_z := w4_z v; wq_w := w4_w v |}
                   UFBXW_ROTATION_ORDER_XYZ) d in
  opt_apply (get_map_vec3 head "scale") node_set_scaling d.

(** The meshes of the scene the builder returns. *)
Definition built_meshes (uninit : alloc_site -> nat -> Z) (scene_data_map : term)
  : list ufbxw_mesh_data :=
  let entries := default [] (map_list_entries scene_data_map "meshes") in
  match get_map_list scene_data_map "nodes" with
  | Some nodes_list =>
      match enif_get_list_length nodes_list with
      | Some _ => imap (built_mesh uninit true) entries
      | None => []
      end
  | None => imap (built_mesh uninit false) entries
  end.

(** A colour source counts when it has a value of at least three
    components. *)
Definition usable (m : ufbx_material_map) : bool :=
  has_value m && (3 <=? value_components m).

(** The colour precedence in the spec's words: prefer the physically-based
    value over the legacy value when both are present and have at least 3
    numeric components; otherwise fall back to whichever is present. *)
Definition spec_color_choice (pbr_map fbx_map : ufbx_material_map) : option ufbx_vec3 :=
  if usable pbr_map && usable fbx_map then Some (value_vec3 pbr_map)
  else if usable pbr_map then Some (value_vec3 pbr_map)
  else if usable fbx_map then Some (value_vec3 fbx_map)
  else None.

(** The term of a colour: the list of its three components. *)
Definition color_term (c : ufbx_vec3) : term :=
  term_list [TFloat (v3_x c); TFloat (v3_y c); TFloat (v3_z c)].

(** The colour precedence read word for word, a source being present as
    soon as it has a value: the physically-based value when both sources
    are present with at least three components; otherwise the value of
    whichever source is present.  (When both are present and one of them
    has fewer than three components the words leave the choice open; the
    physically-based one is taken here, and nothing below rests on it.) *)
Definition stated_color_choice (pbr_map fbx_map : ufbx_material_map) : option ufbx_vec3 :=
  if usable pbr_map && usable fbx_map then Some (value_vec3 pbr_map)
  else if has_value pbr_map then Some (value_vec3 pbr_map)
  else if has_value fbx_map then Some (value_vec3 fbx_map)
  else None.

(** The transform channels; a keyframe carries exactly one. *)
Inductive channel : Type := Translation | Rotation | Scale.

Definition channel_field (ch : channel) : string :=
  match ch with
  | Translation => "translation"
  | Rotation => "rotation"
  | Scale => "scale"
  end.

Definition channel_eqb (a b : channel) : bool :=
  match a, b with
  | Translation, Translation | Rotation, Rotation | Scale, Scale => true
  | _, _ => false
  end.

(** The times of the baked source samples of one channel of a node. *)
Definition channel_times (bn : ufbx_baked_node) (ch : channel) : list double :=
  match ch with
  | Translation => map bv3_time (translation_keys bn)
  | Rotation => map bq_time (rotation_keys bn)
  | Scale => map bv3_time (scale_keys bn)
  end.

(** The keyframe terms the extractor makes for one channel of a node. *)
Definition channel_keyframe_terms (bn : ufbx_baked_node) (ch : channel) : list term :=
  let node_id := baked_typed_id bn in
  match ch with
  | Translation =>
      map (fun k => tag_keyframe node_id (extract_vec3_keyframe k "translation")
                                 "translation") (translation_keys bn)
  | Rotation =>
      map (fun k => tag_keyframe node_id (extract_quat_keyframe k) "rotation")
          (rotation_keys bn)
  | Scale =>
      map (fun k => tag_keyframe node_id (extract_vec3_keyframe k "scale") "scale")
          (scale_keys bn)
  end.

(** The keyframe term is one of node [node_id], on channel [ch]. *)
Definition keyframe_in (node_id : Z) (ch : channel) (keyframe : term) : bool :=
  match enif_get_map_value keyframe "node_id" with
  | Some (TInt z) =>
      (z =? node_id) && is_some (enif_get_map_value keyframe (channel_field ch))
  | _ => false
  end.

(** The [time] of a keyframe term. *)
Definition keyframe_time (keyframe : term) : option double :=
  match enif_get_map_value keyframe "time" with
  | Some t => enif_get_double t
  | None => None
  end.

(** The flattened keyframe list of an animation term. *)
Definition animation_keyframes (animation : term) : list term :=
  match enif_get_map_value animation "keyframes" with
  | Some t => default [] (list_of_term t)
  | None => []
  end.

(** [a <= b] on doubles. *)
Definition double_le (a b : double) : Prop := PrimFloat.leb a b = true.

(** The keyframe terms of one baked node, in the order they end up in
    the list: the inner loops cons the translation keys first and the
    scale keys last. *)
Definition node_keyframe_terms (bn : ufbx_baked_node) : list term :=
  channel_keyframe_terms bn Scale ++ channel_keyframe_terms bn Rotation
  ++ channel_keyframe_terms bn Translation.

(** Two keyframe terms carry times, the first no later than the second. *)
Definition keyframe_time_le (a b : term) : Prop :=
  exists ta tb, keyframe_time a = Some ta /\ keyframe_time b = Some tb /\ double_le ta tb.

(** The scene has a node [i], and it has no parent. *)
Definition unparented_at (i : nat) (scene : ufbxw_scene) : Prop :=
  exists d, sc_nodes scene !! i = Some d /\ wn_parent d = None.

(** ** Sample inputs *)

(** A map term with atom keys. *)
Definition atom_map (kvs : list (string * term)) : term :=
  TMap ((fun kv => (TAtom (fst kv), snd kv)) <$> kvs).

Definition alloc_always : nat -> bool := fun _ => true.

Definition never_baked
  : ufbx_scene -> ufbx_anim -> ufbx_bake_opts -> option ufbx_baked_anim :=
  fun _ _ _ => None.

Definition zeroed_memory : alloc_site -> nat -> Z := fun _ _ => 0.

Definition writer_succeeds : ufbxw_scene -> string -> ufbxw_save_opts -> bool * string :=
  fun _ _ _ => (true, "").

Definition vec3_of (x y z : double) : ufbx_vec3 := {| v3_x := x; v3_y := y; v3_z := z |}.

(** A parsed mesh with two vertices, each with a normal and a texture
    coordinate. *)
Definition edge_mesh : ufbx_mesh :=
  {| mesh_typed_id := 0;
     mesh_name := "Edge";
     vertex_position :=
       {| vv3_exists := true;
          vv3_values := [vec3_of 0 0 0; vec3_of 1 2 3];
          vv3_indices := [0; 1] |};
     vertex_normal :=
       {| vv3_exists := true;
          vv3_values := [vec3_of 0 0 1; vec3_of 0 0 1];
          vv3_indices := [0; 1] |};
     vertex_uv :=
       {| vv2_exists := true;
          vv2_values := [{| v2_x := 0; v2_y := 0 |}; {| v2_x := 1; v2_y := 0.5 |}];
          vv2_indices := [0; 1] |};
     mesh_materials := [] |}.

Definition edge_scene : ufbx_scene :=
  {| nodes := []; meshes := [edge_mesh]; materials := []; textures := [];
     anim_stacks := []; metadata_version := 7400 |}.

Definition edge_parser : string -> ufbx_scene + string := fun _ => inl edge_scene.

(** The scene of the spec's Scenario A as a scene term: one node "Root"
    that refers to the one mesh "Cube" by [mesh_id]. *)
Definition root_cube_term (mesh_id : Z) : term :=
  atom_map
    [("nodes",
      term_list [atom_map [("id", TInt 0); ("name", TBinary "Root");
                           ("mesh_id", TInt mesh_id)]]);
     ("meshes",
      term_list [atom_map [("id", TInt mesh_id); ("name", TBinary "Cube");
                           ("positions",
                            term_list [TFloat 0; TFloat 0; TFloat 0])]])].

(** One mesh entry with all four attributes. *)
Definition full_mesh_entry : term :=
  atom_map [("id", TInt 1);
            ("positions", term_list [TFloat 0; TFloat 0; TFloat 0]);
            ("indices", term_list [TInt 0; TInt 0; TInt 0]);
            ("normals", term_list [TFloat 0; TFloat 0; TFloat 1]);
            ("texcoords", term_list [TFloat 0.5; TFloat 0.5])].

(** A scene term holding that mesh, without and with a [nodes] key. *)
Definition lone_mesh_term (with_nodes_key : bool) : term :=
  atom_map
    ((if with_nodes_key then [("nodes", TNil)] else [])
     ++ [("meshes", term_list [full_mesh_entry])]).

(** A mesh entry whose [positions] has four elements. *)
Definition short_positions_entry : term :=
  atom_map [("id", TInt 0);
            ("positions", term_list [TFloat 0; TFloat 0; TFloat 0; TFloat 1])].

Definition short_positions_term : term :=
  atom_map [("meshes", term_list [short_positions_entry])].

(** A mesh entry whose attributes hold integers where doubles belong. *)
Definition mixed_elements : list term := [TFloat 1; TInt 2; TFloat 3; TInt 4; TInt 5; TInt 6].

Definition mixed_entry : term :=
  atom_map [("id", TInt 0);
            ("positions", term_list mixed_elements);
            ("normals", term_list mixed_elements);
            ("texcoords", term_list mixed_elements)].

Definition mixed_term : term :=
  atom_map [("nodes", TNil); ("meshes", term_list [mixed_entry])].

(** The spec's Scenario B: the second node names a parent that is not in
    the node list. *)
Definition orphan_entry : term := atom_map [("id", TInt 1); ("parent_id", TInt 7)].

Definition orphan_term : term :=
  atom_map [("nodes", term_list [atom_map [("id", TInt 0)]; orphan_entry])].

(** A baked animation of one node with two translation samples. *)
Definition two_key_node : ufbx_baked_node :=
  {| baked_typed_id := 3;
     translation_keys :=
       [{| bv3_time := 0; bv3_value := vec3_of 0 0 0 |};
        {| bv3_time := 0.5; bv3_value := vec3_of 1 0 0 |}];
     rotation_keys := [];
     scale_keys := [{| bv3_time := 0; bv3_value := vec3_of 1 1 1 |}] |}.

Definition two_key_anim : ufbx_baked_anim := {| baked_nodes := [two_key_node] |}.

Definition take_one : ufbx_anim_stack :=
  {| stack_typed_id := 0; stack_name := "Take 001"; stack_anim := O |}.

(** A parsed scene with one animation stack and nothing else. *)
Definition take_scene : ufbx_scene :=
  {| nodes := []; meshes := []; materials := []; textures := [];
     anim_stacks := [take_one]; metadata_version := 7400 |}.

(** ** Vocabulary of the further properties *)

(** The term of a reference to another element: its typed id. *)
Definition id_term (p : ufbx_element_ptr) : term := TInt (ptr_typed_id p).

(** A keyframe term as the data model has it: the node, the time and one
    channel field. *)
Definition keyframe_term (node_id : Z) (time : double) (field : string) (value : term)
  : term :=
  atom_map [("node_id", TInt node_id); ("time", TFloat time); (field, value)].

Definition vec3_keyframes (node_id : Z) (field : string) (keys : list ufbx_baked_vec3)
  : list term :=
  (fun k => keyframe_term node_id (bv3_time k) field
              (term_list [TFloat (v3_x (bv3_value k)); TFloat (v3_y (bv3_value k));
                          TFloat (v3_z (bv3_value k))])) <$> keys.

Definition quat_keyframes (node_id : Z) (keys : list ufbx_baked_quat) : list term :=
  (fun k => keyframe_term node_id (bq_time k) "rotation"
              (term_list [TFloat (q_x (bq_value k)); TFloat (q_y (bq_value k));
                          TFloat (q_z (bq_value k)); TFloat (q_w (bq_value k))])) <$> keys.

(** An id table once the creation loop has run over [entries]. *)
Definition recorded_ids (uninit : alloc_site -> nat -> Z) (site : alloc_site)
  (entries : list term) : list Z :=
  imap (recorded_id uninit site) entries.

(** The node the inner loop of the wiring loop stops at for the entry
    [head]: the first one whose recorded id is the entry's [parent_id]. *)
Definition resolved_parent (uninit : alloc_site -> nat -> Z) (entries : list term)
  (head : term) : option nat :=
  match get_map_uint head "parent_id" with
  | Some parent_id =>
      search_id (length entries) 0 (recorded_ids uninit NodeIds entries) parent_id
  | None => None
  end.

(** The mesh the connecting loop stops at for the entry [head];
    [mesh_entries] is [None] when the builder has no mesh tables. *)
Definition resolved_mesh (uninit : alloc_site -> nat -> Z)
  (mesh_entries : option (list term)) (head : term) : option nat :=
  match mesh_entries, get_map_uint head "mesh_id" with
  | Some ms, Some mesh_id =>
      if mesh_id =? 0 then None
      else search_id (length ms) 0 (recorded_ids uninit MeshIds ms) mesh_id
  | _, _ => None
  end.

(** The node an entry has become after the wiring loop, and at the end. *)
Definition wired_node (uninit : alloc_site -> nat -> Z) (entries : list term)
  (head : term) : ufbxw_node_data :=
  opt_apply (resolved_parent uninit entries head) node_set_parent (built_node head).

Definition final_node (uninit : alloc_site -> nat -> Z) (entries : list term)
  (mesh_entries : option (list term)) (head : term) : ufbxw_node_data :=
  opt_apply (resolved_mesh uninit mesh_entries head)
            (fun j => node_set_attribute (IdMesh j))
            (wired_node uninit entries head).

(** The nodes of the scene the builder returns. *)
Definition built_nodes (uninit : alloc_site -> nat -> Z) (scene_data_map : term)
  : list ufbxw_node_data :=
  match map_list_entries scene_data_map "nodes" with
  | Some entries =>
      final_node uninit entries (map_list_entries scene_data_map "meshes") <$> entries
  | None => []
  end.

(** The material an entry becomes. *)
Definition built_material (head : term) : ufbxw_material_data :=
  {| wmat_name := get_map_string head "name";
     wmat_props :=
       match get_map_vec3 head "diffuse_color" with
       | Some diffuse => [("DiffuseColor", diffuse)]
       | None => []
       end |}.

(** The materials of the scene the builder returns. *)
Definition built_materials (scene_data_map : term) : list ufbxw_material_data :=
  built_material <$> default [] (map_list_entries scene_data_map "materials").

(** The quaternion the builder passes on for a decoded [rotation]. *)
Definition quat_of_vec4 (v : ufbxw_vec4) : ufbxw_quat :=
  {| wq_x := w4_x v; wq_y := w4_y v; wq_z := w4_z v; wq_w := w4_w v |}.

(** The parser's vectors as the writer's. *)
Definition w3_of (v : ufbx_vec3) : ufbxw_vec3 :=
  {| w3_x := v3_x v; w3_y := v3_y v; w3_z := v3_z v |}.

Definition wq_of (q : ufbx_quat) : ufbxw_quat :=
  {| wq_x := q_x q; wq_y := q_y q; wq_z := q_z q; wq_w := q_w q |}.

(** What the builder reads back from the name term the extractor makes
    of [name]: nothing from the empty character list of an empty name,
    the name from the binary, and "error" from the atom that stands for a
    failed allocation. *)
Definition written_name (alloc : nat -> bool) (name : ufbx_string) : option string :=
  if String.eqb name "" then None
  else Some (if alloc (String.length name) then name else "error").

(** The mesh link the builder makes from the [mesh_id] the extractor
    emitted for a mesh pointer: none for the mesh with typed id 0. *)
Definition written_mesh_link (mesh : option ufbx_element_ptr) : option ufbxw_id :=
  match mesh with
  | Some m =>
      if ptr_typed_id m =? 0 then None else Some (IdMesh (Z.to_nat (ptr_typed_id m)))
  | None => None
  end.

(** Every double in the term is finite: the terms [enif_make_double]
    can make without raising. *)
Fixpoint finite_doubles (t : term) : bool :=
  match t with
  | TFloat d => PrimFloat.is_finite d
  | TCons head tail => finite_doubles head && finite_doubles tail
  | TTuple elems => forallb finite_doubles elems
  | TMap pairs => forallb (fun kv => finite_doubles kv.1 && finite_doubles kv.2) pairs
  | _ => true
  end.

(** The keys the builder looks up in a node, a mesh and a material entry. *)
Definition node_keys : list string :=
  ["id"; "name"; "translation"; "rotation"; "scale"; "parent_id"; "mesh_id"].

Definition mesh_keys : list string :=
  ["id"; "name"; "positions"; "indices"; "normals"; "texcoords"].

Definition material_keys : list string := ["name"; "diffuse_color"].

(** Two entries hold the same value, or both none, under each of [keys]. *)
Definition same_on (keys : list string) (a b : term) : Prop :=
  forall key, In key keys -> enif_get_map_value a key = enif_get_map_value b key.

(** ** Further sample inputs *)

Definition writer_fails : ufbxw_scene -> string -> ufbxw_save_opts -> bool * string :=
  fun _ _ _ => (false, "disk full").

(** A path with a NUL byte in it. *)
Definition nul_path : string := "out.fbx" ++ String Ascii.zero "ignored".

(** A node entry that names itself as its parent. *)
Definition self_parent_entry : term := atom_map [("id", TInt 5); ("parent_id", TInt 5)].

Definition self_parent_term : term :=
  atom_map [("nodes", term_list [self_parent_entry])].

(** A node that names a mesh no entry declares. *)
Definition stray_mesh_id_entry : term := atom_map [("id", TInt 0); ("mesh_id", TInt 9)].

Definition stray_mesh_id_term : term :=
  atom_map [("nodes", term_list [stray_mesh_id_entry]);
            ("meshes", term_list [atom_map [("id", TInt 1)]])].

(** A mesh entry whose [indices] hold a large index and a non-integer. *)
Definition odd_indices : list term := [TInt 7; TInt 4294967295; TFloat 1; TInt 2].

Definition odd_indices_entry : term :=
  atom_map [("id", TInt 0); ("indices", term_list odd_indices)].

Definition odd_indices_term : term :=
  atom_map [("meshes", term_list [odd_indices_entry])].

(** The pairs of a scene term with one node. *)
Definition one_node_pairs : list (term * term) :=
  [(TAtom "nodes", term_list [atom_map [("id", TInt 0); ("name", TBinary "Root")]])].

(** A parsed scene of two nodes and two meshes: the child's parent is
    node 0, the root carries mesh 0 and the child mesh 1. *)
Definition plain_transform : ufbx_transform :=
  {| translation := vec3_of 0 0 0;
     rotation := {| q_x := 0; q_y := 0; q_z := 0; q_w := 1 |};
     scale := vec3_of 1 1 1 |}.

Definition blank_mesh (typed_id : Z) : ufbx_mesh :=
  {| mesh_typed_id := typed_id;
     mesh_name := "";
     vertex_position := {| vv3_exists := false; vv3_values := []; vv3_indices := [] |};
     vertex_normal := {| vv3_exists := false; vv3_values := []; vv3_indices := [] |};
     vertex_uv := {| vv2_exists := false; vv2_values := []; vv2_indices := [] |};
     mesh_materials := [] |}.

Definition family_scene : ufbx_scene :=
  {| nodes :=
       [ {| node_typed_id := 0; node_name := "Root"; node_parent := None;
            node_children := [{| ptr_typed_id := 1 |}];
            node_local_transform := plain_transform;
            node_mesh := Some {| ptr_typed_id := 0 |} |};
         {| node_typed_id := 1; node_name := "Child";
            node_parent := Some {| ptr_typed_id := 0 |};
            node_children := [];
            node_local_transform := plain_transform;
            node_mesh := Some {| ptr_typed_id := 1 |} |} ];
     meshes := [blank_mesh 0; blank_mesh 1];
     materials := []; textures := []; anim_stacks := [];
     metadata_version := 7400 |}.

(** A scene term as the extractor shapes it, and the same with the keys
    the builder does not read taken out of the entries. *)
Definition linked_term : term :=
  atom_map
    [("nodes", term_list [atom_map [("id", TInt 0); ("children", term_list [TInt 1])];
                          atom_map [("id", TInt 1); ("parent_id", TInt 0);
                                    ("mesh_id", TInt 1)]]);
     ("meshes", term_list [atom_map [("id", TInt 1);
                                     ("material_ids", term_list [TInt 0])]]);
     ("materials", term_list [atom_map [("id", TInt 0); ("name", TBinary "Red");
                                        ("specular_color",
                                         term_list [TFloat 1; TFloat 0; TFloat 0])]])].

Definition unlinked_term : term :=
  atom_map
    [("nodes", term_list [atom_map [("id", TInt 0)];
                          atom_map [("id", TInt 1); ("parent_id", TInt 0);
                                    ("mesh_id", TInt 1)]]);
     ("meshes", term_list [atom_map [("id", TInt 1)]]);
     ("materials", term_list [atom_map [("name", TBinary "Red")]])].

(** A material whose physically-based base colour has a value of two
    components only, and which has no legacy colour at all. *)
Definition no_color : ufbx_material_map :=
  {| has_value := false; value_components := 0; value_vec3 := vec3_of 0 0 0 |}.

Definition short_base_material : ufbx_material :=
  {| material_typed_id := 0;
     material_name := "Grey";
     pbr := {| base_color :=
                 {| has_value := true; value_components := 2;
                    value_vec3 := vec3_of 0.5 0.25 0 |};
               pbr_specular_color := no_color;
               pbr_emission_color := no_color |};
     fbx := {| diffuse_color := no_color;
               fbx_specular_color := no_color;
               fbx_emission_color := no_color |} |}.



(** Two nodes, of which the first declares no id and the second names
    the parent 0, an id that no entry declares. *)
Definition idless_parent_term : term :=
  atom_map
    [("nodes", term_list [atom_map [("name", TBinary "NoId")];
                          atom_map [("id", TInt 1); ("parent_id", TInt 0)]])].

(** Freshly allocated memory that holds 9, or 7, in every slot. *)
Definition stale_memory : alloc_site -> nat -> Z := fun _ _ => 9.

Definition sevens_memory : alloc_site -> nat -> Z := fun _ _ => 7.

(** A node that names the mesh 7, and one mesh entry that declares no
    id. *)
Definition idless_mesh_term : term :=
  atom_map
    [("nodes", term_list [atom_map [("id", TInt 0); ("mesh_id", TInt 7)]]);
     ("meshes", term_list [atom_map [("name", TBinary "NoId")]])].

(** The mesh entry of [mixed_term] in a scene term without [nodes] key,
    and in one whose [nodes] is not a list. *)
Definition mixed_term_without_nodes : term :=
  atom_map [("meshes", term_list [mixed_entry])].

Definition mixed_term_odd_nodes : term :=
  atom_map [("nodes", TInt 5); ("meshes", term_list [mixed_entry])].

(** * Theorems *)

(** ** Lists and loops *)

Lemma list_of_term_list (l : list term) : list_of_term (term_list l) = Some l.
Proof. induction l as [|t l IH]; simpl; [done|]. by rewrite IH. Qed.

Lemma list_of_term_inv (t : term) (l : list term) :
  list_of_term t = Some l -> t = term_list l.
Proof.
  revert l. induction t; intros l H; simpl in H; try discriminate.
  - by inversion H.
  - destruct (list_of_term t2) as [l'|] eqn:E; [|discriminate].
    inversion H; subst. simpl. f_equal. by apply IHt2.
Qed.

Lemma get_list_length_term_list (l : list term) :
  enif_get_list_length (term_list l) = Some (length l).
Proof. induction l as [|t l IH]; simpl; [done|]. by rewrite IH. Qed.

Lemma for_cells_term_list {St : Type} (l : list term) (i : nat)
  (body : nat -> term -> St -> St) (st : St) :
  for_cells (length l) i (term_list l) body st = fold_cells i l body st.
Proof.
  revert i st. induction l as [|t l IH]; intros i st; simpl; [done|]. apply IH.
Qed.

Lemma for_cells_invariant {St : Type} (P : St -> Prop)
  (body : nat -> term -> St -> St) (n i : nat) (t : term) (st : St) :
  P st -> (forall k h st', P st' -> P (body k h st')) -> P (for_cells n i t body st).
Proof.
  intros H0 Hstep. revert i t st H0.
  induction n as [|n IH]; intros i t st H0; simpl; [done|].
  destruct (enif_get_list_cell t) as [[h tl]|]; [|done]. apply IH. by apply Hstep.
Qed.

Lemma for_range_invariant {St : Type} (P : St -> Prop)
  (body : nat -> St -> St) (n : nat) (st : St) :
  P st -> (forall k st', P st' -> P (body k st')) -> P (for_range n body st).
Proof.
  intros H0 Hstep. unfold for_range. generalize (seq 0 n). intros l. revert st H0.
  induction l as [|k l IH]; intros st H0; simpl; [done|]. apply IH. by apply Hstep.
Qed.

Lemma for_down_cons {A : Type} (f : A -> term) (data : list A) (init : term) :
  for_down data (fun a acc => enif_make_list_cell (f a) acc) init
  = fold_right TCons init (map f data).
Proof.
  unfold for_down. rewrite <- fold_left_rev_right, rev_involutive.
  induction data as [|a data IH]; simpl; [done|]. by rewrite IH.
Qed.

(** ** Extraction: colours and names *)

Lemma color_entry_spec (key : string) (pbr_map fbx_map : ufbx_material_map) :
  color_entry key pbr_map fbx_map
  = match spec_color_choice pbr_map fbx_map with
    | Some color => [(key, make_vec3 color)]
    | None => []
    end.
Proof.
  unfold color_entry, spec_color_choice, usable.
  destruct (has_value pbr_map && (3 <=? value_components pbr_map));
    destruct (has_value fbx_map && (3 <=? value_components fbx_map)); reflexivity.
Qed.

(** C5.  A colour source counts when it has a value of at least three
    components.  For each of [diffuse_color], [specular_color] and
    [emissive_color]: when the physically-based source counts, the
    extracted material carries the list of its three components under the
    key, whether or not the legacy source counts; when it does not and the
    legacy source counts, the list of the legacy source's components; when
    neither counts, also when a source has a value of fewer than three
    components, the key is absent. *)
Theorem material_color_precedence (alloc : nat -> bool) (material : ufbx_material) :
  let emitted := enif_get_map_value (extract_material alloc material) in
  let rule (key : string) (pbr_map fbx_map : ufbx_material_map) : Prop :=
    (usable pbr_map = true -> emitted key = Some (color_term (value_vec3 pbr_map)))
    /\ (usable pbr_map = false -> usable fbx_map = true ->
        emitted key = Some (color_term (value_vec3 fbx_map)))
    /\ (usable pbr_map = false -> usable fbx_map = false -> emitted key = None) in
  rule "diffuse_color" (base_color (pbr material)) (diffuse_color (fbx material))
  /\ rule "specular_color" (pbr_specular_color (pbr material))
                          (fbx_specular_color (fbx material))
  /\ rule "emissive_color" (pbr_emission_color (pbr material))
                          (fbx_emission_color (fbx material)).
Proof.
  intros emitted rule. subst emitted rule. cbv beta.
  unfold extract_material. rewrite !color_entry_spec. unfold spec_color_choice.
  destruct (usable (base_color (pbr material))),
    (usable (diffuse_color (fbx material))),
    (usable (pbr_specular_color (pbr material))),
    (usable (fbx_specular_color (fbx material))),
    (usable (pbr_emission_color (pbr material))),
    (usable (fbx_emission_color (fbx material)));
    repeat split; intros; try discriminate; reflexivity.
Qed.

(** C5, the claim as stated.  The material below has a physically-based
    base colour of two components and no legacy diffuse colour: read word
    for word the rule falls back to the one source that is present, and the
    extracted material has no [diffuse_color] at all. *)
Lemma material_color_precedence_counterexample :
  has_value (base_color (pbr short_base_material)) = true
  /\ has_value (diffuse_color (fbx short_base_material)) = false
  /\ stated_color_choice (base_color (pbr short_base_material))
                         (diffuse_color (fbx short_base_material))
     = Some (vec3_of 0.5 0.25 0)
  /\ enif_get_map_value (extract_material alloc_always short_base_material)
                        "diffuse_color"
     = None.
Proof. repeat split; reflexivity. Qed.

Lemma make_string_shape (alloc : nat -> bool) (str : ufbx_string) :
  alloc (String.length str) = true ->
  make_string alloc str = if String.eqb str "" then charlist "" else TBinary str.
Proof.
  intros Ha. unfold make_string. rewrite Ha. destruct str; reflexivity.
Qed.

(** C10.  Every extracted node, mesh, material, texture and animation
    has a [name] key, never omitted.  When the runtime grants the binaries
    asked of it, the value is a binary holding the name when the source
    name is non-empty, and the empty Latin-1 character list (a list term,
    not a binary) when it is empty. *)
Theorem name_field_always_emitted (alloc : nat -> bool) :
  (forall n, alloc n = true) ->
  let name_term (str : ufbx_string) :=
    Some (if String.eqb str "" then charlist "" else TBinary str) in
  (forall node node_id,
      enif_get_map_value (extract_node alloc node node_id) "name"
      = name_term (node_name node))
  /\ (forall mesh,
      enif_get_map_value (extract_mesh alloc mesh) "name" = name_term (mesh_name mesh))
  /\ (forall material,
      enif_get_map_value (extract_material alloc material) "name"
      = name_term (material_name material))
  /\ (forall texture,
      enif_get_map_value (extract_texture alloc texture) "name"
      = name_term (texture_name texture))
  /\ (forall baked anim_stack,
      enif_get_map_value (extract_animation alloc baked anim_stack) "name"
      = name_term (stack_name anim_stack)).
Proof.
  intros Ha name_term. subst name_term. repeat split.
  - intros node node_id. rewrite <- (make_string_shape alloc) by apply Ha.
    unfold extract_node.
    destruct (node_parent node), (node_children node), (node_mesh node); reflexivity.
  - intros mesh. rewrite <- (make_string_shape alloc) by apply Ha.
    unfold extract_mesh.
    destruct (vv3_exists (vertex_position mesh)),
      (vv3_values (vertex_position mesh)), (vv3_indices (vertex_position mesh)),
      (vv3_exists (vertex_normal mesh)), (vv3_values (vertex_normal mesh)),
      (vv2_exists (vertex_uv mesh)), (vv2_values (vertex_uv mesh)),
      (mesh_materials mesh); reflexivity.
  - intros material. rewrite <- (make_string_shape alloc) by apply Ha.
    unfold extract_material. rewrite !color_entry_spec.
    destruct (spec_color_choice _ _), (spec_color_choice _ _), (spec_color_choice _ _);
      reflexivity.
  - intros texture. rewrite <- (make_string_shape alloc) by apply Ha.
    unfold extract_texture. destruct (filename texture); reflexivity.
  - intros baked anim_stack. rewrite <- (make_string_shape alloc) by apply Ha. reflexivity.
Qed.

(** ** Extraction: keyframes *)

Lemma for_down_fold_right {A St : Type} (data : list A) (body : A -> St -> St) (init : St) :
  for_down data body init = fold_right body init data.
Proof. unfold for_down. by rewrite <- fold_left_rev_right, rev_involutive. Qed.

Lemma fold_right_cons_app (l1 l2 : list term) (init : term) :
  fold_right TCons (fold_right TCons init l2) l1 = fold_right TCons init (l1 ++ l2).
Proof. by rewrite fold_right_app. Qed.

Lemma term_list_fold_right (l : list term) : term_list l = fold_right TCons TNil l.
Proof. induction l as [|t l IH]; simpl; [done|]. by rewrite IH. Qed.

Lemma extract_node_keyframes_app (bn : ufbx_baked_node) (all : term) :
  extract_node_keyframes bn all = fold_right TCons all (node_keyframe_terms bn).
Proof.
  unfold extract_node_keyframes, node_keyframe_terms, channel_keyframe_terms.
  rewrite !for_down_cons, !fold_right_cons_app. by rewrite <- app_assoc.
Qed.

Lemma extract_keyframes_concat (baked : ufbx_baked_anim) :
  extract_keyframes baked
  = term_list (concat (map node_keyframe_terms (baked_nodes baked))).
Proof.
  unfold extract_keyframes. rewrite for_down_fold_right, term_list_fold_right.
  induction (baked_nodes baked) as [|bn l IH]; simpl; [done|].
  by rewrite extract_node_keyframes_app, IH, fold_right_cons_app.
Qed.

Lemma filter_channel_terms (node_id : Z) (ch ch' : channel) (bn : ufbx_baked_node) :
  List.filter (keyframe_in node_id ch) (channel_keyframe_terms bn ch')
  = if (baked_typed_id bn =? node_id) && channel_eqb ch ch'
    then channel_keyframe_terms bn ch' else [].
Proof.
  unfold channel_keyframe_terms.
  destruct ch';
    [ induction (translation_keys bn) as [|k l IH]
    | induction (rotation_keys bn) as [|k l IH]
    | induction (scale_keys bn) as [|k l IH] ]; simpl.
  all: try (by destruct (_ && _)).
  all: rewrite IH; unfold keyframe_in; destruct ch; simpl;
    destruct (baked_typed_id bn =? node_id); reflexivity.
Qed.

Lemma filter_node_terms (node_id : Z) (ch : channel) (bn : ufbx_baked_node) :
  List.filter (keyframe_in node_id ch) (node_keyframe_terms bn)
  = if baked_typed_id bn =? node_id then channel_keyframe_terms bn ch else [].
Proof.
  unfold node_keyframe_terms. rewrite !List.filter_app, !filter_channel_terms.
  destruct (baked_typed_id bn =? node_id), ch; simpl; by rewrite ?app_nil_r.
Qed.

Lemma filter_all_nodes (ch : channel) (bn : ufbx_baked_node) (l : list ufbx_baked_node) :
  List.NoDup (map baked_typed_id l) -> In bn l ->
  List.filter (keyframe_in (baked_typed_id bn) ch) (concat (map node_keyframe_terms l))
  = channel_keyframe_terms bn ch.
Proof.
  induction l as [|b l IH]; intros Hnd Hin; [destruct Hin|].
  simpl in *. rewrite List.filter_app, filter_node_terms.
  apply List.NoDup_cons_iff in Hnd as [Hnotin Hnd].
  assert (Hrest : forall b', ~ In (baked_typed_id b') (map baked_typed_id l) ->
            List.filter (keyframe_in (baked_typed_id b') ch)
                        (concat (map node_keyframe_terms l)) = []).
  { clear. intros b' Hb'. induction l as [|c l IHl]; simpl; [done|].
    rewrite List.filter_app, filter_node_terms.
    destruct (Z.eqb_spec (baked_typed_id c) (baked_typed_id b')) as [E|_].
    - exfalso. apply Hb'. left. done.
    - simpl. apply IHl. intros H. apply Hb'. by right. }
  destruct Hin as [->|Hin].
  - rewrite Z.eqb_refl, Hrest by done. by rewrite app_nil_r.
  - destruct (Z.eqb_spec (baked_typed_id b) (baked_typed_id bn)) as [E|_].
    + exfalso. apply Hnotin. rewrite E. by apply in_map.
    + simpl. by apply IH.
Qed.

Lemma channel_terms_times (bn : ufbx_baked_node) (ch : channel) :
  map keyframe_time (channel_keyframe_terms bn ch) = map Some (channel_times bn ch).
Proof.
  unfold channel_keyframe_terms, channel_times.
  destruct ch; rewrite !map_map; apply map_ext; reflexivity.
Qed.

Lemma sorted_times_sorted_terms (terms : list term) (times : list double) :
  map keyframe_time terms = map Some times ->
  Sorted double_le times -> Sorted keyframe_time_le terms.
Proof.
  revert times. induction terms as [|a terms IH]; intros times Ht Hs; [constructor|].
  destruct times as [|t times]; [discriminate|].
  simpl in Ht. injection Ht as Ha Ht.
  apply Sorted_inv in Hs as [Hs Hhd].
  constructor; [by eapply IH|].
  destruct terms as [|b terms]; [constructor|].
  destruct times as [|t' times]; [discriminate|].
  simpl in Ht. injection Ht as Hb _.
  apply HdRel_inv in Hhd. constructor. by exists t, t'.
Qed.

(** C8.  In the keyframe list of an extracted animation, the keyframes
    of one channel of one node (each scene node being baked once) are
    exactly the terms made from that channel's baked samples, in the
    order of the samples and with their times; so they are non-decreasing
    in [time] whenever the baker's samples are. *)
Theorem keyframes_time_ordered (alloc : nat -> bool) (baked : ufbx_baked_anim)
  (anim_stack : ufbx_anim_stack) (bn : ufbx_baked_node) (ch : channel) :
  List.NoDup (map baked_typed_id (baked_nodes baked)) ->
  In bn (baked_nodes baked) ->
  let emitted :=
    List.filter (keyframe_in (baked_typed_id bn) ch)
                (animation_keyframes (extract_animation alloc baked anim_stack)) in
  emitted = channel_keyframe_terms bn ch
  /\ map keyframe_time emitted = map Some (channel_times bn ch)
  /\ (Sorted double_le (channel_times bn ch) ->
      Sorted keyframe_time_le emitted).
Proof.
  intros Hnd Hin emitted.
  assert (E : emitted = channel_keyframe_terms bn ch).
  { subst emitted. unfold animation_keyframes.
    replace (enif_get_map_value (extract_animation alloc baked anim_stack) "keyframes")
      with (Some (extract_keyframes baked)) by reflexivity.
    rewrite extract_keyframes_concat, list_of_term_list. simpl.
    by apply filter_all_nodes. }
  split; [done|]. rewrite E. split; [apply channel_terms_times|].
  apply sorted_times_sorted_terms, channel_terms_times.
Qed.

(** ** Building: what each loop does to the scene *)

Lemma alter_app_last {A : Type} (f : A -> A) (l : list A) (x : A) :
  alter f (length l) (l ++ [x]) = l ++ [f x].
Proof.
  replace (length l) with (length l + 0)%nat by lia. by rewrite alter_app_r.
Qed.

Lemma with_meshes_id (f : list ufbxw_mesh_data -> list ufbxw_mesh_data)
  (scene : ufbxw_scene) :
  f (sc_meshes scene) = sc_meshes scene -> with_meshes f scene = scene.
Proof. intros H. destruct scene. unfold with_meshes. simpl in *. by rewrite H. Qed.

Lemma set_vertices_step_alter (head : term) (mesh : ufbxw_mesh) (scene : ufbxw_scene) :
  set_vertices_step head mesh scene
  = with_meshes (alter (positions_update head) mesh) scene.
Proof.
  unfold set_vertices_step, positions_update, ufbxw_mesh_set_vertices.
  destruct (get_map_list head "positions") as [pl|];
    [destruct (enif_get_list_length pl) as [len|];
     [destruct (_ && _); [reflexivity|] |] |];
    symmetry; apply with_meshes_id, list_alter_id; reflexivity.
Qed.

Lemma set_triangles_step_alter (uninit : alloc_site -> nat -> Z) (i : nat) (head : term)
  (mesh : ufbxw_mesh) (scene : ufbxw_scene) :
  set_triangles_step uninit i head mesh scene
  = with_meshes (alter (triangles_update uninit i head) mesh) scene.
Proof.
  unfold set_triangles_step, triangles_update, ufbxw_mesh_set_triangles.
  destruct (get_map_list head "indices") as [pl|];
    [destruct (enif_get_list_length pl) as [len|]; [reflexivity|] |];
    symmetry; apply with_meshes_id, list_alter_id; reflexivity.
Qed.

Lemma set_normals_step_alter (head : term) (mesh : ufbxw_mesh) (scene : ufbxw_scene) :
  set_normals_step head mesh scene
  = with_meshes (alter (normals_update head) mesh) scene.
Proof.
  unfold set_normals_step, normals_update, ufbxw_mesh_set_normals.
  destruct (get_map_list head "normals") as [pl|];
    [destruct (enif_get_list_length pl) as [len|];
     [destruct (_ && _); [reflexivity|] |] |];
    symmetry; apply with_meshes_id, list_alter_id; reflexivity.
Qed.

Lemma set_uvs_step_alter (head : term) (mesh : ufbxw_mesh) (scene : ufbxw_scene) :
  set_uvs_step head mesh scene = with_meshes (alter (uvs_update head) mesh) scene.
Proof.
  unfold set_uvs_step, uvs_update, ufbxw_mesh_set_uvs.
  destruct (get_map_list head "texcoords") as [pl|];
    [destruct (enif_get_list_length pl) as [len|];
     [destruct (_ && _); [reflexivity|] |] |];
    symmetry; apply with_meshes_id, list_alter_id; reflexivity.
Qed.

Lemma alter_last_with_meshes (f : ufbxw_mesh_data -> ufbxw_mesh_data)
  (d : ufbxw_mesh_data) (scene : ufbxw_scene) :
  with_meshes (alter f (length (sc_meshes scene)))
              (with_meshes (fun l => l ++ [d]) scene)
  = with_meshes (fun l => l ++ [f d]) scene.
Proof. unfold with_meshes. simpl. by rewrite alter_app_last. Qed.

Lemma create_mesh_step_spec (i : nat) (head : term) (scene : ufbxw_scene)
  (mesh_handles : list ufbxw_mesh) (mesh_ids : list Z) :
  create_mesh_step i head (scene, mesh_handles, mesh_ids)
  = (with_meshes
       (fun l => l ++ [opt_apply (get_map_string head "name") mesh_set_name new_mesh])
       scene,
     length (sc_meshes scene),
     <[i := length (sc_meshes scene)]> mesh_handles,
     opt_apply (get_map_uint head "id") (fun mesh_id ids => <[i := mesh_id]> ids)
               mesh_ids).
Proof.
  unfold create_mesh_step, ufbxw_create_mesh.
  destruct (get_map_string head "name") as [name|]; simpl; [|reflexivity].
  by rewrite alter_last_with_meshes.
Qed.

Lemma parse_mesh_step_spec (uninit : alloc_site -> nat -> Z) (i : nat) (head : term)
  (scene : ufbxw_scene) (mesh_handles : list ufbxw_mesh) (mesh_ids : list Z) :
  parse_mesh_step uninit i head (scene, mesh_handles, mesh_ids)
  = (with_meshes (fun l => l ++ [built_mesh uninit true i head]) scene,
     <[i := length (sc_meshes scene)]> mesh_handles,
     opt_apply (get_map_uint head "id") (fun mesh_id ids => <[i := mesh_id]> ids)
               mesh_ids).
Proof.
  unfold parse_mesh_step. rewrite create_mesh_step_spec.
  rewrite set_vertices_step_alter, set_triangles_step_alter,
    set_normals_step_alter, set_uvs_step_alter.
  by rewrite !alter_last_with_meshes.
Qed.

Lemma parse_mesh_step_no_nodes_spec (uninit : alloc_site -> nat -> Z) (i : nat)
  (head : term) (scene : ufbxw_scene) (mesh_handles : list ufbxw_mesh)
  (mesh_ids : list Z) :
  parse_mesh_step_no_nodes uninit i head (scene, mesh_handles, mesh_ids)
  = (with_meshes (fun l => l ++ [built_mesh uninit false i head]) scene,
     <[i := length (sc_meshes scene)]> mesh_handles,
     opt_apply (get_map_uint head "id") (fun mesh_id ids => <[i := mesh_id]> ids)
               mesh_ids).
Proof.
  unfold parse_mesh_step_no_nodes. rewrite create_mesh_step_spec.
  rewrite set_vertices_step_alter, set_triangles_step_alter.
  by rewrite !alter_last_with_meshes.
Qed.

(** The mesh loop appends one built mesh per entry and leaves nodes and
    materials alone. *)
Lemma mesh_loop_spec (uninit : alloc_site -> nat -> Z) (full : bool)
  (l : list term) (i : nat) (scene : ufbxw_scene)
  (mesh_handles : list ufbxw_mesh) (mesh_ids : list Z) :
  let step := if full then parse_mesh_step uninit else parse_mesh_step_no_nodes uninit in
  let scene' := (fold_cells i l step (scene, mesh_handles, mesh_ids)).1.1 in
  sc_meshes scene' = sc_meshes scene ++ imap (fun k => built_mesh uninit full (i + k)) l
  /\ sc_nodes scene' = sc_nodes scene
  /\ sc_materials scene' = sc_materials scene.
Proof.
  intros step. revert i scene mesh_handles mesh_ids.
  induction l as [|head l IH]; intros i scene mesh_handles mesh_ids; simpl.
  { by rewrite app_nil_r. }
  assert (Hstep : step i head (scene, mesh_handles, mesh_ids)
          = (with_meshes (fun l => l ++ [built_mesh uninit full i head]) scene,
             <[i := length (sc_meshes scene)]> mesh_handles,
             opt_apply (get_map_uint head "id")
                       (fun mesh_id ids => <[i := mesh_id]> ids) mesh_ids)).
  { subst step. destruct full;
      [apply parse_mesh_step_spec | apply parse_mesh_step_no_nodes_spec]. }
  rewrite Hstep.
  destruct (IH (S i) (with_meshes (fun l => l ++ [built_mesh uninit full i head]) scene)
              (<[i := length (sc_meshes scene)]> mesh_handles)
              (opt_apply (get_map_uint head "id")
                         (fun mesh_id ids => <[i := mesh_id]> ids) mesh_ids))
    as (Hm & Hn & Hmat).
  rewrite Hm, Hn, Hmat. simpl. repeat split.
  rewrite <- app_assoc. simpl. rewrite Nat.add_0_r. do 2 f_equal.
  apply imap_ext. intros k x _. simpl. f_equal. lia.
Qed.

Lemma alter_last_with_nodes (f : ufbxw_node_data -> ufbxw_node_data)
  (d : ufbxw_node_data) (scene : ufbxw_scene) :
  with_nodes (alter f (length (sc_nodes scene)))
             (with_nodes (fun l => l ++ [d]) scene)
  = with_nodes (fun l => l ++ [f d]) scene.
Proof. unfold with_nodes. simpl. by rewrite alter_app_last. Qed.

Lemma create_node_step_spec (i : nat) (head : term) (scene : ufbxw_scene)
  (node_handles : list ufbxw_node) (node_ids : list Z) :
  create_node_step i head (scene, node_handles, node_ids)
  = (with_nodes (fun l => l ++ [built_node head]) scene,
     <[i := length (sc_nodes scene)]> node_handles,
     opt_apply (get_map_uint head "id") (fun node_id ids => <[i := node_id]> ids)
               node_ids).
Proof.
  unfold create_node_step, built_node, ufbxw_create_node, ufbxw_set_name_len,
    ufbxw_node_set_translation, ufbxw_node_set_rotation_quat, ufbxw_node_set_scaling.
  destruct (get_map_string head "name"), (get_map_vec3 head "translation"),
    (get_map_vec4 head "rotation"), (get_map_vec3 head "scale"); simpl;
    by rewrite ?alter_last_with_nodes.
Qed.

Lemma built_node_unparented (head : term) :
  wn_parent (built_node head) = None /\ wn_attribute (built_node head) = None.
Proof.
  unfold built_node.
  destruct (get_map_string head "name"), (get_map_vec3 head "translation"),
    (get_map_vec4 head "rotation"), (get_map_vec3 head "scale"); by split.
Qed.

(** The creation loop appends one node per entry, stores the handles in
    order and records the declared ids. *)
Lemma node_loop_spec (l : list term) :
  forall (i : nat) (scene : ufbxw_scene) (node_handles : list ufbxw_node)
         (node_ids : list Z),
    (i + length l <= length node_handles)%nat ->
    (i + length l <= length node_ids)%nat ->
    exists node_handles' node_ids',
      fold_cells i l create_node_step (scene, node_handles, node_ids)
      = (with_nodes (fun ns => ns ++ (built_node <$> l)) scene, node_handles', node_ids')
      /\ (forall j, (j < i)%nat -> node_handles' !! j = node_handles !! j)
      /\ (forall k, (k < length l)%nat ->
                    node_handles' !! (i + k)%nat = Some (length (sc_nodes scene) + k)%nat)
      /\ (forall j, (j < i)%nat -> node_ids' !! j = node_ids !! j)
      /\ (forall k head, l !! k = Some head ->
                         node_ids' !! (i + k)%nat
                         = match get_map_uint head "id" with
                           | Some id => Some id
                           | None => node_ids !! (i + k)%nat
                           end).
Proof.
  induction l as [|head l IH]; intros i scene nh ni Hnh Hni;
    cbn [fold_cells length] in *.
  { exists nh, ni. repeat split; try done; try (intros; lia).
    unfold with_nodes. destruct scene; simpl. by rewrite app_nil_r. }
  rewrite create_node_step_spec.
  set (scene1 := with_nodes (fun l0 => l0 ++ [built_node head]) scene).
  set (nh1 := <[i := length (sc_nodes scene)]> nh).
  set (ni1 := opt_apply (get_map_uint head "id") (fun id ids => <[i := id]> ids) ni).
  assert (Hlen1 : length nh1 = length nh) by apply length_insert.
  assert (Hlen2 : length ni1 = length ni).
  { subst ni1. destruct (get_map_uint head "id"); simpl; [apply length_insert|done]. }
  destruct (IH (S i) scene1 nh1 ni1) as (nh' & ni' & Heq & Hf1 & Hh & Hf2 & Hi);
    [lia | lia |].
  exists nh', ni'. rewrite Heq. split; [|repeat split].
  - f_equal. f_equal. unfold scene1, with_nodes. simpl. by rewrite <- app_assoc.
  - intros j Hj. rewrite Hf1 by lia. subst nh1. apply list_lookup_insert_ne. lia.
  - intros [|k] Hk.
    + rewrite Nat.add_0_r, Hf1 by lia. subst nh1. rewrite Nat.add_0_r.
      apply list_lookup_insert_eq. lia.
    + replace (i + S k)%nat with (S i + k)%nat by lia. rewrite Hh by lia.
      subst scene1. simpl. rewrite length_app. simpl. f_equal. lia.
  - intros j Hj. rewrite Hf2 by lia. subst ni1.
    destruct (get_map_uint head "id"); simpl; [|done].
    apply list_lookup_insert_ne. lia.
  - intros [|k] hd Hk; simpl in Hk.
    + inversion Hk; subst hd. rewrite Nat.add_0_r, Hf2 by lia. subst ni1.
      destruct (get_map_uint head "id"); simpl; [|done].
      apply list_lookup_insert_eq. lia.
    + replace (i + S k)%nat with (S i + k)%nat by lia. rewrite (Hi k hd Hk).
      destruct (get_map_uint hd "id"); [done|]. subst ni1.
      destruct (get_map_uint head "id"); simpl; [|done].
      apply list_lookup_insert_ne. lia.
Qed.

Lemma search_id_none (count j : nat) (ids : list Z) (key : Z) :
  (forall m, (j <= m < j + count)%nat -> ids !!! m <> key) ->
  search_id count j ids key = None.
Proof.
  revert j. induction count as [|count IH]; intros j H; simpl; [done|].
  destruct (Z.eqb_spec (ids !!! j) key) as [E|_].
  - exfalso. apply (H j); [lia|done].
  - apply IH. intros m Hm. apply H. lia.
Qed.

Lemma fold_cells_invariant_ix {St : Type} (P : St -> Prop)
  (body : nat -> term -> St -> St) (l : list term) (i : nat) (st : St) :
  P st ->
  (forall k h st', l !! k = Some h -> P st' -> P (body (i + k)%nat h st')) ->
  P (fold_cells i l body st).
Proof.
  revert i st. induction l as [|t l IH]; intros i st H0 Hstep; simpl; [done|].
  apply IH.
  - specialize (Hstep O t st eq_refl H0). by rewrite Nat.add_0_r in Hstep.
  - intros k h st' Hk HP. replace (S i + k)%nat with (i + S k)%nat by lia.
    by apply Hstep.
Qed.

Lemma list_of_term_length (t : term) :
  enif_get_list_length t = length <$> list_of_term t.
Proof.
  induction t; simpl; try done.
  rewrite IHt2. by destruct (list_of_term t2).
Qed.

(** Which parts of the scene each loop body leaves alone. *)
Lemma wire_node_step_frame (nodes_len : nat) (node_handles : list ufbxw_node)
  (node_ids : list Z) (k : nat) (head : term) (st : ufbxw_scene * list Z) :
  sc_meshes (wire_node_step nodes_len node_handles node_ids k head st).1 = sc_meshes st.1
  /\ sc_materials (wire_node_step nodes_len node_handles node_ids k head st).1
     = sc_materials st.1.
Proof.
  destruct st as [scene nmi]. unfold wire_node_step.
  destruct (get_map_uint head "parent_id") as [pid|]; simpl; [|done].
  by destruct (search_id nodes_len 0 node_ids pid).
Qed.

Lemma connect_mesh_step_cases (node_handles : list ufbxw_node) (node_mesh_ids : list Z)
  (meshes_len : nat) (mesh_handles : list ufbxw_mesh) (mesh_ids : list Z)
  (k : nat) (scene : ufbxw_scene) :
  let scene' := connect_mesh_step node_handles node_mesh_ids meshes_len
                                  mesh_handles mesh_ids k scene in
  scene' = scene
  \/ exists node attrib, scene' = ufbxw_node_set_attribute scene node attrib.
Proof.
  unfold connect_mesh_step. destruct (negb _); [|by left].
  destruct (search_id _ _ _ _) as [j|]; simpl; [right; eauto|by left].
Qed.

Lemma create_material_step_frame (k : nat) (head : term) (scene : ufbxw_scene) :
  sc_nodes (create_material_step k head scene) = sc_nodes scene
  /\ sc_meshes (create_material_step k head scene) = sc_meshes scene.
Proof.
  unfold create_material_step. simpl.
  destruct (get_map_string head "name"), (get_map_vec3 head "diffuse_color"); done.
Qed.

Lemma build_materials_frame (scene_data_map : term) (scene : ufbxw_scene) :
  sc_nodes (build_materials scene_data_map scene) = sc_nodes scene
  /\ sc_meshes (build_materials scene_data_map scene) = sc_meshes scene.
Proof.
  unfold build_materials.
  destruct (get_map_list scene_data_map "materials") as [t|]; [|done].
  destruct (enif_get_list_length t) as [n|]; [|done].
  apply (for_cells_invariant
           (fun s => sc_nodes s = sc_nodes scene /\ sc_meshes s = sc_meshes scene));
    [done|].
  intros k h s [Hn Hm]. destruct (create_material_step_frame k h s) as [-> ->]. done.
Qed.

Lemma connect_loop_meshes (nodes_len : nat) (node_handles : list ufbxw_node)
  (node_mesh_ids : list Z) (meshes_len : nat) (mesh_handles : list ufbxw_mesh)
  (mesh_ids : list Z) (scene : ufbxw_scene) :
  sc_meshes (for_range nodes_len
               (connect_mesh_step node_handles node_mesh_ids meshes_len
                                  mesh_handles mesh_ids) scene)
  = sc_meshes scene.
Proof.
  apply (for_range_invariant (fun s => sc_meshes s = sc_meshes scene)); [done|].
  intros k s Hs.
  destruct (connect_mesh_step_cases node_handles node_mesh_ids meshes_len
              mesh_handles mesh_ids k s) as [->|(node & attrib & ->)]; done.
Qed.

Lemma connect_loop_unparented (i nodes_len : nat) (node_handles : list ufbxw_node)
  (node_mesh_ids : list Z) (meshes_len : nat) (mesh_handles : list ufbxw_mesh)
  (mesh_ids : list Z) (scene : ufbxw_scene) :
  unparented_at i scene ->
  unparented_at i (for_range nodes_len
                     (connect_mesh_step node_handles node_mesh_ids meshes_len
                                        mesh_handles mesh_ids) scene).
Proof.
  intros H. apply (for_range_invariant (unparented_at i)); [done|].
  intros k s (d & Hd & Hp).
  destruct (connect_mesh_step_cases node_handles node_mesh_ids meshes_len
              mesh_handles mesh_ids k s) as [->|(node & attrib & ->)];
    [by exists d|].
  unfold unparented_at, ufbxw_node_set_attribute. simpl.
  destruct (decide (node = i)) as [->|Hne].
  - exists (node_set_attribute attrib d). by rewrite list_lookup_alter_eq, Hd.
  - exists d. by rewrite list_lookup_alter_ne.
Qed.

Lemma mesh_loop_frame (uninit : alloc_site -> nat -> Z) (n : nat) (t : term)
  (scene : ufbxw_scene) (mesh_handles : list ufbxw_mesh) (mesh_ids : list Z) :
  sc_nodes (for_cells n 0 t (parse_mesh_step uninit)
                      (scene, mesh_handles, mesh_ids)).1.1 = sc_nodes scene.
Proof.
  apply (for_cells_invariant (fun st => sc_nodes st.1.1 = sc_nodes scene)); [done|].
  intros k h [[s mh] mi] Hs. by rewrite parse_mesh_step_spec.
Qed.

Lemma node_loop_frame (n : nat) (t : term) (scene : ufbxw_scene)
  (node_handles : list ufbxw_node) (node_ids : list Z) :
  sc_meshes (for_cells n 0 t create_node_step (scene, node_handles, node_ids)).1.1
  = sc_meshes scene.
Proof.
  apply (for_cells_invariant (fun st => sc_meshes st.1.1 = sc_meshes scene)); [done|].
  intros k h [[s nh] ni] Hs. by rewrite create_node_step_spec.
Qed.

Lemma wire_loop_frame (nodes_len n : nat) (t : term) (node_handles : list ufbxw_node)
  (node_ids : list Z) (st : ufbxw_scene * list Z) :
  sc_meshes (for_cells n 0 t (wire_node_step nodes_len node_handles node_ids) st).1
  = sc_meshes st.1.
Proof.
  apply (for_cells_invariant (fun st' => sc_meshes st'.1 = sc_meshes st.1)); [done|].
  intros k h st' Hs.
  by destruct (wire_node_step_frame nodes_len node_handles node_ids k h st') as [-> _].
Qed.

Lemma build_with_nodes_meshes (uninit : alloc_site -> nat -> Z)
  (scene_data_map nodes_list : term) (scene : ufbxw_scene) :
  sc_meshes scene = [] ->
  sc_meshes (build_with_nodes uninit scene_data_map nodes_list scene)
  = match enif_get_list_length nodes_list with
    | Some _ =>
        imap (built_mesh uninit true)
             (default [] (map_list_entries scene_data_map "meshes"))
    | None => []
    end.
Proof.
  intros Hempty. unfold build_with_nodes.
  destruct (enif_get_list_length nodes_list) as [n|]; [|done].
  pose proof (node_loop_frame n nodes_list scene
                (enif_alloc_handles uninit NodeHandles n)
                (enif_alloc_uint uninit NodeIds n)) as H1.
  destruct (for_cells n 0 nodes_list create_node_step _) as [[s1 nh] ni].
  simpl in H1.
  pose proof (wire_loop_frame n n nodes_list nh ni (s1, replicate n 0)) as H2.
  destruct (for_cells n 0 nodes_list (wire_node_step n nh ni) _) as [s2 nmi].
  simpl in H2.
  unfold map_list_entries.
  destruct (get_map_list scene_data_map "meshes") as [ml|]; simpl; [|congruence].
  rewrite (list_of_term_length ml).
  destruct (list_of_term ml) as [l|] eqn:El; simpl; [|congruence].
  apply list_of_term_inv in El. subst ml.
  rewrite for_cells_term_list.
  destruct (mesh_loop_spec uninit true l 0 s2
              (enif_alloc_handles uninit MeshHandles (length l))
              (enif_alloc_uint uninit MeshIds (length l))) as (Hm & _ & _).
  simpl in Hm.
  destruct (fold_cells 0 l (parse_mesh_step uninit) _) as [[s3 mh] mi].
  simpl in Hm. rewrite connect_loop_meshes, Hm, H2, H1, Hempty. done.
Qed.

Lemma build_without_nodes_meshes (uninit : alloc_site -> nat -> Z)
  (scene_data_map : term) (scene : ufbxw_scene) :
  sc_meshes scene = [] ->
  sc_meshes (build_without_nodes uninit scene_data_map scene)
  = imap (built_mesh uninit false)
         (default [] (map_list_entries scene_data_map "meshes")).
Proof.
  intros Hempty. unfold build_without_nodes, map_list_entries.
  destruct (get_map_list scene_data_map "meshes") as [ml|]; simpl; [|done].
  rewrite (list_of_term_length ml).
  destruct (list_of_term ml) as [l|] eqn:El; simpl; [|done].
  apply list_of_term_inv in El. subst ml.
  rewrite for_cells_term_list.
  destruct (mesh_loop_spec uninit false l 0 scene
              (enif_alloc_handles uninit MeshHandles (length l))
              (enif_alloc_uint uninit MeshIds (length l))) as (Hm & _ & _).
  simpl in Hm.
  destruct (fold_cells 0 l (parse_mesh_step_no_nodes uninit) _) as [[s3 mh] mi].
  simpl in Hm. by rewrite Hm, Hempty.
Qed.

(** The builder always returns a scene once the container is allocated,
    and its meshes are the entries' built meshes. *)
Lemma build_meshes_spec (uninit : alloc_site -> nat -> Z) (scene_data_map : term) :
  exists scene,
    build_ufbxw_scene_from_map uninit true scene_data_map = Some scene
    /\ sc_meshes scene = built_meshes uninit scene_data_map.
Proof.
  unfold build_ufbxw_scene_from_map, ufbxw_create_scene. eexists. split; [done|].
  destruct (build_materials_frame scene_data_map
              match get_map_list scene_data_map "nodes" with
              | Some nodes_list =>
                  build_with_nodes uninit scene_data_map nodes_list empty_scene
              | None => build_without_nodes uninit scene_data_map empty_scene
              end) as [_ ->].
  unfold built_meshes.
  destruct (get_map_list scene_data_map "nodes") as [nl|].
  - by apply build_with_nodes_meshes.
  - by apply build_without_nodes_meshes.
Qed.

(** ** Building: decoding the flat attribute lists *)

Lemma next_double_cons (x : term) (rest : list term) (dflt : double) :
  next_double (term_list (x :: rest)) dflt = (double_or dflt x, term_list rest).
Proof. unfold next_double. simpl. by destruct x. Qed.

Lemma decode_vec3_array_flat (z0 : double) (count : nat) :
  forall elems : list term,
    length elems = (3 * count)%nat ->
    decode_vec3_array count (term_list elems) z0 = group3 z0 elems.
Proof.
  induction count as [|count IH]; intros elems Hlen.
  { by destruct elems. }
  destruct elems as [|x [|y [|z rest]]]; simpl in Hlen; try lia.
  cbn [decode_vec3_array]. rewrite !next_double_cons.
  cbn [group3]. f_equal. apply IH. lia.
Qed.

Lemma decode_vec2_array_flat (count : nat) :
  forall elems : list term,
    length elems = (2 * count)%nat ->
    decode_vec2_array count (term_list elems) = group2 elems.
Proof.
  induction count as [|count IH]; intros elems Hlen.
  { by destruct elems. }
  destruct elems as [|x [|y rest]]; simpl in Hlen; try lia.
  cbn [decode_vec2_array]. rewrite !next_double_cons.
  cbn [group2]. f_equal. apply IH. lia.
Qed.

Lemma length_group3 (z0 : double) (count : nat) :
  forall elems : list term,
    length elems = (3 * count)%nat -> length (group3 z0 elems) = count.
Proof.
  induction count as [|count IH]; intros elems Hlen.
  { by destruct elems. }
  destruct elems as [|x [|y [|z rest]]]; simpl in Hlen; try lia.
  cbn [group3 length]. f_equal. apply IH. lia.
Qed.

Lemma length_group2 (count : nat) :
  forall elems : list term,
    length elems = (2 * count)%nat -> length (group2 elems) = count.
Proof.
  induction count as [|count IH]; intros elems Hlen.
  { by destruct elems. }
  destruct elems as [|x [|y rest]]; simpl in Hlen; try lia.
  cbn [group2 length]. f_equal. apply IH. lia.
Qed.

Lemma arity_check_passes (arity len : nat) :
  arity <> O -> len <> O -> (len mod arity = 0)%nat ->
  ((0 <? len / arity)%nat && (len mod arity =? 0)%nat = true)
  /\ len = (arity * (len / arity))%nat.
Proof.
  intros Ha Hl Hmod.
  pose proof (Nat.div_mod_eq len arity) as Hdiv. rewrite Hmod in Hdiv.
  split; [|lia].
  apply andb_true_intro. split; [apply Nat.ltb_lt|apply Nat.eqb_eq; done].
  destruct (len / arity)%nat; lia.
Qed.

Lemma arity_check_fails (arity len : nat) :
  arity <> O -> ((len mod arity)%nat <> O \/ len = O) ->
  (0 <? len / arity)%nat && (len mod arity =? 0)%nat = false.
Proof.
  intros Ha [Hmod| ->].
  - apply andb_false_intro2. by apply Nat.eqb_neq.
  - apply andb_false_intro1. rewrite Nat.Div0.div_0_l. done.
Qed.

Lemma positions_update_flat (head : term) (elems : list term) (d : ufbxw_mesh_data) :
  get_map_list head "positions" = Some (term_list elems) ->
  elems <> [] -> (length elems mod 3 = 0)%nat ->
  positions_update head d = mesh_set_vertices (group3 0%float elems) d.
Proof.
  intros Hget Hne Hmod. unfold positions_update.
  rewrite Hget, get_list_length_term_list.
  destruct (arity_check_passes 3 (length elems)) as [-> Hlen]; [lia| |done|].
  { by destruct elems. }
  cbv zeta. rewrite decode_vec3_array_flat by done.
  unfold ufbxw_copy_array. rewrite take_ge; [done|].
  by rewrite (length_group3 _ (length elems / 3)).
Qed.

Lemma normals_update_flat (head : term) (elems : list term) (d : ufbxw_mesh_data) :
  get_map_list head "normals" = Some (term_list elems) ->
  elems <> [] -> (length elems mod 3 = 0)%nat ->
  normals_update head d
  = mesh_set_normals (group3 1%float elems) UFBXW_ATTRIBUTE_MAPPING_VERTEX d.
Proof.
  intros Hget Hne Hmod. unfold normals_update.
  rewrite Hget, get_list_length_term_list.
  destruct (arity_check_passes 3 (length elems)) as [-> Hlen]; [lia| |done|].
  { by destruct elems. }
  cbv zeta. rewrite decode_vec3_array_flat by done.
  unfold ufbxw_copy_array. rewrite take_ge; [done|].
  by rewrite (length_group3 _ (length elems / 3)).
Qed.

Lemma uvs_update_flat (head : term) (elems : list term) (d : ufbxw_mesh_data) :
  get_map_list head "texcoords" = Some (term_list elems) ->
  elems <> [] -> (length elems mod 2 = 0)%nat ->
  uvs_update head d
  = mesh_set_uvs 0 (group2 elems) UFBXW_ATTRIBUTE_MAPPING_VERTEX d.
Proof.
  intros Hget Hne Hmod. unfold uvs_update.
  rewrite Hget, get_list_length_term_list.
  destruct (arity_check_passes 2 (length elems)) as [-> Hlen]; [lia| |done|].
  { by destruct elems. }
  cbv zeta. rewrite decode_vec2_array_flat by done.
  unfold ufbxw_copy_array. rewrite take_ge; [done|].
  by rewrite (length_group2 (length elems / 2)).
Qed.

Lemma positions_update_rejected (head positions_list : term) (positions_len : nat)
  (d : ufbxw_mesh_data) :
  get_map_list head "positions" = Some positions_list ->
  enif_get_list_length positions_list = Some positions_len ->
  ((positions_len mod 3)%nat <> O \/ positions_len = O) ->
  positions_update head d = d.
Proof.
  intros Hget Hlen Hbad. unfold positions_update. rewrite Hget, Hlen.
  cbv zeta. by rewrite arity_check_fails.
Qed.

(** The later blocks do not touch what the earlier ones set. *)
Lemma triangles_update_vertices (uninit : alloc_site -> nat -> Z) (i : nat)
  (head : term) (d : ufbxw_mesh_data) :
  wm_vertices (triangles_update uninit i head d) = wm_vertices d.
Proof.
  unfold triangles_update. destruct (get_map_list head "indices") as [t|]; [|done].
  by destruct (enif_get_list_length t).
Qed.

Lemma normals_update_vertices (head : term) (d : ufbxw_mesh_data) :
  wm_vertices (normals_update head d) = wm_vertices d.
Proof.
  unfold normals_update. destruct (get_map_list head "normals") as [t|]; [|done].
  destruct (enif_get_list_length t); [|done]. cbv zeta. by destruct (_ && _).
Qed.

Lemma uvs_update_vertices (head : term) (d : ufbxw_mesh_data) :
  wm_vertices (uvs_update head d) = wm_vertices d
  /\ wm_normals (uvs_update head d) = wm_normals d.
Proof.
  unfold uvs_update. destruct (get_map_list head "texcoords") as [t|]; [|done].
  destruct (enif_get_list_length t); [|done]. cbv zeta. by destruct (_ && _).
Qed.

Lemma built_mesh_vertices (uninit : alloc_site -> nat -> Z) (full : bool) (i : nat)
  (head : term) :
  wm_vertices (built_mesh uninit full i head)
  = wm_vertices (positions_update head new_mesh).
Proof.
  unfold built_mesh. cbv zeta.
  assert (H : forall d, wm_vertices d = None ->
            wm_vertices (if full
                         then uvs_update head
                                (normals_update head
                                   (triangles_update uninit i head
                                      (positions_update head d)))
                         else triangles_update uninit i head (positions_update head d))
            = wm_vertices (positions_update head new_mesh)).
  { intros d Hd.
    assert (wm_vertices (positions_update head d)
            = wm_vertices (positions_update head new_mesh)) as <-.
    { unfold positions_update.
      destruct (get_map_list head "positions") as [t|]; [|done].
      destruct (enif_get_list_length t); [|done]. cbv zeta. by destruct (_ && _). }
    destruct full.
    - by rewrite (proj1 (uvs_update_vertices _ _)), normals_update_vertices,
        triangles_update_vertices.
    - by rewrite triangles_update_vertices. }
  apply H. by destruct (get_map_string head "name").
Qed.

Lemma built_mesh_normals (uninit : alloc_site -> nat -> Z) (i : nat) (head : term) :
  wm_normals (built_mesh uninit true i head)
  = wm_normals (normals_update head new_mesh).
Proof.
  unfold built_mesh. cbv zeta. rewrite (proj2 (uvs_update_vertices _ _)).
  unfold normals_update.
  destruct (get_map_list head "normals") as [t|];
    [destruct (enif_get_list_length t);
     [cbv zeta; destruct (_ && _); [done|] |] |].
  all: unfold triangles_update, positions_update.
  all: destruct (get_map_list head "indices") as [ti|];
    [destruct (enif_get_list_length ti)|].
  all: destruct (get_map_list head "positions") as [tp|];
    [destruct (enif_get_list_length tp); [cbv zeta; destruct (_ && _)|]|].
  all: by destruct (get_map_string head "name").
Qed.

Lemma built_mesh_uvs (uninit : alloc_site -> nat -> Z) (i : nat) (head : term) :
  wm_uvs (built_mesh uninit true i head) = wm_uvs (uvs_update head new_mesh).
Proof.
  unfold built_mesh. cbv zeta. unfold uvs_update.
  destruct (get_map_list head "texcoords") as [t|];
    [destruct (enif_get_list_length t);
     [cbv zeta; destruct (_ && _) |] |].
  all: unfold normals_update.
  all: destruct (get_map_list head "normals") as [tn|];
    [destruct (enif_get_list_length tn);
     [cbv zeta; destruct (_ && _) |] |].
  all: unfold triangles_update, positions_update.
  all: destruct (get_map_list head "indices") as [ti|];
    [destruct (enif_get_list_length ti)|].
  all: destruct (get_map_list head "positions") as [tp|];
    [destruct (enif_get_list_length tp); [cbv zeta; destruct (_ && _)|]|].
  all: by destruct (get_map_string head "name").
Qed.

(** ** Building: the meshes of the result *)

Lemma built_meshes_lookup (uninit : alloc_site -> nat -> Z) (scene_data_map : term)
  (entries : list term) (i : nat) (head : term) :
  map_list_entries scene_data_map "meshes" = Some entries ->
  entries !! i = Some head ->
  built_meshes uninit scene_data_map !! i
  = match get_map_list scene_data_map "nodes" with
    | Some nodes_list =>
        match list_of_term nodes_list with
        | Some _ => Some (built_mesh uninit true i head)
        | None => None
        end
    | None => Some (built_mesh uninit false i head)
    end.
Proof.
  intros He Hi. unfold built_meshes. rewrite He. simpl.
  destruct (get_map_list scene_data_map "nodes") as [nl|].
  - rewrite list_of_term_length. destruct (list_of_term nl); simpl; [|done].
    by rewrite list_lookup_imap, Hi.
  - by rewrite list_lookup_imap, Hi.
Qed.

Lemma entries_is_map (scene_data_map : term) (key : string) (entries : list term) :
  map_list_entries scene_data_map key = Some entries -> enif_is_map scene_data_map = true.
Proof.
  unfold map_list_entries, get_map_list, enif_get_map_value.
  by destruct scene_data_map.
Qed.

Lemma write_fbx_succeeds (uninit : alloc_site -> nat -> Z)
  (save : ufbxw_scene -> string -> ufbxw_save_opts -> bool * string)
  (path : string) (scene_data_map format_atom : term) (scene : ufbxw_scene) :
  enif_is_map scene_data_map = true ->
  build_ufbxw_scene_from_map uninit true scene_data_map = Some scene ->
  (save scene (c_str path) (save_opts_for format_atom)).1 = true ->
  write_fbx_nif uninit true save [TBinary path; scene_data_map; format_atom]
  = Return (enif_make_tuple2 (enif_make_atom "ok") (enif_make_string (c_str path))).
Proof.
  intros Hmap Hbuild Hsave. unfold write_fbx_nif, enif_inspect_binary.
  rewrite Hmap, Hbuild. cbv zeta. cbn [negb]. unfold save_and_report.
  destruct (save scene (c_str path) (save_opts_for format_atom)) as [ok description].
  simpl in Hsave. by subst ok.
Qed.

(** C4.  For a mesh entry whose [positions] list has a length that is
    zero or not a multiple of 3: once the scene container is allocated
    the builder returns a scene; no mesh built for that entry has its
    vertices set; the mesh is there whenever the builder reaches the
    meshes; and [write_fbx] returns [{ok, path}] as soon as the external
    writer succeeds on that scene. *)
Theorem positions_arity_guard (uninit : alloc_site -> nat -> Z)
  (save : ufbxw_scene -> string -> ufbxw_save_opts -> bool * string)
  (path : string) (scene_data_map format_atom : term)
  (entries : list term) (i : nat) (head positions_list : term) (positions_len : nat) :
  map_list_entries scene_data_map "meshes" = Some entries ->
  entries !! i = Some head ->
  get_map_list head "positions" = Some positions_list ->
  enif_get_list_length positions_list = Some positions_len ->
  ((positions_len mod 3)%nat <> O \/ positions_len = O) ->
  exists scene,
    build_ufbxw_scene_from_map uninit true scene_data_map = Some scene
    /\ (forall mesh, sc_meshes scene !! i = Some mesh -> wm_vertices mesh = None)
    /\ (nodes_absent_or_list scene_data_map -> is_Some (sc_meshes scene !! i))
    /\ ((save scene (c_str path) (save_opts_for format_atom)).1 = true ->
        write_fbx_nif uninit true save [TBinary path; scene_data_map; format_atom]
        = Return (enif_make_tuple2 (enif_make_atom "ok")
                                   (enif_make_string (c_str path)))).
Proof.
  intros He Hi Hget Hlen Hbad.
  destruct (build_meshes_spec uninit scene_data_map) as (scene & Hbuild & Hmeshes).
  exists scene. split; [done|].
  pose proof (built_meshes_lookup uninit scene_data_map entries i head He Hi) as Hl.
  rewrite <- Hmeshes in Hl.
  assert (Hv : forall full, wm_vertices (built_mesh uninit full i head) = None).
  { intros full. rewrite built_mesh_vertices.
    by rewrite (positions_update_rejected head positions_list positions_len). }
  repeat split.
  - intros mesh Hm. rewrite Hm in Hl.
    destruct (get_map_list scene_data_map "nodes") as [nl|];
      [destruct (list_of_term nl); [|done]|];
      match type of Hl with
      | Some _ = Some ?b => replace mesh with b by congruence
      end; apply Hv.
  - intros [Habs|[l Hnodes]].
    + rewrite Habs in Hl. by rewrite Hl.
    + unfold map_list_entries in Hnodes.
      destruct (get_map_list scene_data_map "nodes") as [nl|]; [|done].
      rewrite Hnodes in Hl. by rewrite Hl.
  - intros Hsave. apply (write_fbx_succeeds uninit save path _ _ scene); [|done|done].
    by eapply entries_is_map.
Qed.

(** X30.  For a mesh entry the builder reaches, an attribute list whose
    length passes the arity check is set on the built mesh with every
    element read by [double_or]: a double as itself, anything else (an
    integer, say) as the component's default (0.0, and 1.0 for the z of a
    normal).  [positions] are decoded so in both branches of the builder,
    [normals] and [texcoords] only in the branch taken when the scene term
    has a [nodes] list; the branch without [nodes] key never sets them. *)
Theorem non_double_elements_take_defaults (uninit : alloc_site -> nat -> Z)
  (scene_data_map : term) (entries : list term) (i : nat) (head : term)
  (elems : list term) :
  map_list_entries scene_data_map "meshes" = Some entries ->
  entries !! i = Some head ->
  nodes_absent_or_list scene_data_map ->
  elems <> [] ->
  exists scene mesh,
    build_ufbxw_scene_from_map uninit true scene_data_map = Some scene
    /\ sc_meshes scene !! i = Some mesh
    /\ (get_map_list head "positions" = Some (term_list elems) ->
        (length elems mod 3 = 0)%nat ->
        wm_vertices mesh = Some (group3 0%float elems))
    /\ (is_Some (map_list_entries scene_data_map "nodes") ->
        get_map_list head "normals" = Some (term_list elems) ->
        (length elems mod 3 = 0)%nat ->
        wm_normals mesh = Some (group3 1%float elems, UFBXW_ATTRIBUTE_MAPPING_VERTEX))
    /\ (is_Some (map_list_entries scene_data_map "nodes") ->
        get_map_list head "texcoords" = Some (term_list elems) ->
        (length elems mod 2 = 0)%nat ->
        wm_uvs mesh = [(0, (group2 elems, UFBXW_ATTRIBUTE_MAPPING_VERTEX))]).
Proof.
  intros He Hi Hnodes Hne.
  destruct (build_meshes_spec uninit scene_data_map) as (scene & Hbuild & Hmeshes).
  pose proof (built_meshes_lookup uninit scene_data_map entries i head He Hi) as Hl.
  rewrite <- Hmeshes in Hl.
  assert (Hfull : exists full,
             sc_meshes scene !! i = Some (built_mesh uninit full i head)
             /\ (is_Some (map_list_entries scene_data_map "nodes") -> full = true)).
  { unfold nodes_absent_or_list, map_list_entries in *.
    destruct (get_map_list scene_data_map "nodes") as [nl|].
    - destruct Hnodes as [?|[l Hn]]; [done|]. rewrite Hn in Hl. by exists true.
    - exists false. split; [done|]. by intros [? ?]. }
  destruct Hfull as (full & Hlook & Hf).
  exists scene, (built_mesh uninit full i head). repeat split; [done|done|..].
  - intros Hget Hmod. rewrite built_mesh_vertices.
    by rewrite (positions_update_flat head elems).
  - intros Hn Hget Hmod. rewrite (Hf Hn), built_mesh_normals.
    by rewrite (normals_update_flat head elems).
  - intros Hn Hget Hmod. rewrite (Hf Hn), built_mesh_uvs.
    by rewrite (uvs_update_flat head elems).
Qed.

(** ** Building: parents *)

Lemma enif_alloc_uint_lookup (uninit : alloc_site -> nat -> Z) (site : alloc_site)
  (n k : nat) :
  (k < n)%nat -> enif_alloc_uint uninit site n !! k = Some (uninit site k).
Proof.
  intros Hk. unfold enif_alloc_uint. by rewrite list_lookup_fmap, lookup_seq_lt.
Qed.

Lemma length_enif_alloc_uint (uninit : alloc_site -> nat -> Z) (site : alloc_site)
  (n : nat) : length (enif_alloc_uint uninit site n) = n.
Proof. unfold enif_alloc_uint. by rewrite length_fmap, length_seq. Qed.

Lemma length_enif_alloc_handles (uninit : alloc_site -> nat -> Z) (site : alloc_site)
  (n : nat) : length (enif_alloc_handles uninit site n) = n.
Proof. unfold enif_alloc_handles. by rewrite length_fmap, length_seq. Qed.

(** The wiring step of an entry whose [parent_id] matches no recorded id
    changes nothing; the step of any other entry leaves this one's node
    alone. *)
Lemma wire_loop_unparented (uninit : alloc_site -> nat -> Z) (entries : list term)
  (i : nat) (head : term) (node_handles : list ufbxw_node) (node_ids : list Z)
  (st : ufbxw_scene * list Z) :
  entries !! i = Some head ->
  (forall k, (k < length entries)%nat -> node_handles !! k = Some k) ->
  (forall k e, entries !! k = Some e ->
               node_ids !! k = Some (recorded_id uninit NodeIds k e)) ->
  (forall parent_id, get_map_uint head "parent_id" = Some parent_id ->
     forall j e, entries !! j = Some e -> recorded_id uninit NodeIds j e <> parent_id) ->
  unparented_at i st.1 ->
  unparented_at i
    (fold_cells 0 entries (wire_node_step (length entries) node_handles node_ids) st).1.
Proof.
  intros Hi Hh Hids Hno H0.
  apply (fold_cells_invariant_ix (fun st' => unparented_at i st'.1)); [done|].
  intros k h [scene nmi] Hk (d & Hd & Hp). simpl. unfold wire_node_step. simpl.
  destruct (get_map_uint h "parent_id") as [pid|] eqn:Hpid; simpl; [|by exists d].
  destruct (search_id (length entries) 0 node_ids pid) as [j|] eqn:Hs; simpl;
    [|by exists d].
  assert (Hki : k <> i).
  { intros ->. rewrite Hi in Hk. injection Hk as <-.
    rewrite search_id_none in Hs; [done|].
    intros m [_ Hm]. simpl in Hm.
    destruct (lookup_lt_is_Some_2 entries m Hm) as [e He].
    rewrite (list_lookup_total_correct _ _ _ (Hids m e He)).
    by eapply Hno. }
  assert (Hkl : (k < length entries)%nat) by (by eapply lookup_lt_Some).
  rewrite (list_lookup_total_correct _ _ _ (Hh k Hkl)).
  exists d. unfold ufbxw_node_set_parent. simpl.
  by rewrite list_lookup_alter_ne.
Qed.

Lemma build_with_nodes_unparented (uninit : alloc_site -> nat -> Z)
  (scene_data_map nodes_list : term) (entries : list term) (i : nat) (head : term)
  (scene : ufbxw_scene) :
  list_of_term nodes_list = Some entries ->
  entries !! i = Some head ->
  sc_nodes scene = [] ->
  (forall parent_id, get_map_uint head "parent_id" = Some parent_id ->
     forall j e, entries !! j = Some e -> recorded_id uninit NodeIds j e <> parent_id) ->
  unparented_at i (build_with_nodes uninit scene_data_map nodes_list scene).
Proof.
  intros Hl Hi Hempty Hno. unfold build_with_nodes.
  apply list_of_term_inv in Hl. subst nodes_list.
  rewrite get_list_length_term_list, !for_cells_term_list.
  destruct (node_loop_spec entries 0 scene
              (enif_alloc_handles uninit NodeHandles (length entries))
              (enif_alloc_uint uninit NodeIds (length entries)))
    as (nh & ni & Heq & _ & Hh & _ & Hids).
  { rewrite length_enif_alloc_handles. lia. }
  { rewrite length_enif_alloc_uint. lia. }
  rewrite Heq. clear Heq. rewrite for_cells_term_list.
  assert (Hwire := wire_loop_unparented uninit entries i head nh ni
                     (with_nodes (fun ns => ns ++ (built_node <$> entries)) scene,
                      replicate (length entries) 0) Hi).
  destruct (fold_cells 0 entries (wire_node_step (length entries) nh ni) _)
    as [s2 nmi].
  simpl in Hwire.
  assert (H2 : unparented_at i s2).
  { apply Hwire.
    - intros k Hk. specialize (Hh k Hk). by rewrite Hempty in Hh.
    - intros k e He. specialize (Hids k e He). simpl in Hids. rewrite Hids.
      unfold recorded_id. destruct (get_map_uint e "id"); [done|].
      apply enif_alloc_uint_lookup. by eapply lookup_lt_Some.
    - done.
    - exists (built_node head). unfold with_nodes. simpl. rewrite Hempty. simpl.
      rewrite list_lookup_fmap, Hi. split; [done|]. apply built_node_unparented. }
  clear Hwire.
  destruct (get_map_list scene_data_map "meshes") as [ml|]; [|exact H2].
  destruct (enif_get_list_length ml) as [m|]; [|exact H2].
  pose proof (mesh_loop_frame uninit m ml s2
                (enif_alloc_handles uninit MeshHandles m)
                (enif_alloc_uint uninit MeshIds m)) as Hfr.
  destruct (for_cells m 0 ml (parse_mesh_step uninit) _) as [[s3 mh] mi].
  simpl in Hfr. apply connect_loop_unparented.
  unfold unparented_at. by rewrite Hfr.
Qed.

(** A node entry whose [parent_id] is present but is not an unsigned
    integer equal to the id recorded for any node entry (the id the entry
    declares; for an entry that declares none, what its slot of the id
    table holds) is left without parent, and [write_fbx] returns [{ok,
    path}] as soon as the external writer succeeds on the scene. *)
Lemma unmatched_parent_left_unparented (uninit : alloc_site -> nat -> Z)
  (save : ufbxw_scene -> string -> ufbxw_save_opts -> bool * string)
  (path : string) (scene_data_map format_atom : term)
  (entries : list term) (i : nat) (head parent : term) :
  map_list_entries scene_data_map "nodes" = Some entries ->
  entries !! i = Some head ->
  enif_get_map_value head "parent_id" = Some parent ->
  (forall j e, entries !! j = Some e ->
               enif_get_uint parent <> Some (recorded_id uninit NodeIds j e)) ->
  exists scene node,
    build_ufbxw_scene_from_map uninit true scene_data_map = Some scene
    /\ sc_nodes scene !! i = Some node
    /\ wn_parent node = None
    /\ ((save scene (c_str path) (save_opts_for format_atom)).1 = true ->
        write_fbx_nif uninit true save [TBinary path; scene_data_map; format_atom]
        = Return (enif_make_tuple2 (enif_make_atom "ok")
                                   (enif_make_string (c_str path)))).
Proof.
  intros He Hi Hparent Hno.
  assert (Hbuild : exists scene,
             build_ufbxw_scene_from_map uninit true scene_data_map = Some scene
             /\ unparented_at i scene).
  { unfold build_ufbxw_scene_from_map, ufbxw_create_scene. eexists. split; [done|].
    unfold unparented_at.
    rewrite (proj1 (build_materials_frame scene_data_map _)).
    unfold map_list_entries in He.
    destruct (get_map_list scene_data_map "nodes") as [nl|]; [|done].
    apply (build_with_nodes_unparented uninit scene_data_map nl entries i head);
      [done|done|done|].
    intros pid Hpid j e Hj Heq. apply (Hno j e Hj).
    unfold get_map_uint in Hpid. rewrite Hparent in Hpid. by rewrite Hpid, Heq. }
  destruct Hbuild as (scene & Hbuild & node & Hnode & Hp).
  exists scene, node. repeat split; [done..|].
  intros Hsave. apply (write_fbx_succeeds uninit save path _ _ scene); [|done|done].
  by eapply entries_is_map.
Qed.

(** ** Writing: the format *)

Lemma c_str_idempotent (s : string) : c_str (c_str s) = c_str s.
Proof.
  induction s as [|c s IH]; simpl; [done|].
  destruct (Ascii.eqb c Ascii.zero) eqn:E; simpl; [done|]. by rewrite E, IH.
Qed.

Lemma c_str_substring (n : nat) (s : string) :
  c_str s = s -> c_str (substring 0 n s) = substring 0 n s.
Proof.
  revert s. induction n as [|n IH]; intros s Hs; destruct s as [|c s]; simpl; try done.
  simpl in Hs. destruct (Ascii.eqb c Ascii.zero); [discriminate|].
  injection Hs as Hs. by rewrite IH.
Qed.

Lemma length_substring_le (n : nat) (s : string) :
  (String.length (substring 0 n s) <= n)%nat.
Proof.
  revert s. induction n as [|n IH]; intros s; destruct s as [|c s]; simpl; try lia.
  specialize (IH s). lia.
Qed.

Lemma substring_all (n : nat) (s : string) :
  (String.length s <= n)%nat -> substring 0 n s = s.
Proof.
  revert s. induction n as [|n IH]; intros s Hs; destruct s as [|c s]; simpl in *;
    try done; try lia.
  rewrite IH; [done|lia].
Qed.

Lemma c_str_save_error_message (description : string) :
  c_str (save_error_message description) = save_error_message description.
Proof.
  unfold save_error_message. apply c_str_substring.
  cbn [String.append c_str Ascii.eqb Bool.eqb Ascii.zero].
  by rewrite c_str_idempotent.
Qed.






(** ** Building: attaching meshes *)

(** The tables of the mesh loop: handles in creation order, declared ids. *)
Lemma mesh_loop_tables (uninit : alloc_site -> nat -> Z) (l : list term) :
  forall (i : nat) (scene : ufbxw_scene) (mesh_handles : list ufbxw_mesh)
         (mesh_ids : list Z),
    (i + length l <= length mesh_handles)%nat ->
    (i + length l <= length mesh_ids)%nat ->
    exists scene' mesh_handles' mesh_ids',
      fold_cells i l (parse_mesh_step uninit) (scene, mesh_handles, mesh_ids)
      = (scene', mesh_handles', mesh_ids')
      /\ (forall j, (j < i)%nat -> mesh_handles' !! j = mesh_handles !! j)
      /\ (forall k, (k < length l)%nat ->
                    mesh_handles' !! (i + k)%nat = Some (length (sc_meshes scene) + k)%nat)
      /\ (forall j, (j < i)%nat -> mesh_ids' !! j = mesh_ids !! j)
      /\ (forall k head, l !! k = Some head ->
                         mesh_ids' !! (i + k)%nat
                         = match get_map_uint head "id" with
                           | Some id => Some id
                           | None => mesh_ids !! (i + k)%nat
                           end).
Proof.
  induction l as [|head l IH]; intros i scene mh mi Hmh Hmi;
    cbn [fold_cells length] in *.
  { exists scene, mh, mi. repeat split; try done; intros; lia. }
  rewrite parse_mesh_step_spec.
  set (scene1 := with_meshes (fun l0 => l0 ++ [built_mesh uninit true i head]) scene).
  set (mh1 := <[i := length (sc_meshes scene)]> mh).
  set (mi1 := opt_apply (get_map_uint head "id") (fun id ids => <[i := id]> ids) mi).
  assert (Hlen1 : length mh1 = length mh) by apply length_insert.
  assert (Hlen2 : length mi1 = length mi).
  { subst mi1. destruct (get_map_uint head "id"); simpl; [apply length_insert|done]. }
  destruct (IH (S i) scene1 mh1 mi1) as (s' & mh' & mi' & Heq & Hf1 & Hh & Hf2 & Hi);
    [lia | lia |].
  exists s', mh', mi'. rewrite Heq. split; [done|repeat split].
  - intros j Hj. rewrite Hf1 by lia. subst mh1. apply list_lookup_insert_ne. lia.
  - intros [|k] Hk.
    + rewrite Nat.add_0_r, Hf1 by lia. subst mh1. rewrite Nat.add_0_r.
      apply list_lookup_insert_eq. lia.
    + replace (i + S k)%nat with (S i + k)%nat by lia. rewrite Hh by lia.
      subst scene1. simpl. rewrite length_app. simpl. f_equal. lia.
  - intros j Hj. rewrite Hf2 by lia. subst mi1.
    destruct (get_map_uint head "id"); simpl; [|done].
    apply list_lookup_insert_ne. lia.
  - intros [|k] hd Hk; simpl in Hk.
    + inversion Hk; subst hd. rewrite Nat.add_0_r, Hf2 by lia. subst mi1.
      destruct (get_map_uint head "id"); simpl; [|done].
      apply list_lookup_insert_eq. lia.
    + replace (i + S k)%nat with (S i + k)%nat by lia. rewrite (Hi k hd Hk).
      destruct (get_map_uint hd "id"); [done|]. subst mi1.
      destruct (get_map_uint head "id"); simpl; [|done].
      apply list_lookup_insert_ne. lia.
Qed.

Lemma search_id_first (count : nat) (ids : list Z) (key : Z) (j : nat) :
  forall j0, (j0 <= j < j0 + count)%nat ->
    ids !!! j = key ->
    (forall m, (j0 <= m < j)%nat -> ids !!! m <> key) ->
    search_id count j0 ids key = Some j.
Proof.
  induction count as [|count IH]; intros j0 Hj Hkey Hfirst; [lia|]. simpl.
  destruct (Z.eqb_spec (ids !!! j0) key) as [E|Hne].
  - f_equal. destruct (decide (j0 = j)) as [|Hd]; [done|].
    exfalso. apply (Hfirst j0); [lia|done].
  - apply IH; [|done|].
    + destruct (decide (j0 = j)) as [->|]; [done|lia].
    + intros m Hm. apply Hfirst. lia.
Qed.

Lemma fmap_alter_same {A B : Type} (f : A -> B) (g : A -> A) (i : nat) (l : list A) :
  (forall x, f (g x) = f x) -> f <$> alter g i l = f <$> l.
Proof.
  intros H. apply list_eq. intros j. rewrite !list_lookup_fmap.
  destruct (decide (i = j)) as [->|Hne].
  - rewrite list_lookup_alter_eq. destruct (l !! j); simpl; [|done]. by rewrite H.
  - by rewrite list_lookup_alter_ne.
Qed.

(** The wiring loop records each declared [mesh_id] and changes no
    node's attachment. *)
Lemma wire_loop_mesh_ids (nodes_len : nat) (node_handles : list ufbxw_node)
  (node_ids : list Z) (l : list term) :
  forall (i : nat) (scene : ufbxw_scene) (node_mesh_ids : list Z),
    (i + length l <= length node_mesh_ids)%nat ->
    exists scene' node_mesh_ids',
      fold_cells i l (wire_node_step nodes_len node_handles node_ids)
                 (scene, node_mesh_ids)
      = (scene', node_mesh_ids')
      /\ wn_attribute <$> sc_nodes scene' = wn_attribute <$> sc_nodes scene
      /\ (forall j, (j < i)%nat -> node_mesh_ids' !! j = node_mesh_ids !! j)
      /\ (forall k head, l !! k = Some head ->
                         node_mesh_ids' !! (i + k)%nat
                         = match get_map_uint head "mesh_id" with
                           | Some id => Some id
                           | None => node_mesh_ids !! (i + k)%nat
                           end).
Proof.
  induction l as [|head l IH]; intros i scene nmi Hlen; cbn [fold_cells length] in *.
  { exists scene, nmi. repeat split; try done; intros; lia. }
  destruct (wire_node_step nodes_len node_handles node_ids i head (scene, nmi))
    as [scene1 nmi1] eqn:Hstep.
  assert (Hattr : wn_attribute <$> sc_nodes scene1 = wn_attribute <$> sc_nodes scene).
  { unfold wire_node_step in Hstep. injection Hstep as <- _.
    destruct (get_map_uint head "parent_id") as [pid|]; simpl; [|done].
    destruct (search_id nodes_len 0 node_ids pid); simpl; [|done].
    by apply fmap_alter_same. }
  assert (Hnmi : nmi1 = opt_apply (get_map_uint head "mesh_id")
                                  (fun id ids => <[i := id]> ids) nmi).
  { unfold wire_node_step in Hstep. by injection Hstep as _ <-. }
  assert (Hlen1 : length nmi1 = length nmi).
  { subst nmi1. destruct (get_map_uint head "mesh_id"); simpl; [apply length_insert|done]. }
  destruct (IH (S i) scene1 nmi1) as (s' & nmi' & Heq & Ha & Hf & Hi); [lia|].
  exists s', nmi'. rewrite Heq. split; [done|repeat split].
  - by rewrite Ha.
  - intros j Hj. rewrite Hf by lia. subst nmi1.
    destruct (get_map_uint head "mesh_id"); simpl; [|done].
    apply list_lookup_insert_ne. lia.
  - intros [|k] hd Hk; simpl in Hk.
    + inversion Hk; subst hd. rewrite Nat.add_0_r, Hf by lia. subst nmi1.
      destruct (get_map_uint head "mesh_id"); simpl; [|done].
      apply list_lookup_insert_eq. lia.
    + replace (i + S k)%nat with (S i + k)%nat by lia. rewrite (Hi k hd Hk).
      destruct (get_map_uint hd "mesh_id"); [done|]. subst nmi1.
      destruct (get_map_uint head "mesh_id"); simpl; [|done].
      apply list_lookup_insert_ne. lia.
Qed.

Lemma for_range_invariant_ix {St : Type} (P : nat -> St -> Prop)
  (body : nat -> St -> St) (n : nat) (st : St) :
  P O st ->
  (forall k s, (k < n)%nat -> P k s -> P (S k) (body k s)) ->
  P n (for_range n body st).
Proof.
  intros H0 Hstep. unfold for_range.
  assert (H : forall m k s, (k + m <= n)%nat -> P k s ->
                            P (k + m)%nat (fold_left (fun acc i => body i acc) (seq k m) s)).
  { induction m as [|m IH]; intros k s Hk HP; simpl.
    - by rewrite Nat.add_0_r.
    - replace (k + S m)%nat with (S k + m)%nat by lia.
      apply IH; [lia|]. apply Hstep; [lia|done]. }
  apply (H n O st); [lia|done].
Qed.

Lemma search_id_some (count : nat) (ids : list Z) (key : Z) (j : nat) :
  forall j0, search_id count j0 ids key = Some j ->
             (j0 <= j < j0 + count)%nat /\ ids !!! j = key.
Proof.
  induction count as [|count IH]; intros j0 H; simpl in H; [discriminate|].
  destruct (Z.eqb_spec (ids !!! j0) key) as [E|_].
  - injection H as <-. split; [lia|done].
  - destruct (IH (S j0) H) as [Hr Hk]. split; [lia|done].
Qed.

(** The loop that connects meshes to nodes attaches to node [i] the first
    mesh whose recorded id is the node's non-zero [mesh_id]. *)
Lemma connect_loop_attaches (i j nodes_len meshes_len : nat)
  (node_handles : list ufbxw_node) (node_mesh_ids : list Z)
  (mesh_handles : list ufbxw_mesh) (mesh_ids : list Z) (scene : ufbxw_scene)
  (mesh_id : Z) :
  (forall k, (k < nodes_len)%nat -> node_handles !! k = Some k) ->
  (forall k, (k < meshes_len)%nat -> mesh_handles !! k = Some k) ->
  (i < nodes_len)%nat ->
  is_Some (sc_nodes scene !! i) ->
  node_mesh_ids !! i = Some mesh_id ->
  mesh_id <> 0 ->
  search_id meshes_len 0 mesh_ids mesh_id = Some j ->
  exists d,
    sc_nodes (for_range nodes_len
                (connect_mesh_step node_handles node_mesh_ids meshes_len
                                   mesh_handles mesh_ids) scene) !! i = Some d
    /\ wn_attribute d = Some (IdMesh j).
Proof.
  intros Hnh Hmh Hi Hnode Hmid Hnz Hsearch.
  set (P := fun (k : nat) (s : ufbxw_scene) =>
              exists d, sc_nodes s !! i = Some d
                        /\ ((i < k)%nat -> wn_attribute d = Some (IdMesh j))).
  assert (HP : P nodes_len
                 (for_range nodes_len
                    (connect_mesh_step node_handles node_mesh_ids meshes_len
                                       mesh_handles mesh_ids) scene)).
  { apply (for_range_invariant_ix P).
    - destruct Hnode as [d Hd]. exists d. split; [done|lia].
    - intros k s Hk (d & Hd & Hattr). unfold P, connect_mesh_step.
      destruct (decide (k = i)) as [->|Hne].
      + rewrite (list_lookup_total_correct _ _ _ Hmid).
        destruct (Z.eqb_spec mesh_id 0) as [?|_]; [done|]. simpl.
        rewrite Hsearch. simpl.
        rewrite (list_lookup_total_correct _ _ _ (Hnh i Hi)).
        destruct (search_id_some _ _ _ _ _ Hsearch) as [Hj _].
        assert (Hjl : (j < meshes_len)%nat) by lia.
        rewrite (list_lookup_total_correct _ _ _ (Hmh j Hjl)).
        exists (node_set_attribute (IdMesh j) d).
        unfold ufbxw_node_set_attribute. simpl.
        by rewrite list_lookup_alter_eq, Hd.
      + exists d. split; [|intros; apply Hattr; lia].
        destruct (negb _); [|done].
        destruct (search_id meshes_len 0 mesh_ids (node_mesh_ids !!! k)) as [j'|];
          simpl; [|done].
        rewrite (list_lookup_total_correct _ _ _ (Hnh k Hk)).
        unfold ufbxw_node_set_attribute. simpl.
        by rewrite list_lookup_alter_ne. }
  destruct HP as (d & Hd & Hattr). exists d. split; [done|]. by apply Hattr.
Qed.

(** X1.  For a node entry whose [mesh_id] is a non-zero unsigned integer,
    the built node gets attached the mesh built from the first mesh entry
    whose recorded id equals it: the id the mesh entry declares, or, for a
    mesh entry that declares none, what its slot of the id table holds. *)
Theorem nonzero_mesh_id_attached (uninit : alloc_site -> nat -> Z)
  (scene_data_map : term) (node_entries mesh_entries : list term)
  (i j : nat) (head mesh_head : term) (mesh_id : Z) :
  map_list_entries scene_data_map "nodes" = Some node_entries ->
  map_list_entries scene_data_map "meshes" = Some mesh_entries ->
  node_entries !! i = Some head ->
  get_map_uint head "mesh_id" = Some mesh_id ->
  mesh_id <> 0 ->
  mesh_entries !! j = Some mesh_head ->
  recorded_id uninit MeshIds j mesh_head = mesh_id ->
  (forall j' e, (j' < j)%nat -> mesh_entries !! j' = Some e ->
                recorded_id uninit MeshIds j' e <> mesh_id) ->
  exists scene node,
    build_ufbxw_scene_from_map uninit true scene_data_map = Some scene
    /\ sc_nodes scene !! i = Some node
    /\ wn_attribute node = Some (IdMesh j)
    /\ sc_meshes scene !! j = Some (built_mesh uninit true j mesh_head).
Proof.
  intros Hn Hm Hi Hmid Hnz Hj Hid Hfirst.
  destruct (build_meshes_spec uninit scene_data_map) as (scene & Hbuild & Hmeshes).
  exists scene.
  assert (Hmesh : sc_meshes scene !! j = Some (built_mesh uninit true j mesh_head)).
  { rewrite Hmeshes, (built_meshes_lookup uninit scene_data_map mesh_entries j mesh_head)
      by done.
    unfold map_list_entries in Hn.
    destruct (get_map_list scene_data_map "nodes") as [nl|]; [|done]. by rewrite Hn. }
  assert (Hnode : exists node, sc_nodes scene !! i = Some node
                               /\ wn_attribute node = Some (IdMesh j)).
  { unfold build_ufbxw_scene_from_map, ufbxw_create_scene in Hbuild.
    injection Hbuild as <-.
    rewrite (proj1 (build_materials_frame scene_data_map _)).
    unfold map_list_entries in Hn, Hm.
    destruct (get_map_list scene_data_map "nodes") as [nl|]; [|done].
    destruct (get_map_list scene_data_map "meshes") as [ml|] eqn:Hml; [|done].
    apply list_of_term_inv in Hn, Hm. subst nl ml.
    unfold build_with_nodes.
    rewrite get_list_length_term_list, for_cells_term_list.
    destruct (node_loop_spec node_entries 0 empty_scene
                (enif_alloc_handles uninit NodeHandles (length node_entries))
                (enif_alloc_uint uninit NodeIds (length node_entries)))
      as (nh & ni & Heq & _ & Hh & _ & _).
    { rewrite length_enif_alloc_handles. lia. }
    { rewrite length_enif_alloc_uint. lia. }
    rewrite Heq. clear Heq. rewrite for_cells_term_list.
    destruct (wire_loop_mesh_ids (length node_entries) nh ni node_entries 0
                (with_nodes (fun ns => ns ++ (built_node <$> node_entries)) empty_scene)
                (replicate (length node_entries) 0))
      as (s2 & nmi & Heq & Hattr & _ & Hnmi).
    { rewrite length_replicate. lia. }
    assert (Hs2m : sc_meshes s2 = []).
    { pose proof (wire_loop_frame (length node_entries) (length node_entries)
                    (term_list node_entries) nh ni
                    (with_nodes (fun ns => ns ++ (built_node <$> node_entries))
                                empty_scene,
                     replicate (length node_entries) 0)) as Hfr.
      rewrite for_cells_term_list, Heq in Hfr. exact Hfr. }
    rewrite Heq. clear Heq.
    rewrite Hml, get_list_length_term_list, for_cells_term_list.
    destruct (mesh_loop_tables uninit mesh_entries 0 s2
                (enif_alloc_handles uninit MeshHandles (length mesh_entries))
                (enif_alloc_uint uninit MeshIds (length mesh_entries)))
      as (s3 & mh & mi & Heq & _ & Hmh & _ & Hmi).
    { rewrite length_enif_alloc_handles. lia. }
    { rewrite length_enif_alloc_uint. lia. }
    pose proof (mesh_loop_spec uninit true mesh_entries 0 s2
                  (enif_alloc_handles uninit MeshHandles (length mesh_entries))
                  (enif_alloc_uint uninit MeshIds (length mesh_entries)))
      as (Hs3m & Hs3n & _).
    simpl in Hs3m, Hs3n. rewrite Heq in Hs3m, Hs3n. simpl in Hs3m, Hs3n.
    rewrite Heq. clear Heq.
    apply (connect_loop_attaches i j (length node_entries) (length mesh_entries)
             nh nmi mh mi s3 mesh_id).
    - intros k Hk. specialize (Hh k Hk). done.
    - intros k Hk. specialize (Hmh k Hk). by rewrite Hs2m in Hmh.
    - by eapply lookup_lt_Some.
    - rewrite Hs3n. apply lookup_lt_is_Some.
      rewrite <- (length_fmap wn_attribute), Hattr, length_fmap. simpl.
      rewrite length_fmap. by eapply lookup_lt_Some.
    - specialize (Hnmi i head Hi). simpl in Hnmi. by rewrite Hnmi, Hmid.
    - done.
    - assert (Hmi' : forall k e, mesh_entries !! k = Some e ->
                                 mi !! k = Some (recorded_id uninit MeshIds k e)).
      { intros k e He. specialize (Hmi k e He). simpl in Hmi. rewrite Hmi.
        unfold recorded_id. destruct (get_map_uint e "id"); [done|].
        apply enif_alloc_uint_lookup. by eapply lookup_lt_Some. }
      apply search_id_first.
      + split; [lia|]. simpl. by eapply lookup_lt_Some.
      + by rewrite (list_lookup_total_correct _ _ _ (Hmi' j mesh_head Hj)).
      + intros m [_ Hmj].
        assert (Hml' : (m < length mesh_entries)%nat).
        { apply lookup_lt_Some in Hj. lia. }
        destruct (lookup_lt_is_Some_2 mesh_entries m Hml') as [e He].
        rewrite (list_lookup_total_correct _ _ _ (Hmi' m e He)).
        by apply (Hfirst m e). }
  destruct Hnode as (node & Hnode & Hattr). exists node. done.
Qed.

(** ** Further properties of the extractor and the builder *)

Lemma for_down_term_list {A : Type} (f : A -> term) (data : list A) :
  for_down data (fun a acc => enif_make_list_cell (f a) acc) enif_make_list0
  = term_list (f <$> data).
Proof.
  rewrite for_down_cons.
  induction data as [|a data IH]; simpl; [done|]. by rewrite IH.
Qed.


Lemma built_mesh_no_nodes_fields (uninit : alloc_site -> nat -> Z) (i : nat)
  (head : term) :
  wm_normals (built_mesh uninit false i head) = None
  /\ wm_uvs (built_mesh uninit false i head) = [].
Proof.
  unfold built_mesh, triangles_update, positions_update. cbv zeta.
  destruct (get_map_list head "indices") as [ti|];
    [destruct (enif_get_list_length ti)|].
  all: destruct (get_map_list head "positions") as [tp|];
    [destruct (enif_get_list_length tp); [cbv zeta; destruct (_ && _)|]|].
  all: by destruct (get_map_string head "name").
Qed.

(** X3.  When the scene term has no [nodes] key, the builder creates one
    mesh per mesh entry and none of them has normals or texture
    coordinates. *)
Theorem no_nodes_key_drops_normals_and_uvs (uninit : alloc_site -> nat -> Z)
  (scene_data_map : term) :
  get_map_list scene_data_map "nodes" = None ->
  exists scene,
    build_ufbxw_scene_from_map uninit true scene_data_map = Some scene
    /\ length (sc_meshes scene)
       = length (default [] (map_list_entries scene_data_map "meshes"))
    /\ (forall i mesh, sc_meshes scene !! i = Some mesh ->
                       wm_normals mesh = None /\ wm_uvs mesh = []).
Proof.
  intros Hnone.
  destruct (build_meshes_spec uninit scene_data_map) as (scene & Hbuild & Hmeshes).
  exists scene. split; [done|]. rewrite Hmeshes. unfold built_meshes. rewrite Hnone.
  split; [by rewrite length_imap|].
  intros i mesh Hi. rewrite list_lookup_imap in Hi.
  destruct (default [] (map_list_entries scene_data_map "meshes") !! i) as [head|];
    [|done].
  injection Hi as <-. apply built_mesh_no_nodes_fields.
Qed.

(** X4.  Once the scene container is allocated the builder returns a
    scene for every scene term, whose meshes are the entries' built meshes
    in order; when the container cannot be allocated it returns none and
    [write_fbx] answers [{error, "Failed to create ufbxw_scene"}]. *)
Theorem builder_is_total (uninit : alloc_site -> nat -> Z)
  (save : ufbxw_scene -> string -> ufbxw_save_opts -> bool * string)
  (path : string) (scene_data_map format_atom : term) :
  (exists scene,
      build_ufbxw_scene_from_map uninit true scene_data_map = Some scene
      /\ sc_meshes scene = built_meshes uninit scene_data_map)
  /\ build_ufbxw_scene_from_map uninit false scene_data_map = None
  /\ (enif_is_map scene_data_map = true ->
      write_fbx_nif uninit false save [TBinary path; scene_data_map; format_atom]
      = Return (enif_make_tuple2 (enif_make_atom "error")
                                 (enif_make_string "Failed to create ufbxw_scene"))).
Proof.
  split; [apply build_meshes_spec|]. split; [reflexivity|].
  intros Hmap. unfold write_fbx_nif, enif_inspect_binary. by rewrite Hmap.
Qed.

(** X5.  When the baker fails on every animation stack (in particular
    when there is none), the extracted scene has [animations = []]. *)
Theorem failed_stacks_contribute_nothing (alloc : nat -> bool)
  (bake : ufbx_scene -> ufbx_anim -> ufbx_bake_opts -> option ufbx_baked_anim)
  (scene : ufbx_scene) :
  (forall anim_stack, In anim_stack (anim_stacks scene) ->
     bake scene (stack_anim anim_stack) {| resample_rate := 30 |} = None) ->
  enif_get_map_value (extract_scene_data alloc bake scene) "animations" = Some TNil.
Proof.
  intros Hfail. unfold extract_scene_data. cbv zeta.
  match goal with
  | |- context [for_down (anim_stacks scene) ?body enif_make_list0] =>
      assert (E : for_down (anim_stacks scene) body enif_make_list0 = TNil)
  end.
  { rewrite for_down_fold_right.
    induction (anim_stacks scene) as [|st l IH]; simpl; [done|].
    rewrite IH by (intros a Ha; apply Hfail; by right).
    by rewrite (Hfail st) by (by left). }
  rewrite E. reflexivity.
Qed.

(** ** Extraction: which keys, and in which order *)

Lemma typed_id_list_terms (ptrs : list ufbx_element_ptr) :
  typed_id_list ptrs = term_list (id_term <$> ptrs).
Proof. apply (for_down_term_list id_term). Qed.

Lemma make_string_cases (alloc : nat -> bool) (str : ufbx_string) :
  make_string alloc str
  = if String.eqb str "" then TNil
    else if alloc (String.length str) then TBinary str else TAtom "error".
Proof.
  unfold make_string. destruct str as [|c str]; [reflexivity|]. simpl.
  by destruct (alloc (S (String.length str))).
Qed.

Lemma extract_node_lookups (alloc : nat -> bool) (node : ufbx_node) (node_id : Z) :
  let emitted := enif_get_map_value (extract_node alloc node node_id) in
  let local := node_local_transform node in
  emitted "id" = Some (TInt node_id)
  /\ emitted "name" = Some (make_string alloc (node_name node))
  /\ emitted "parent_id" = id_term <$> node_parent node
  /\ emitted "children"
     = (if nonempty (node_children node)
        then Some (term_list (id_term <$> node_children node)) else None)
  /\ emitted "mesh_id" = id_term <$> node_mesh node
  /\ emitted "translation"
     = Some (term_list [TFloat (v3_x (translation local)); TFloat (v3_y (translation local));
                        TFloat (v3_z (translation local))])
  /\ emitted "rotation"
     = Some (term_list [TFloat (q_x (rotation local)); TFloat (q_y (rotation local));
                        TFloat (q_z (rotation local)); TFloat (q_w (rotation local))])
  /\ emitted "scale"
     = Some (term_list [TFloat (v3_x (scale local)); TFloat (v3_y (scale local));
                        TFloat (v3_z (scale local))]).
Proof.
  unfold extract_node. rewrite typed_id_list_terms.
  destruct (node_parent node), (node_children node), (node_mesh node);
    repeat split; reflexivity.
Qed.

(** X6.  An extracted node carries [parent_id] exactly when the source
    node has a parent and [mesh_id] exactly when it has a mesh, each the
    typed id of the element pointed at; [children] exactly when there is at
    least one child (never an empty list), as the children's typed ids in
    source order; and always [id], and [translation], [rotation] and
    [scale] as lists of 3, 4 and 3 doubles taken from the local transform. *)
Theorem node_keys_follow_the_source (alloc : nat -> bool) (node : ufbx_node)
  (node_id : Z) :
  let emitted := enif_get_map_value (extract_node alloc node node_id) in
  let local := node_local_transform node in
  emitted "id" = Some (TInt node_id)
  /\ emitted "parent_id" = id_term <$> node_parent node
  /\ emitted "children"
     = (if nonempty (node_children node)
        then Some (term_list (id_term <$> node_children node)) else None)
  /\ emitted "mesh_id" = id_term <$> node_mesh node
  /\ emitted "translation"
     = Some (term_list [TFloat (v3_x (translation local)); TFloat (v3_y (translation local));
                        TFloat (v3_z (translation local))])
  /\ emitted "rotation"
     = Some (term_list [TFloat (q_x (rotation local)); TFloat (q_y (rotation local));
                        TFloat (q_z (rotation local)); TFloat (q_w (rotation local))])
  /\ emitted "scale"
     = Some (term_list [TFloat (v3_x (scale local)); TFloat (v3_y (scale local));
                        TFloat (v3_z (scale local))]).
Proof.
  intros emitted local.
  destruct (extract_node_lookups alloc node node_id)
    as (Hid & _ & Hp & Hc & Hm & Ht & Hr & Hs).
  repeat split; assumption.
Qed.

Lemma extract_mesh_lookups (alloc : nat -> bool) (mesh : ufbx_mesh) :
  let emitted := enif_get_map_value (extract_mesh alloc mesh) in
  let pos := vertex_position mesh in
  let has_pos := vv3_exists pos && nonempty (vv3_values pos) in
  emitted "id" = Some (TInt (mesh_typed_id mesh))
  /\ emitted "name" = Some (make_string alloc (mesh_name mesh))
  /\ emitted "positions"
     = (if has_pos then Some (term_list (make_vec3 <$> vv3_values pos)) else None)
  /\ emitted "indices"
     = (if has_pos && nonempty (vv3_indices pos)
        then Some (term_list (TInt <$> vv3_indices pos)) else None)
  /\ emitted "normals"
     = (if vv3_exists (vertex_normal mesh) && nonempty (vv3_values (vertex_normal mesh))
        then Some (term_list (make_vec3 <$> vv3_values (vertex_normal mesh))) else None)
  /\ emitted "texcoords"
     = (if vv2_exists (vertex_uv mesh) && nonempty (vv2_values (vertex_uv mesh))
        then Some (term_list
                     ((fun uv => term_list [TFloat (v2_x uv); TFloat (v2_y uv)])
                        <$> vv2_values (vertex_uv mesh)))
        else None)
  /\ emitted "material_ids"
     = (if nonempty (mesh_materials mesh)
        then Some (term_list (id_term <$> mesh_materials mesh)) else None).
Proof.
  unfold extract_mesh, make_vec3_list, make_texcoords, make_uint32_list.
  rewrite typed_id_list_terms, !for_down_term_list.
  destruct (vv3_exists (vertex_position mesh)),
    (vv3_values (vertex_position mesh)) as [|p ps],
    (vv3_indices (vertex_position mesh)) as [|ix ixs],
    (vv3_exists (vertex_normal mesh)), (vv3_values (vertex_normal mesh)) as [|n ns],
    (vv2_exists (vertex_uv mesh)), (vv2_values (vertex_uv mesh)) as [|u us],
    (mesh_materials mesh) as [|mt mts]; repeat split; reflexivity.
Qed.

(** X7.  An extracted mesh carries [indices] (the position indices, in
    source order) only when the position attribute exists with at least
    one value and there is at least one index, so never without
    [positions]; and [material_ids] exactly when the mesh has at least one
    material, as the materials' typed ids in source order. *)
Theorem indices_only_with_positions (alloc : nat -> bool) (mesh : ufbx_mesh) :
  let emitted := enif_get_map_value (extract_mesh alloc mesh) in
  let pos := vertex_position mesh in
  emitted "indices"
  = (if vv3_exists pos && nonempty (vv3_values pos) && nonempty (vv3_indices pos)
     then Some (term_list (TInt <$> vv3_indices pos)) else None)
  /\ (is_Some (emitted "indices") -> is_Some (emitted "positions"))
  /\ emitted "material_ids"
     = (if nonempty (mesh_materials mesh)
        then Some (term_list (id_term <$> mesh_materials mesh)) else None).
Proof.
  intros emitted pos.
  destruct (extract_mesh_lookups alloc mesh) as (_ & _ & Hp & Hi & _ & _ & Hm).
  fold emitted pos in Hp, Hi, Hm. rewrite Hp, Hi, Hm. repeat split.
  destruct (vv3_exists pos && nonempty (vv3_values pos)); simpl; [by eauto|].
  by intros [? ?].
Qed.

(** X8.  An extracted texture carries [file_path] exactly when the source
    filename is not empty; the value is then a binary holding the
    filename (the atom [error] when the runtime refuses the binary), and
    never the empty list that an empty [name] becomes. *)
Theorem texture_file_path_only_when_set (alloc : nat -> bool) (texture : ufbx_texture) :
  let emitted := enif_get_map_value (extract_texture alloc texture) in
  emitted "id" = Some (TInt (texture_typed_id texture))
  /\ emitted "file_path"
     = (if String.eqb (filename texture) "" then None
        else Some (if alloc (String.length (filename texture))
                   then TBinary (filename texture) else TAtom "error")).
Proof.
  unfold extract_texture. rewrite (make_string_cases alloc (filename texture)).
  destruct (filename texture) as [|c fn]; [by split|].
  split; reflexivity.
Qed.

(** X9.  The keyframe list of an extracted animation is, for the baked
    nodes in source order, each node's scale keyframes, then its rotation
    keyframes, then its translation keyframes, each group in sample order;
    every keyframe is a map of exactly [node_id], [time] and the one
    channel field; the list has one keyframe per baked sample. *)
Theorem keyframes_grouped_by_node_and_channel (alloc : nat -> bool)
  (baked : ufbx_baked_anim) (anim_stack : ufbx_anim_stack) :
  let emitted := animation_keyframes (extract_animation alloc baked anim_stack) in
  emitted
  = concat ((fun bn =>
               vec3_keyframes (baked_typed_id bn) "scale" (scale_keys bn)
               ++ quat_keyframes (baked_typed_id bn) (rotation_keys bn)
               ++ vec3_keyframes (baked_typed_id bn) "translation" (translation_keys bn))
              <$> baked_nodes baked)
  /\ length emitted
     = sum_list_with (fun bn => length (scale_keys bn) + length (rotation_keys bn)
                                + length (translation_keys bn))%nat (baked_nodes baked).
Proof.
  intros emitted.
  assert (E : emitted = concat (node_keyframe_terms <$> baked_nodes baked)).
  { subst emitted. unfold animation_keyframes.
    replace (enif_get_map_value (extract_animation alloc baked anim_stack) "keyframes")
      with (Some (extract_keyframes baked)) by reflexivity.
    by rewrite extract_keyframes_concat, list_of_term_list. }
  rewrite E. clear E emitted. split; [reflexivity|].
  induction (baked_nodes baked) as [|bn l IH]; [done|].
  cbn [fmap list_fmap concat sum_list_with]. rewrite length_app, IH. f_equal.
  unfold node_keyframe_terms, channel_keyframe_terms.
  rewrite !length_app, !length_map. lia.
Qed.

(** The version string holds no NUL byte. *)
Lemma c_str_digits_nonempty (d : Decimal.uint) (rest : string) :
  c_str (NilEmpty.string_of_uint d ++ rest)
  = (NilEmpty.string_of_uint d ++ c_str rest)%string.
Proof. induction d; cbn; [done|by rewrite IHd..]. Qed.

Lemma c_str_digits (d : Decimal.uint) (rest : string) :
  c_str (NilZero.string_of_uint d ++ rest) = (NilZero.string_of_uint d ++ c_str rest)%string.
Proof.
  unfold NilZero.string_of_uint. destruct d; [reflexivity|apply c_str_digits_nonempty..].
Qed.

Lemma string_app_nil_r (s : string) : (s ++ "")%string = s.
Proof. induction s as [|c s IH]; simpl; [done|]. by rewrite IH. Qed.

Lemma c_str_version_string (v : Z) : c_str (version_string v) = version_string v.
Proof.
  unfold version_string. cbn [String.append c_str Ascii.eqb Bool.eqb Ascii.zero].
  repeat f_equal. rewrite c_str_digits. f_equal.
  cbn [String.append c_str Ascii.eqb Bool.eqb Ascii.zero]. f_equal.
  set (d := N.to_uint _).
  rewrite <- (string_app_nil_r (NilZero.string_of_uint d)) at 1.
  rewrite c_str_digits. simpl. apply string_app_nil_r.
Qed.

Lemma scene_entry_lists (alloc : nat -> bool)
  (bake : ufbx_scene -> ufbx_anim -> ufbx_bake_opts -> option ufbx_baked_anim)
  (scene : ufbx_scene) :
  let scene_data := extract_scene_data alloc bake scene in
  enif_get_map_value scene_data "nodes"
  = Some (term_list ((fun node => extract_node alloc node (node_typed_id node))
                       <$> nodes scene))
  /\ enif_get_map_value scene_data "meshes"
     = Some (term_list (extract_mesh alloc <$> meshes scene))
  /\ enif_get_map_value scene_data "materials"
     = Some (term_list (extract_material alloc <$> materials scene))
  /\ enif_get_map_value scene_data "textures"
     = Some (term_list (extract_texture alloc <$> textures scene))
  /\ enif_get_map_value scene_data "animations"
     = Some (term_list
               (omap (fun anim_stack =>
                        (fun baked => extract_animation alloc baked anim_stack)
                          <$> bake scene (stack_anim anim_stack) {| resample_rate := 30 |})
                     (anim_stacks scene)))
  /\ enif_get_map_value scene_data "version"
     = Some (charlist (version_string (metadata_version scene))).
Proof.
  unfold extract_scene_data. cbv zeta. rewrite !for_down_term_list.
  unfold enif_make_string. rewrite c_str_version_string.
  match goal with
  | |- context [for_down (anim_stacks scene) ?body enif_make_list0] =>
      assert (E : for_down (anim_stacks scene) body enif_make_list0
                  = term_list
                      (omap (fun anim_stack =>
                               (fun baked => extract_animation alloc baked anim_stack)
                                 <$> bake scene (stack_anim anim_stack)
                                       {| resample_rate := 30 |})
                            (anim_stacks scene)))
  end.
  { rewrite for_down_fold_right.
    induction (anim_stacks scene) as [|st l IH]; simpl; [done|].
    rewrite IH. by destruct (bake scene (stack_anim st) _). }
  rewrite E. repeat split; reflexivity.
Qed.

(** X10.  The extracted scene lists one term per node, mesh, material and
    texture of the parsed scene, in source order although every loop runs
    backwards; [animations] lists, in source order, the animation stacks
    the baker (called at 30 samples per second) returned a result for, and
    silently leaves out the others; [version] is the character list of
    "FBX major.minor". *)
Theorem scene_lists_keep_source_order (alloc : nat -> bool)
  (bake : ufbx_scene -> ufbx_anim -> ufbx_bake_opts -> option ufbx_baked_anim)
  (scene : ufbx_scene) :
  let entries := map_list_entries (extract_scene_data alloc bake scene) in
  entries "nodes"
  = Some ((fun node => extract_node alloc node (node_typed_id node)) <$> nodes scene)
  /\ entries "meshes" = Some (extract_mesh alloc <$> meshes scene)
  /\ entries "materials" = Some (extract_material alloc <$> materials scene)
  /\ entries "textures" = Some (extract_texture alloc <$> textures scene)
  /\ entries "animations"
     = Some (omap (fun anim_stack =>
                     (fun baked => extract_animation alloc baked anim_stack)
                       <$> bake scene (stack_anim anim_stack) {| resample_rate := 30 |})
                  (anim_stacks scene))
  /\ enif_get_map_value (extract_scene_data alloc bake scene) "version"
     = Some (charlist (version_string (metadata_version scene))).
Proof.
  intros entries. subst entries. unfold map_list_entries, get_map_list.
  destruct (scene_entry_lists alloc bake scene) as (-> & -> & -> & -> & -> & ->).
  by rewrite !list_of_term_list.
Qed.

(** Doubling a little-endian decimal adds at most one digit, so a number
    has no more decimal digits than binary ones. *)
Lemma nb_digits_double (d : Decimal.uint) :
  (Decimal.nb_digits (Decimal.Little.double d) <= S (Decimal.nb_digits d))%nat
  /\ (Decimal.nb_digits (Decimal.Little.succ_double d) <= S (Decimal.nb_digits d))%nat.
Proof.
  induction d as [|d [IH1 IH2]|d [IH1 IH2]|d [IH1 IH2]|d [IH1 IH2]|d [IH1 IH2]
                 |d [IH1 IH2]|d [IH1 IH2]|d [IH1 IH2]|d [IH1 IH2]|d [IH1 IH2]];
    simpl; lia.
Qed.

Lemma nb_digits_to_little_uint (p : positive) :
  (Decimal.nb_digits (Pos.to_little_uint p) <= Pos.size_nat p)%nat.
Proof.
  induction p as [p IH|p IH|]; simpl; [| |lia].
  - pose proof (proj2 (nb_digits_double (Pos.to_little_uint p))). lia.
  - pose proof (proj1 (nb_digits_double (Pos.to_little_uint p))). lia.
Qed.

Lemma length_string_of_uint (d : Decimal.uint) :
  String.length (NilEmpty.string_of_uint d) = Decimal.nb_digits d.
Proof. induction d; simpl; congruence. Qed.

Lemma size_nat_below (bits : nat) :
  forall p : positive, (Npos p < 2 ^ N.of_nat bits)%N -> (Pos.size_nat p <= bits)%nat.
Proof.
  induction bits as [|bits IH]; intros p Hp.
  - simpl in Hp. lia.
  - rewrite Nat2N.inj_succ, N.pow_succ_r' in Hp.
    destruct p as [p|p|]; simpl; [| |lia].
    + assert (H : (Npos p < 2 ^ N.of_nat bits)%N) by lia. specialize (IH p H). lia.
    + assert (H : (Npos p < 2 ^ N.of_nat bits)%N) by lia. specialize (IH p H). lia.
Qed.

Lemma length_digits_N (n : N) (bits : nat) :
  (n < 2 ^ N.of_nat bits)%N ->
  (String.length (NilZero.string_of_uint (N.to_uint n)) <= S bits)%nat.
Proof.
  intros Hn. destruct n as [|p]; [simpl; lia|].
  unfold N.to_uint, Pos.to_uint.
  assert (E : NilZero.string_of_uint (Decimal.rev (Pos.to_little_uint p))
              = NilEmpty.string_of_uint (Decimal.rev (Pos.to_little_uint p))
              \/ NilZero.string_of_uint (Decimal.rev (Pos.to_little_uint p)) = "0").
  { destruct (Decimal.rev (Pos.to_little_uint p)); auto. }
  destruct E as [-> | ->]; [|simpl; lia].
  rewrite length_string_of_uint, nb_digits_rev.
  pose proof (nb_digits_to_little_uint p). pose proof (size_nat_below bits p Hn). lia.
Qed.

Lemma string_length_app (s1 s2 : string) :
  String.length (s1 ++ s2) = (String.length s1 + String.length s2)%nat.
Proof. induction s1 as [|c s1 IH]; simpl; [done|]. by rewrite IH. Qed.

(** X11.  For every version number a 32-bit unsigned field can hold, the
    text "FBX major.minor" is shorter than the 32 bytes of [version_str],
    so [snprintf] never cuts it, and it holds no NUL byte, so the emitted
    character list is the whole text. *)
Theorem version_string_fits_its_buffer (v : Z) :
  0 <= v <= UINT_MAX ->
  (String.length (version_string v) < 32)%nat
  /\ enif_make_string (version_string v) = charlist (version_string v).
Proof.
  intros Hv. split; [|unfold enif_make_string; by rewrite c_str_version_string].
  unfold version_string. rewrite !string_length_app.
  assert (H1 : (String.length
                  (NilZero.string_of_uint (N.to_uint (Z.to_N (v / 1000)))) <= 24)%nat).
  { apply (length_digits_N _ 23). unfold UINT_MAX in Hv.
    assert (v / 1000 < 8388608) by (apply Z.div_lt_upper_bound; lia).
    assert (0 <= v / 1000) by (apply Z.div_pos; lia).
    change (2 ^ N.of_nat 23)%N with 8388608%N. lia. }
  assert (H2 : String.length
                 (NilZero.string_of_uint (N.to_uint (Z.to_N (v mod 1000 / 100)))) = 1%nat).
  { assert (0 <= v mod 1000 < 1000) by (apply Z.mod_pos_bound; lia).
    assert (v mod 1000 / 100 < 10) by (apply Z.div_lt_upper_bound; lia).
    assert (0 <= v mod 1000 / 100) by (apply Z.div_pos; lia).
    set (m := v mod 1000 / 100) in *.
    assert (Hm : m = 0 \/ m = 1 \/ m = 2 \/ m = 3 \/ m = 4 \/ m = 5 \/ m = 6
                 \/ m = 7 \/ m = 8 \/ m = 9) by lia.
    destruct Hm as [->|[->|[->|[->|[->|[->|[->|[->|[->| ->]]]]]]]]]; reflexivity. }
  rewrite H2. simpl String.length. lia.
Qed.

(** ** The replies of the entry points *)

(** X12.  [write_fbx] raises badarg exactly when it is not given three
    arguments of which the first is a binary and the second a map; in
    every other case, whatever the map holds, it returns one of three
    replies: [{ok, Path}] with the path up to its first NUL byte as a
    character list, [{error, "Failed to create ufbxw_scene"}], or
    [{error, Msg}] with the message made from the writer's description. *)
Theorem write_fbx_replies (uninit : alloc_site -> nat -> Z) (create_ok : bool)
  (save : ufbxw_scene -> string -> ufbxw_save_opts -> bool * string) (argv : list term) :
  let reply := write_fbx_nif uninit create_ok save argv in
  (reply = Badarg <-> ~ exists path pairs format_atom,
                          argv = [TBinary path; TMap pairs; format_atom])
  /\ (forall path pairs format_atom,
        argv = [TBinary path; TMap pairs; format_atom] ->
        reply = Return (TTuple [TAtom "ok"; charlist (c_str path)])
        \/ reply = Return (TTuple [TAtom "error"; charlist "Failed to create ufbxw_scene"])
        \/ exists description,
             reply = Return (TTuple [TAtom "error";
                                     charlist (save_error_message description)])).
Proof.
  intros reply.
  assert (Hshape : forall path pairs format_atom,
             argv = [TBinary path; TMap pairs; format_atom] ->
             reply = Return (TTuple [TAtom "ok"; charlist (c_str path)])
             \/ reply = Return (TTuple [TAtom "error";
                                        charlist "Failed to create ufbxw_scene"])
             \/ exists description,
                  reply = Return (TTuple [TAtom "error";
                                          charlist (save_error_message description)])).
  { intros path pairs format_atom ->. subst reply.
    unfold write_fbx_nif, enif_inspect_binary, enif_is_map. cbn [negb].
    destruct (build_ufbxw_scene_from_map uninit create_ok (TMap pairs)) as [scene|];
      [|by right; left].
    unfold save_and_report.
    destruct (save scene (c_str path) (save_opts_for format_atom)) as [[|] description];
      cbn [negb].
    - left. unfold enif_make_string. by rewrite c_str_idempotent.
    - right. right. exists description. unfold enif_make_string.
      by rewrite c_str_save_error_message. }
  split; [|exact Hshape]. split.
  - intros Hbad (path & pairs & format_atom & Hargv).
    destruct (Hshape path pairs format_atom Hargv) as [H|[H|[d H]]];
      rewrite H in Hbad; discriminate.
  - intros Hno. subst reply. unfold write_fbx_nif.
    destruct argv as [|argv0 [|argv1 [|argv2 [|? ?]]]]; try reflexivity.
    destruct argv0; try reflexivity. destruct argv1; try reflexivity.
    exfalso. apply Hno. eauto.
Qed.

(** X13.  When the external writer fails, [write_fbx] returns [{error,
    Msg}] where [Msg] is "Failed to save FBX: " followed by the writer's
    description, cut to 255 characters: never longer, and complete
    whenever the description has at most 235 characters. *)
Theorem save_failure_message_is_bounded (uninit : alloc_site -> nat -> Z)
  (save : ufbxw_scene -> string -> ufbxw_save_opts -> bool * string)
  (path : string) (pairs : list (term * term)) (format_atom : term)
  (scene : ufbxw_scene) (description : string) :
  build_ufbxw_scene_from_map uninit true (TMap pairs) = Some scene ->
  save scene (c_str path) (save_opts_for format_atom) = (false, description) ->
  exists msg,
    write_fbx_nif uninit true save [TBinary path; TMap pairs; format_atom]
    = Return (TTuple [TAtom "error"; charlist msg])
    /\ msg = substring 0 255 ("Failed to save FBX: " ++ c_str description)
    /\ (String.length msg <= 255)%nat
    /\ ((String.length (c_str description) <= 235)%nat ->
        msg = ("Failed to save FBX: " ++ c_str description)%string).
Proof.
  intros Hbuild Hsave. exists (save_error_message description). repeat split.
  - unfold write_fbx_nif, enif_inspect_binary, enif_is_map. cbn [negb].
    rewrite Hbuild. unfold save_and_report. rewrite Hsave. cbn [negb].
    unfold enif_make_string, enif_make_tuple2, enif_make_atom.
    by rewrite c_str_save_error_message.
  - apply length_substring_le.
  - intros Hlen. unfold save_error_message. apply substring_all. simpl. lia.
Qed.

(** X14.  [load_fbx] and [write_fbx] use the path as a C string: two path
    binaries that agree up to their first NUL byte give the same result,
    whatever follows the NUL. *)
Theorem paths_are_c_strings (alloc : nat -> bool)
  (bake : ufbx_scene -> ufbx_anim -> ufbx_bake_opts -> option ufbx_baked_anim)
  (load_file : string -> ufbx_scene + string)
  (uninit : alloc_site -> nat -> Z) (create_ok : bool)
  (save : ufbxw_scene -> string -> ufbxw_save_opts -> bool * string)
  (path path' : string) (scene_data_map format_atom : term) :
  c_str path = c_str path' ->
  load_fbx_nif alloc bake load_file (TBinary path)
  = load_fbx_nif alloc bake load_file (TBinary path')
  /\ write_fbx_nif uninit create_ok save [TBinary path; scene_data_map; format_atom]
     = write_fbx_nif uninit create_ok save [TBinary path'; scene_data_map; format_atom].
Proof.
  intros Hp. unfold load_fbx_nif, write_fbx_nif. simpl. by rewrite Hp.
Qed.

(** X15.  [load_fbx] and [load_fbx_binary] raise badarg when the
    argument is not a binary (a character list is not accepted).  Given a
    binary they return [{error, Description}], the parser's description as
    a character list, when the parser fails, and [{ok, SceneData}] when it
    succeeds on a scene all of whose extracted doubles are finite (for a
    NaN or an infinity the runtime raises badarg out of
    [enif_make_double]; the code does not test for them).  [load_fbx]
    hands the parser the bytes up to the first NUL as the path,
    [load_fbx_binary] all the bytes. *)
Theorem load_fbx_replies (alloc : nat -> bool)
  (bake : ufbx_scene -> ufbx_anim -> ufbx_bake_opts -> option ufbx_baked_anim)
  (load_file load_memory : string -> ufbx_scene + string) (argv0 : term) :
  let by_path := load_fbx_nif alloc bake load_file argv0 in
  let by_bytes := load_fbx_binary_nif alloc bake load_memory argv0 in
  ((forall bytes, argv0 <> TBinary bytes) -> by_path = Badarg /\ by_bytes = Badarg)
  /\ (forall bytes, argv0 = TBinary bytes ->
        (forall description,
            load_file (c_str bytes) = inr description ->
            by_path = Return (TTuple [TAtom "error"; charlist (c_str description)]))
        /\ (forall scene,
              load_file (c_str bytes) = inl scene ->
              finite_doubles (extract_scene_data alloc bake scene) = true ->
              by_path = Return (TTuple [TAtom "ok"; extract_scene_data alloc bake scene]))
        /\ (forall description,
              load_memory bytes = inr description ->
              by_bytes = Return (TTuple [TAtom "error"; charlist (c_str description)]))
        /\ (forall scene,
              load_memory bytes = inl scene ->
              finite_doubles (extract_scene_data alloc bake scene) = true ->
              by_bytes
              = Return (TTuple [TAtom "ok"; extract_scene_data alloc bake scene]))).
Proof.
  intros by_path by_bytes. subst by_path by_bytes.
  unfold load_fbx_nif, load_fbx_binary_nif. split.
  - intros Hnot. destruct argv0; try done. by destruct (Hnot bytes).
  - intros bytes ->. simpl. repeat split; intros ? ->; reflexivity.
Qed.

(** ** Building: the whole scene *)

Lemma fold_cells_invariant_upto {St : Type} (P : nat -> St -> Prop)
  (body : nat -> term -> St -> St) (l : list term) (i : nat) (st : St) :
  P i st ->
  (forall k h st', l !! k = Some h -> P (i + k)%nat st' ->
                   P (S (i + k)) (body (i + k)%nat h st')) ->
  P (i + length l)%nat (fold_cells i l body st).
Proof.
  revert i st. induction l as [|t l IH]; intros i st H0 Hstep; simpl.
  - by rewrite Nat.add_0_r.
  - replace (i + S (length l))%nat with (S i + length l)%nat by lia.
    apply IH.
    + specialize (Hstep O t st eq_refl). rewrite Nat.add_0_r in Hstep. by apply Hstep.
    + intros k h st' Hk HP. replace (S i + k)%nat with (i + S k)%nat in * by lia.
      by apply Hstep.
Qed.

Lemma search_id_ext (count : nat) (ids ids' : list Z) (key : Z) :
  forall j, (forall m, (j <= m < j + count)%nat -> ids !!! m = ids' !!! m) ->
            search_id count j ids key = search_id count j ids' key.
Proof.
  induction count as [|count IH]; intros j H; simpl; [done|].
  rewrite (H j) by lia. destruct (_ =? _); [done|]. apply IH. intros m Hm. apply H. lia.
Qed.

Lemma recorded_ids_lookup (uninit : alloc_site -> nat -> Z) (site : alloc_site)
  (entries : list term) (k : nat) (e : term) :
  entries !! k = Some e ->
  recorded_ids uninit site entries !! k = Some (recorded_id uninit site k e).
Proof. intros H. unfold recorded_ids. by rewrite list_lookup_imap, H. Qed.

(** A search in the table the loops filled is a search in [recorded_ids]. *)
Lemma search_recorded (uninit : alloc_site -> nat -> Z) (site : alloc_site)
  (entries : list term) (ids : list Z) (key : Z) :
  (forall k e, entries !! k = Some e -> ids !! k = Some (recorded_id uninit site k e)) ->
  search_id (length entries) 0 ids key
  = search_id (length entries) 0 (recorded_ids uninit site entries) key.
Proof.
  intros H. apply search_id_ext. intros m [_ Hm]. simpl in Hm.
  destruct (lookup_lt_is_Some_2 entries m Hm) as [e He].
  rewrite (list_lookup_total_correct _ _ _ (H m e He)).
  by rewrite (list_lookup_total_correct _ _ _ (recorded_ids_lookup uninit site _ _ _ He)).
Qed.

Lemma list_eq_fmap_lookup {A B : Type} (f : A -> B) (l : list A) (l' : list B) :
  length l' = length l ->
  (forall i x, l !! i = Some x -> l' !! i = Some (f x)) ->
  l' = f <$> l.
Proof.
  intros Hlen H. apply list_eq. intros i. rewrite list_lookup_fmap.
  destruct (l !! i) as [x|] eqn:E; simpl.
  - by apply H.
  - apply lookup_ge_None. apply lookup_ge_None in E. lia.
Qed.

Lemma wire_loop_spec (uninit : alloc_site -> nat -> Z) (entries : list term)
  (node_handles : list nat) (node_ids : list Z) (s0 : ufbxw_scene) :
  (forall k, (k < length entries)%nat -> node_handles !! k = Some k) ->
  (forall k e, entries !! k = Some e ->
               node_ids !! k = Some (recorded_id uninit NodeIds k e)) ->
  sc_nodes s0 = built_node <$> entries ->
  exists s' node_mesh_ids,
    fold_cells 0 entries (wire_node_step (length entries) node_handles node_ids)
               (s0, replicate (length entries) 0)
    = (s', node_mesh_ids)
    /\ sc_nodes s' = wired_node uninit entries <$> entries
    /\ sc_meshes s' = sc_meshes s0
    /\ sc_materials s' = sc_materials s0
    /\ (forall k e, entries !! k = Some e ->
                    node_mesh_ids !! k = Some (default 0 (get_map_uint e "mesh_id"))).
Proof.
  intros Hh Hids Hn0.
  set (P := fun (k : nat) (st : ufbxw_scene * list Z) =>
              length (sc_nodes st.1) = length entries
              /\ (forall i e, entries !! i = Some e ->
                    sc_nodes st.1 !! i
                    = Some (if (i <? k)%nat then wired_node uninit entries e
                            else built_node e))
              /\ sc_meshes st.1 = sc_meshes s0
              /\ sc_materials st.1 = sc_materials s0
              /\ length st.2 = length entries
              /\ (forall i e, entries !! i = Some e ->
                    st.2 !! i
                    = Some (if (i <? k)%nat then default 0 (get_map_uint e "mesh_id")
                            else 0))).
  assert (HP : P (0 + length entries)%nat
                 (fold_cells 0 entries
                    (wire_node_step (length entries) node_handles node_ids)
                    (s0, replicate (length entries) 0))).
  { apply (fold_cells_invariant_upto P).
    - unfold P. simpl. rewrite Hn0, length_fmap, length_replicate.
      repeat split; try done.
      + intros i e He. by rewrite list_lookup_fmap, He.
      + intros i e He. apply lookup_replicate_2. by eapply lookup_lt_Some.
    - intros k h [s nmi] Hk (Hlen & Hnodes & Hm & Hmat & Hlen2 & Hnmi). simpl in *.
      assert (Hkl : (k < length entries)%nat) by (by eapply lookup_lt_Some).
      unfold P, wire_node_step. simpl.
      assert (Hscene :
        exists s1,
          opt_apply (get_map_uint h "parent_id")
            (fun parent_id sc =>
               opt_apply (search_id (length entries) 0 node_ids parent_id)
                 (fun j sc0 =>
                    ufbxw_node_set_parent sc0 (node_handles !!! k) (node_handles !!! j))
                 sc) s = s1
          /\ sc_nodes s1
             = <[k := wired_node uninit entries h]> (sc_nodes s)
          /\ sc_meshes s1 = sc_meshes s /\ sc_materials s1 = sc_materials s).
      { eexists. split; [reflexivity|]. unfold wired_node, resolved_parent.
        destruct (get_map_uint h "parent_id") as [pid|]; simpl.
        - rewrite (search_recorded uninit NodeIds entries node_ids pid Hids).
          destruct (search_id (length entries) 0 (recorded_ids uninit NodeIds entries) pid)
            as [j|] eqn:Hs; simpl.
          + destruct (search_id_some _ _ _ _ _ Hs) as [[_ Hj] _]. simpl in Hj.
            rewrite (list_lookup_total_correct _ _ _ (Hh k Hkl)).
            rewrite (list_lookup_total_correct _ _ _ (Hh j Hj)).
            repeat split. apply list_eq. intros i.
            destruct (decide (i = k)) as [->|Hne].
            * rewrite list_lookup_alter_eq, list_lookup_insert_eq by lia.
              rewrite (Hnodes k h Hk), Nat.ltb_irrefl. done.
            * by rewrite list_lookup_alter_ne, list_lookup_insert_ne.
          + repeat split. symmetry. apply list_insert_id.
            rewrite (Hnodes k h Hk), Nat.ltb_irrefl. done.
        - repeat split. symmetry. apply list_insert_id.
          rewrite (Hnodes k h Hk), Nat.ltb_irrefl. done. }
      destruct Hscene as (s1 & -> & Hn1 & Hm1 & Hmat1).
      rewrite Hn1, Hm1, Hmat1, length_insert. repeat split; try done.
      + intros i e He. destruct (decide (i = k)) as [->|Hne].
        * rewrite list_lookup_insert_eq by lia.
          assert (e = h) as -> by congruence.
          by rewrite (proj2 (Nat.ltb_lt k (S k))) by lia.
        * rewrite list_lookup_insert_ne by done. rewrite (Hnodes i e He).
          destruct (Nat.ltb_spec i k), (Nat.ltb_spec i (S k)); try done; lia.
      + destruct (get_map_uint h "mesh_id"); simpl; [by rewrite length_insert|done].
      + intros i e He. destruct (decide (i = k)) as [->|Hne].
        * assert (e = h) as -> by congruence.
          rewrite (proj2 (Nat.ltb_lt k (S k))) by lia.
          destruct (get_map_uint h "mesh_id") as [mid|]; simpl.
          -- apply list_lookup_insert_eq. lia.
          -- rewrite (Hnmi k h Hk), Nat.ltb_irrefl. done.
        * assert (Hold : nmi !! i
                         = Some (if (i <? S k)%nat
                                 then default 0 (get_map_uint e "mesh_id") else 0)).
          { rewrite (Hnmi i e He).
            destruct (Nat.ltb_spec i k), (Nat.ltb_spec i (S k)); try done; lia. }
          destruct (get_map_uint h "mesh_id") as [mid|]; simpl; [|done].
          by rewrite list_lookup_insert_ne. }
  destruct (fold_cells 0 entries _ _) as [s' nmi].
  destruct HP as (Hlen & Hnodes & Hm & Hmat & Hlen2 & Hnmi). simpl in *.
  exists s', nmi. repeat split; try done.
  - apply list_eq_fmap_lookup; [done|]. intros i e He. rewrite (Hnodes i e He).
    by rewrite (proj2 (Nat.ltb_lt i (length entries))) by (by eapply lookup_lt_Some).
  - intros k e He. rewrite (Hnmi k e He).
    by rewrite (proj2 (Nat.ltb_lt k (length entries))) by (by eapply lookup_lt_Some).
Qed.

Lemma connect_loop_spec (uninit : alloc_site -> nat -> Z) (entries ms : list term)
  (node_handles : list nat) (node_mesh_ids : list Z)
  (mesh_handles : list nat) (mesh_ids : list Z) (s0 : ufbxw_scene) :
  (forall k, (k < length entries)%nat -> node_handles !! k = Some k) ->
  (forall k, (k < length ms)%nat -> mesh_handles !! k = Some k) ->
  (forall k e, entries !! k = Some e ->
               node_mesh_ids !! k = Some (default 0 (get_map_uint e "mesh_id"))) ->
  (forall k e, ms !! k = Some e -> mesh_ids !! k = Some (recorded_id uninit MeshIds k e)) ->
  sc_nodes s0 = wired_node uninit entries <$> entries ->
  let s' := for_range (length entries)
              (connect_mesh_step node_handles node_mesh_ids (length ms)
                                 mesh_handles mesh_ids) s0 in
  sc_nodes s' = final_node uninit entries (Some ms) <$> entries
  /\ sc_meshes s' = sc_meshes s0
  /\ sc_materials s' = sc_materials s0.
Proof.
  intros Hnh Hmh Hnmi Hmi Hn0 s'.
  set (P := fun (k : nat) (s : ufbxw_scene) =>
              length (sc_nodes s) = length entries
              /\ (forall i e, entries !! i = Some e ->
                    sc_nodes s !! i
                    = Some (if (i <? k)%nat then final_node uninit entries (Some ms) e
                            else wired_node uninit entries e))
              /\ sc_meshes s = sc_meshes s0
              /\ sc_materials s = sc_materials s0).
  assert (HP : P (length entries) s').
  { subst s'. apply (for_range_invariant_ix P).
    - unfold P. rewrite Hn0, length_fmap. repeat split; try done.
      intros i e He. by rewrite list_lookup_fmap, He.
    - intros k s Hkl (Hlen & Hnodes & Hm & Hmat).
      destruct (lookup_lt_is_Some_2 entries k Hkl) as [h Hk].
      assert (Hstep :
        sc_nodes (connect_mesh_step node_handles node_mesh_ids (length ms)
                                    mesh_handles mesh_ids k s)
        = <[k := final_node uninit entries (Some ms) h]> (sc_nodes s)
        /\ sc_meshes (connect_mesh_step node_handles node_mesh_ids (length ms)
                                        mesh_handles mesh_ids k s) = sc_meshes s
        /\ sc_materials (connect_mesh_step node_handles node_mesh_ids (length ms)
                                           mesh_handles mesh_ids k s) = sc_materials s).
      { unfold connect_mesh_step, final_node, resolved_mesh.
        rewrite (list_lookup_total_correct _ _ _ (Hnmi k h Hk)).
        assert (Hid : sc_nodes s = <[k := wired_node uninit entries h]> (sc_nodes s)).
        { symmetry. apply list_insert_id. by rewrite (Hnodes k h Hk), Nat.ltb_irrefl. }
        destruct (get_map_uint h "mesh_id") as [mid|]; simpl; [|done].
        destruct (mid =? 0); simpl; [done|].
        rewrite (search_recorded uninit MeshIds ms mesh_ids mid Hmi).
        destruct (search_id (length ms) 0 (recorded_ids uninit MeshIds ms) mid)
          as [j|] eqn:Hs; simpl; [|done].
        destruct (search_id_some _ _ _ _ _ Hs) as [[_ Hj] _]. simpl in Hj.
        rewrite (list_lookup_total_correct _ _ _ (Hnh k Hkl)).
        rewrite (list_lookup_total_correct _ _ _ (Hmh j Hj)).
        repeat split. apply list_eq. intros i.
        destruct (decide (i = k)) as [->|Hne].
        - rewrite list_lookup_alter_eq, list_lookup_insert_eq by lia.
          by rewrite (Hnodes k h Hk), Nat.ltb_irrefl.
        - by rewrite list_lookup_alter_ne, list_lookup_insert_ne. }
      destruct Hstep as (Hn1 & Hm1 & Hmat1). unfold P.
      rewrite Hn1, Hm1, Hmat1, length_insert. repeat split; try done.
      intros i e He. destruct (decide (i = k)) as [->|Hne].
      + rewrite list_lookup_insert_eq by lia.
        assert (e = h) as -> by congruence.
        by rewrite (proj2 (Nat.ltb_lt k (S k))) by lia.
      + rewrite list_lookup_insert_ne by done. rewrite (Hnodes i e He).
        destruct (Nat.ltb_spec i k), (Nat.ltb_spec i (S k)); try done; lia. }
  destruct HP as (Hlen & Hnodes & Hm & Hmat). repeat split; try done.
  apply list_eq_fmap_lookup; [done|]. intros i e He. rewrite (Hnodes i e He).
  by rewrite (proj2 (Nat.ltb_lt i (length entries))) by (by eapply lookup_lt_Some).
Qed.

Lemma final_node_no_meshes (uninit : alloc_site -> nat -> Z) (entries : list term)
  (head : term) :
  final_node uninit entries None head = wired_node uninit entries head.
Proof. reflexivity. Qed.

(** The branch of the builder for a [nodes] list, on the nodes and the
    materials of the scene. *)
Lemma build_with_nodes_nodes (uninit : alloc_site -> nat -> Z)
  (scene_data_map : term) (entries : list term) :
  let scene := build_with_nodes uninit scene_data_map (term_list entries) empty_scene in
  sc_nodes scene
  = final_node uninit entries (map_list_entries scene_data_map "meshes") <$> entries
  /\ sc_materials scene = [].
Proof.
  unfold build_with_nodes.
  rewrite get_list_length_term_list, for_cells_term_list.
  destruct (node_loop_spec entries 0 empty_scene
              (enif_alloc_handles uninit NodeHandles (length entries))
              (enif_alloc_uint uninit NodeIds (length entries)))
    as (nh & ni & Heq & _ & Hh & _ & Hids).
  { rewrite length_enif_alloc_handles. lia. }
  { rewrite length_enif_alloc_uint. lia. }
  rewrite Heq. clear Heq. rewrite for_cells_term_list.
  assert (Hh' : forall k, (k < length entries)%nat -> nh !! k = Some k).
  { intros k Hk. specialize (Hh k Hk). done. }
  assert (Hids' : forall k e, entries !! k = Some e ->
                              ni !! k = Some (recorded_id uninit NodeIds k e)).
  { intros k e He. specialize (Hids k e He). simpl in Hids. rewrite Hids.
    unfold recorded_id. destruct (get_map_uint e "id"); [done|].
    apply enif_alloc_uint_lookup. by eapply lookup_lt_Some. }
  destruct (wire_loop_spec uninit entries nh ni
              (with_nodes (fun ns => ns ++ (built_node <$> entries)) empty_scene)
              Hh' Hids' eq_refl)
    as (s2 & nmi & Heq & Hn2 & Hm2 & Hmat2 & Hnmi).
  rewrite Heq. clear Heq. simpl in Hm2, Hmat2.
  unfold map_list_entries.
  destruct (get_map_list scene_data_map "meshes") as [ml|]; [|by split].
  rewrite (list_of_term_length ml).
  destruct (list_of_term ml) as [ms|] eqn:El; simpl; [|by split].
  apply list_of_term_inv in El. subst ml. rewrite for_cells_term_list.
  destruct (mesh_loop_tables uninit ms 0 s2
              (enif_alloc_handles uninit MeshHandles (length ms))
              (enif_alloc_uint uninit MeshIds (length ms)))
    as (s3 & mh & mi & Heq & _ & Hmh & _ & Hmi).
  { rewrite length_enif_alloc_handles. lia. }
  { rewrite length_enif_alloc_uint. lia. }
  pose proof (mesh_loop_spec uninit true ms 0 s2
                (enif_alloc_handles uninit MeshHandles (length ms))
                (enif_alloc_uint uninit MeshIds (length ms))) as (_ & Hn3 & Hmat3).
  simpl in Hn3, Hmat3. rewrite Heq in Hn3, Hmat3. simpl in Hn3, Hmat3.
  rewrite Heq. clear Heq.
  destruct (connect_loop_spec uninit entries ms nh nmi mh mi s3) as (Hn4 & _ & Hmat4).
  - done.
  - intros k Hk. specialize (Hmh k Hk). by rewrite Hm2 in Hmh.
  - done.
  - intros k e He. specialize (Hmi k e He). simpl in Hmi. rewrite Hmi.
    unfold recorded_id. destruct (get_map_uint e "id"); [done|].
    apply enif_alloc_uint_lookup. by eapply lookup_lt_Some.
  - by rewrite Hn3.
  - split; [done|]. by rewrite Hmat4, Hmat3.
Qed.

Lemma build_without_nodes_frame (uninit : alloc_site -> nat -> Z)
  (scene_data_map : term) (scene : ufbxw_scene) :
  sc_nodes (build_without_nodes uninit scene_data_map scene) = sc_nodes scene
  /\ sc_materials (build_without_nodes uninit scene_data_map scene) = sc_materials scene.
Proof.
  unfold build_without_nodes.
  destruct (get_map_list scene_data_map "meshes") as [ml|]; [|done].
  rewrite (list_of_term_length ml).
  destruct (list_of_term ml) as [ms|] eqn:El; simpl; [|done].
  apply list_of_term_inv in El. subst ml. rewrite for_cells_term_list.
  pose proof (mesh_loop_spec uninit false ms 0 scene
                (enif_alloc_handles uninit MeshHandles (length ms))
                (enif_alloc_uint uninit MeshIds (length ms))) as (_ & Hn & Hmat).
  simpl in Hn, Hmat.
  by destruct (fold_cells 0 ms (parse_mesh_step_no_nodes uninit) _) as [[s3 mh] mi].
Qed.

Lemma alter_last_with_materials (f : ufbxw_material_data -> ufbxw_material_data)
  (d : ufbxw_material_data) (scene : ufbxw_scene) :
  with_materials (alter f (length (sc_materials scene)))
                 (with_materials (fun l => l ++ [d]) scene)
  = with_materials (fun l => l ++ [f d]) scene.
Proof. unfold with_materials. simpl. by rewrite alter_app_last. Qed.

Lemma create_material_step_spec (i : nat) (head : term) (scene : ufbxw_scene) :
  create_material_step i head scene
  = with_materials (fun l => l ++ [built_material head]) scene.
Proof.
  unfold create_material_step, built_material, ufbxw_create_element,
    ufbxw_set_name_len, ufbxw_set_vec3.
  destruct (get_map_string head "name"), (get_map_vec3 head "diffuse_color"); simpl;
    by rewrite ?alter_last_with_materials.
Qed.

Lemma material_loop_spec (l : list term) (i : nat) (scene : ufbxw_scene) :
  fold_cells i l create_material_step scene
  = with_materials (fun ms => ms ++ (built_material <$> l)) scene.
Proof.
  revert i scene. induction l as [|head l IH]; intros i scene; simpl.
  - unfold with_materials. destruct scene; simpl. by rewrite app_nil_r.
  - rewrite create_material_step_spec, IH. unfold with_materials. simpl.
    by rewrite <- app_assoc.
Qed.

Lemma build_materials_spec (scene_data_map : term) (scene : ufbxw_scene) :
  sc_materials (build_materials scene_data_map scene)
  = sc_materials scene ++ built_materials scene_data_map.
Proof.
  unfold build_materials, built_materials, map_list_entries.
  destruct (get_map_list scene_data_map "materials") as [ml|]; simpl;
    [|by rewrite app_nil_r].
  rewrite (list_of_term_length ml).
  destruct (list_of_term ml) as [l|] eqn:El; simpl; [|by rewrite app_nil_r].
  apply list_of_term_inv in El. subst ml.
  by rewrite for_cells_term_list, material_loop_spec.
Qed.

(** The scene the builder returns, part by part. *)
Lemma build_scene_spec (uninit : alloc_site -> nat -> Z) (scene_data_map : term) :
  exists scene,
    build_ufbxw_scene_from_map uninit true scene_data_map = Some scene
    /\ sc_nodes scene = built_nodes uninit scene_data_map
    /\ sc_meshes scene = built_meshes uninit scene_data_map
    /\ sc_materials scene = built_materials scene_data_map.
Proof.
  destruct (build_meshes_spec uninit scene_data_map) as (scene & Hbuild & Hmeshes).
  exists scene. split; [done|]. split; [|split; [done|]].
  all: unfold build_ufbxw_scene_from_map, ufbxw_create_scene in Hbuild.
  all: injection Hbuild as <-.
  - rewrite (proj1 (build_materials_frame scene_data_map _)).
    unfold built_nodes, map_list_entries.
    destruct (get_map_list scene_data_map "nodes") as [nl|].
    + destruct (list_of_term nl) as [entries|] eqn:El.
      * apply list_of_term_inv in El. subst nl.
        apply (build_with_nodes_nodes uninit scene_data_map entries).
      * unfold build_with_nodes. rewrite (list_of_term_length nl), El. done.
    + apply (build_without_nodes_frame uninit scene_data_map empty_scene).
  - rewrite build_materials_spec.
    assert (E : sc_materials
                  match get_map_list scene_data_map "nodes" with
                  | Some nodes_list =>
                      build_with_nodes uninit scene_data_map nodes_list empty_scene
                  | None => build_without_nodes uninit scene_data_map empty_scene
                  end = []).
    { destruct (get_map_list scene_data_map "nodes") as [nl|].
      - destruct (list_of_term nl) as [entries|] eqn:El.
        + apply list_of_term_inv in El. subst nl.
          apply (build_with_nodes_nodes uninit scene_data_map entries).
        + unfold build_with_nodes. rewrite (list_of_term_length nl), El. done.
      - apply (build_without_nodes_frame uninit scene_data_map empty_scene). }
    by rewrite E.
Qed.

Lemma built_node_fields (head : term) :
  wn_name (built_node head) = get_map_string head "name"
  /\ wn_translation (built_node head) = get_map_vec3 head "translation"
  /\ wn_rotation (built_node head)
     = (fun v => (quat_of_vec4 v, UFBXW_ROTATION_ORDER_XYZ)) <$> get_map_vec4 head "rotation"
  /\ wn_scaling (built_node head) = get_map_vec3 head "scale".
Proof.
  unfold built_node.
  destruct (get_map_string head "name"), (get_map_vec3 head "translation"),
    (get_map_vec4 head "rotation"), (get_map_vec3 head "scale"); repeat split.
Qed.

Lemma final_node_fields (uninit : alloc_site -> nat -> Z) (entries : list term)
  (mesh_entries : option (list term)) (head : term) :
  let d := final_node uninit entries mesh_entries head in
  wn_name d = wn_name (built_node head)
  /\ wn_translation d = wn_translation (built_node head)
  /\ wn_rotation d = wn_rotation (built_node head)
  /\ wn_scaling d = wn_scaling (built_node head)
  /\ wn_parent d = resolved_parent uninit entries head
  /\ wn_attribute d = IdMesh <$> resolved_mesh uninit mesh_entries head.
Proof.
  unfold final_node, wired_node.
  destruct (built_node_unparented head) as [Hp Ha].
  destruct (resolved_mesh uninit mesh_entries head),
    (resolved_parent uninit entries head); simpl; repeat split; done.
Qed.

Lemma get_map_not_map (head : term) (key : string) :
  enif_is_map head = false -> enif_get_map_value head key = None.
Proof. by destruct head. Qed.

(** X16.  The builder creates one node per element of the [nodes] list,
    in list order (none when [nodes] is absent or not a proper list).  A
    node gets its name, translation, rotation and scale exactly when the
    entry's field decodes: the presets (0,0,0) and (1,1,1) of the code are
    never passed on, an undecodable field is left unset.  An element that
    is not a map still yields a node, a blank one. *)
Theorem one_node_per_entry (uninit : alloc_site -> nat -> Z) (scene_data_map : term) :
  let entries := default [] (map_list_entries scene_data_map "nodes") in
  exists scene,
    build_ufbxw_scene_from_map uninit true scene_data_map = Some scene
    /\ length (sc_nodes scene) = length entries
    /\ forall i head, entries !! i = Some head ->
         exists node,
           sc_nodes scene !! i = Some node
           /\ wn_name node = get_map_string head "name"
           /\ wn_translation node = get_map_vec3 head "translation"
           /\ wn_rotation node
              = (fun v => (quat_of_vec4 v, UFBXW_ROTATION_ORDER_XYZ))
                  <$> get_map_vec4 head "rotation"
           /\ wn_scaling node = get_map_vec3 head "scale"
           /\ (enif_is_map head = false -> node = new_node).
Proof.
  intros entries.
  destruct (build_scene_spec uninit scene_data_map) as (scene & Hbuild & Hnodes & _ & _).
  exists scene. split; [done|]. rewrite Hnodes. unfold built_nodes. subst entries.
  destruct (map_list_entries scene_data_map "nodes") as [entries|]; simpl;
    [|split; [done|intros i head Hi; by rewrite lookup_nil in Hi]].
  split; [by rewrite length_fmap|]. intros i head Hi.
  exists (final_node uninit entries (map_list_entries scene_data_map "meshes") head).
  rewrite list_lookup_fmap, Hi. split; [done|].
  destruct (final_node_fields uninit entries (map_list_entries scene_data_map "meshes") head)
    as (-> & -> & -> & -> & _ & _).
  destruct (built_node_fields head) as (-> & -> & -> & ->). repeat split.
  intros Hnot. unfold final_node, wired_node, resolved_parent, resolved_mesh, built_node,
    get_map_uint, get_map_string, get_map_vec3, get_map_vec4.
  rewrite !(get_map_not_map head) by done.
  by destruct (map_list_entries scene_data_map "meshes").
Qed.

(** X17.  A node entry whose [parent_id] is an unsigned integer gets as
    parent the first node, in list order, whose recorded id equals it.
    Nothing excludes the node itself: an entry whose [parent_id] is its
    own [id] becomes its own parent when no earlier entry has that id. *)
Theorem parent_resolved_to_first_match (uninit : alloc_site -> nat -> Z)
  (scene_data_map : term) (entries : list term) (i j : nat)
  (head parent_head : term) (parent_id : Z) :
  map_list_entries scene_data_map "nodes" = Some entries ->
  entries !! i = Some head ->
  get_map_uint head "parent_id" = Some parent_id ->
  entries !! j = Some parent_head ->
  recorded_id uninit NodeIds j parent_head = parent_id ->
  (forall j' e, (j' < j)%nat -> entries !! j' = Some e ->
                recorded_id uninit NodeIds j' e <> parent_id) ->
  exists scene node,
    build_ufbxw_scene_from_map uninit true scene_data_map = Some scene
    /\ sc_nodes scene !! i = Some node
    /\ wn_parent node = Some j.
Proof.
  intros He Hi Hpid Hj Hrec Hfirst.
  destruct (build_scene_spec uninit scene_data_map) as (scene & Hbuild & Hnodes & _ & _).
  exists scene, (final_node uninit entries (map_list_entries scene_data_map "meshes") head).
  split; [done|]. rewrite Hnodes. unfold built_nodes. rewrite He.
  rewrite list_lookup_fmap, Hi. split; [done|].
  destruct (final_node_fields uninit entries (map_list_entries scene_data_map "meshes") head)
    as (_ & _ & _ & _ & -> & _).
  unfold resolved_parent. rewrite Hpid. apply search_id_first.
  - split; [lia|]. simpl. by eapply lookup_lt_Some.
  - by rewrite (list_lookup_total_correct _ _ _
                  (recorded_ids_lookup uninit NodeIds _ _ _ Hj)).
  - intros m [_ Hm].
    assert (Hml : (m < length entries)%nat) by (apply lookup_lt_Some in Hj; lia).
    destruct (lookup_lt_is_Some_2 entries m Hml) as [e Hem].
    rewrite (list_lookup_total_correct _ _ _
               (recorded_ids_lookup uninit NodeIds _ _ _ Hem)).
    by apply (Hfirst m e).
Qed.

(** X18.  A node entry is left without attribute when it has no usable
    [mesh_id], when the scene term has no proper [meshes] list, or when its
    [mesh_id] equals the recorded id of no mesh entry. *)
Theorem unresolved_mesh_id_left_unattached (uninit : alloc_site -> nat -> Z)
  (scene_data_map : term) (entries : list term) (i : nat) (head : term) :
  map_list_entries scene_data_map "nodes" = Some entries ->
  entries !! i = Some head ->
  (forall mesh_entries mesh_id,
      map_list_entries scene_data_map "meshes" = Some mesh_entries ->
      get_map_uint head "mesh_id" = Some mesh_id ->
      forall j e, mesh_entries !! j = Some e ->
                  recorded_id uninit MeshIds j e <> mesh_id) ->
  exists scene node,
    build_ufbxw_scene_from_map uninit true scene_data_map = Some scene
    /\ sc_nodes scene !! i = Some node
    /\ wn_attribute node = None.
Proof.
  intros He Hi Hno.
  destruct (build_scene_spec uninit scene_data_map) as (scene & Hbuild & Hnodes & _ & _).
  exists scene, (final_node uninit entries (map_list_entries scene_data_map "meshes") head).
  split; [done|]. rewrite Hnodes. unfold built_nodes. rewrite He.
  rewrite list_lookup_fmap, Hi. split; [done|].
  destruct (final_node_fields uninit entries (map_list_entries scene_data_map "meshes") head)
    as (_ & _ & _ & _ & _ & ->).
  unfold resolved_mesh.
  destruct (map_list_entries scene_data_map "meshes") as [ms|]; [|done].
  destruct (get_map_uint head "mesh_id") as [mid|]; [|done].
  destruct (mid =? 0); [done|].
  rewrite search_id_none; [done|]. intros m [_ Hm]. simpl in Hm.
  destruct (lookup_lt_is_Some_2 ms m Hm) as [e Hem].
  rewrite (list_lookup_total_correct _ _ _ (recorded_ids_lookup uninit MeshIds _ _ _ Hem)).
  by apply (Hno ms mid eq_refl eq_refl m e).
Qed.

(** X19.  In the scene the builder returns, every parent a node has is
    one of the scene's nodes and every attribute a node has is one of the
    scene's meshes, whatever the scene term holds and whatever the
    allocated arrays held. *)
Theorem built_scene_has_no_dangling_handle (uninit : alloc_site -> nat -> Z)
  (scene_data_map : term) :
  exists scene,
    build_ufbxw_scene_from_map uninit true scene_data_map = Some scene
    /\ forall i node, sc_nodes scene !! i = Some node ->
         (forall parent, wn_parent node = Some parent ->
                         (parent < length (sc_nodes scene))%nat)
         /\ (forall attrib, wn_attribute node = Some attrib ->
               exists j, attrib = IdMesh j /\ (j < length (sc_meshes scene))%nat).
Proof.
  destruct (build_scene_spec uninit scene_data_map)
    as (scene & Hbuild & Hnodes & Hmeshes & _).
  exists scene. split; [done|]. rewrite Hnodes, Hmeshes.
  unfold built_nodes, built_meshes, map_list_entries.
  destruct (get_map_list scene_data_map "nodes") as [nl|];
    [|intros i node Hi; by rewrite lookup_nil in Hi].
  rewrite (list_of_term_length nl).
  destruct (list_of_term nl) as [entries|]; simpl;
    [|intros i node Hi; by rewrite lookup_nil in Hi].
  intros i node Hi. rewrite list_lookup_fmap in Hi.
  destruct (entries !! i) as [head|]; [|done]. injection Hi as <-.
  match goal with
  | |- context [final_node uninit entries ?me head] =>
      destruct (final_node_fields uninit entries me head) as (_ & _ & _ & _ & -> & ->)
  end.
  split.
  - intros parent Hp. unfold resolved_parent in Hp.
    destruct (get_map_uint head "parent_id") as [pid|]; [|done].
    destruct (search_id_some _ _ _ _ _ Hp) as [[_ Hlt] _].
    by rewrite length_fmap.
  - intros attrib Ha. unfold resolved_mesh in Ha.
    destruct (get_map_list scene_data_map "meshes") as [ml|]; [|done].
    destruct (list_of_term ml) as [ms|]; simpl in *; [|done].
    destruct (get_map_uint head "mesh_id") as [mid|]; [|done].
    destruct (mid =? 0); [done|].
    destruct (search_id (length ms) 0 (recorded_ids uninit MeshIds ms) mid) as [j|] eqn:Hs;
      [|done].
    injection Ha as <-. exists j. split; [done|].
    destruct (search_id_some _ _ _ _ _ Hs) as [[_ Hlt] _].
    by rewrite length_imap.
Qed.

(** X20.  The builder creates one material per element of the
    [materials] list, in list order, whatever the [nodes] and [meshes] keys
    hold.  A material gets its name when the entry's [name] decodes, and
    the single property "DiffuseColor" when [diffuse_color] decodes as
    three doubles; the preset white of the code is never written, and no
    other colour is. *)
Theorem materials_built_from_entries (uninit : alloc_site -> nat -> Z)
  (scene_data_map : term) :
  exists scene,
    build_ufbxw_scene_from_map uninit true scene_data_map = Some scene
    /\ sc_materials scene
       = (fun head =>
            {| wmat_name := get_map_string head "name";
               wmat_props :=
                 match get_map_vec3 head "diffuse_color" with
                 | Some diffuse => [("DiffuseColor", diffuse)]
                 | None => []
                 end |})
           <$> default [] (map_list_entries scene_data_map "materials").
Proof.
  destruct (build_scene_spec uninit scene_data_map) as (scene & Hbuild & _ & _ & Hmat).
  by exists scene.
Qed.

Lemma list_eq_imap_lookup {A B : Type} (f : nat -> A -> B) (l : list A) (l' : list B) :
  length l' = length l ->
  (forall i x, l !! i = Some x -> l' !! i = Some (f i x)) ->
  l' = imap f l.
Proof.
  intros Hlen H. apply list_eq. intros i. rewrite list_lookup_imap.
  destruct (l !! i) as [x|] eqn:E; simpl.
  - by apply H.
  - apply lookup_ge_None. apply lookup_ge_None in E. lia.
Qed.

(** The loop that fills [indices]: every slot whose element is an unsigned
    integer is written, the others keep what the memory held. *)
Lemma indices_loop_spec (uninit : alloc_site -> nat -> Z) (i : nat) (elems : list term) :
  fold_cells 0 elems
    (fun j idx_head indices =>
       opt_apply (enif_get_uint idx_head)
                 (fun idx_val indices => <[j := to_int32 idx_val]> indices) indices)
    (enif_alloc_uint uninit (Indices i) (length elems))
  = imap (fun k t => match enif_get_uint t with
                     | Some idx_val => to_int32 idx_val
                     | None => uninit (Indices i) k
                     end) elems.
Proof.
  set (body := fun (j : nat) (idx_head : term) (indices : list Z) =>
                 opt_apply (enif_get_uint idx_head)
                           (fun idx_val indices => <[j := to_int32 idx_val]> indices)
                           indices).
  set (dec := fun (k : nat) (t : term) =>
                match enif_get_uint t with
                | Some idx_val => to_int32 idx_val
                | None => uninit (Indices i) k
                end).
  set (P := fun (k : nat) (acc : list Z) =>
              length acc = length elems
              /\ forall j e, elems !! j = Some e ->
                   acc !! j = Some (if (j <? k)%nat then dec j e else uninit (Indices i) j)).
  assert (HP : P (0 + length elems)%nat
                 (fold_cells 0 elems body
                    (enif_alloc_uint uninit (Indices i) (length elems)))).
  { apply (fold_cells_invariant_upto P).
    - split; [apply length_enif_alloc_uint|]. intros j e He.
      apply enif_alloc_uint_lookup. by eapply lookup_lt_Some.
    - intros k h acc Hk [Hlen Hacc]. simpl in *. unfold P, body.
      assert (Hkl : (k < length elems)%nat) by (by eapply lookup_lt_Some).
      split.
      + destruct (enif_get_uint h); simpl; [by rewrite length_insert|done].
      + intros j e He. destruct (decide (j = k)) as [->|Hne].
        * assert (e = h) as -> by congruence.
          rewrite (proj2 (Nat.ltb_lt k (S k))) by lia. unfold dec.
          destruct (enif_get_uint h); simpl.
          -- apply list_lookup_insert_eq. lia.
          -- by rewrite (Hacc k h Hk), Nat.ltb_irrefl.
        * assert (Hold : acc !! j
                         = Some (if (j <? S k)%nat then dec j e else uninit (Indices i) j)).
          { rewrite (Hacc j e He).
            destruct (Nat.ltb_spec j k), (Nat.ltb_spec j (S k)); try done; lia. }
          destruct (enif_get_uint h); simpl; [|done].
          by rewrite list_lookup_insert_ne. }
  destruct HP as [Hlen Hacc]. simpl in *.
  apply list_eq_imap_lookup; [done|]. intros j e He. rewrite (Hacc j e He).
  by rewrite (proj2 (Nat.ltb_lt j (length elems))) by (by eapply lookup_lt_Some).
Qed.

Lemma triangles_update_list (uninit : alloc_site -> nat -> Z) (i : nat) (head : term)
  (elems : list term) (d : ufbxw_mesh_data) :
  get_map_list head "indices" = Some (term_list elems) ->
  triangles_update uninit i head d
  = mesh_set_triangles
      (imap (fun k t => match enif_get_uint t with
                        | Some idx_val => to_int32 idx_val
                        | None => uninit (Indices i) k
                        end) elems) d.
Proof.
  intros Hget. unfold triangles_update. rewrite Hget, get_list_length_term_list.
  rewrite for_cells_term_list, indices_loop_spec.
  unfold ufbxw_copy_array. rewrite take_ge; [done|]. by rewrite length_imap.
Qed.

Lemma built_mesh_triangles (uninit : alloc_site -> nat -> Z) (full : bool) (i : nat)
  (head : term) :
  wm_triangles (built_mesh uninit full i head)
  = wm_triangles (triangles_update uninit i head new_mesh).
Proof.
  unfold built_mesh. cbv zeta.
  assert (Hu : forall d, wm_triangles (uvs_update head d) = wm_triangles d).
  { intros d. unfold uvs_update. destruct (get_map_list head "texcoords") as [t|]; [|done].
    destruct (enif_get_list_length t); [|done]. cbv zeta. by destruct (_ && _). }
  assert (Hn : forall d, wm_triangles (normals_update head d) = wm_triangles d).
  { intros d. unfold normals_update. destruct (get_map_list head "normals") as [t|]; [|done].
    destruct (enif_get_list_length t); [|done]. cbv zeta. by destruct (_ && _). }
  assert (Ht : forall d, wm_triangles d = None ->
                         wm_triangles (triangles_update uninit i head d)
                         = wm_triangles (triangles_update uninit i head new_mesh)).
  { intros d Hd. unfold triangles_update.
    destruct (get_map_list head "indices") as [t|]; [|done].
    by destruct (enif_get_list_length t). }
  assert (Hp : wm_triangles
                 (positions_update head
                    (opt_apply (get_map_string head "name") mesh_set_name new_mesh))
               = None).
  { unfold positions_update.
    destruct (get_map_list head "positions") as [t|];
      [destruct (enif_get_list_length t); [cbv zeta; destruct (_ && _)|]|];
      by destruct (get_map_string head "name"). }
  destruct full; rewrite ?Hu, ?Hn; by apply Ht.
Qed.

(** X21.  For a mesh entry the builder reaches, an [indices] list is set
    as triangles whatever its length (no multiple-of-3 check, and an empty
    list sets an empty buffer), element by element: an unsigned 32-bit
    integer is stored as a signed one, so values from 2^31 on come out
    negative, and an element that is not one leaves in its slot what the
    freshly allocated array held. *)
Theorem indices_decoded_without_arity_check (uninit : alloc_site -> nat -> Z)
  (scene_data_map : term) (entries : list term) (i : nat) (head : term)
  (elems : list term) :
  map_list_entries scene_data_map "meshes" = Some entries ->
  entries !! i = Some head ->
  nodes_absent_or_list scene_data_map ->
  get_map_list head "indices" = Some (term_list elems) ->
  exists scene mesh triangles,
    build_ufbxw_scene_from_map uninit true scene_data_map = Some scene
    /\ sc_meshes scene !! i = Some mesh
    /\ wm_triangles mesh = Some triangles
    /\ length triangles = length elems
    /\ (forall k v, elems !! k = Some (TInt v) -> 0 <= v <= UINT_MAX ->
                    triangles !! k
                    = Some (if v <? 2147483648 then v else v - 4294967296))
    /\ (forall k t, elems !! k = Some t -> enif_get_uint t = None ->
                    triangles !! k = Some (uninit (Indices i) k)).
Proof.
  intros He Hi Hnodes Hget.
  destruct (build_meshes_spec uninit scene_data_map) as (scene & Hbuild & Hmeshes).
  pose proof (built_meshes_lookup uninit scene_data_map entries i head He Hi) as Hl.
  rewrite <- Hmeshes in Hl.
  assert (Hfull : exists full, sc_meshes scene !! i = Some (built_mesh uninit full i head)).
  { unfold nodes_absent_or_list, map_list_entries in *.
    destruct (get_map_list scene_data_map "nodes") as [nl|].
    - destruct Hnodes as [?|[l Hn]]; [done|]. rewrite Hn in Hl. by exists true.
    - by exists false. }
  destruct Hfull as (full & Hlook).
  eexists scene, (built_mesh uninit full i head), _.
  split; [done|]. split; [done|]. split.
  { by rewrite built_mesh_triangles, (triangles_update_list uninit i head elems). }
  split; [by rewrite length_imap|]. split.
  - intros k v Hk Hv. rewrite list_lookup_imap, Hk. simpl.
    destruct (Z.leb_spec 0 v), (Z.leb_spec v UINT_MAX); try lia. done.
  - intros k t Hk Ht. rewrite list_lookup_imap, Hk. simpl. by rewrite Ht.
Qed.

Lemma length_three {A : Type} (l : list A) :
  length l = 3%nat -> exists a b c, l = [a; b; c].
Proof. destruct l as [|a [|b [|c [|? ?]]]]; try discriminate. eauto. Qed.

Lemma length_four {A : Type} (l : list A) :
  length l = 4%nat -> exists a b c d, l = [a; b; c; d].
Proof. destruct l as [|a [|b [|c [|d [|? ?]]]]]; try discriminate. eauto 6. Qed.

Lemma parse_string_cases (t : term) (s : string) :
  parse_string t = Some s <-> t = TBinary s \/ t = TAtom s.
Proof.
  unfold parse_string. destruct t; simpl; try (split; [done|by intros [?|?]]).
  - rewrite (proj2 (Nat.ltb_lt (String.length name) (String.length name + 1))) by lia.
    split; [intros [= ->]; by right|intros [?|[= ->]]; done].
  - split; [intros [= ->]; by left|intros [[= ->]|?]; done].
Qed.

(** X22.  The field decoders are strict: [parse_vec3_from_list] accepts
    exactly the proper lists of three doubles and [parse_vec4_from_list]
    those of four (an integer component, a wrong length or an improper
    tail rejects the whole field), and [parse_string] accepts exactly
    binaries and atoms, atoms having Latin-1 names here (so not the
    character list the extractor emits for an empty name). *)
Theorem field_decoders_accept_exactly (t : term) :
  (forall v, parse_vec3_from_list t = Some v
             <-> t = term_list [TFloat (w3_x v); TFloat (w3_y v); TFloat (w3_z v)])
  /\ (forall v, parse_vec4_from_list t = Some v
                <-> t = term_list [TFloat (w4_x v); TFloat (w4_y v); TFloat (w4_z v);
                                   TFloat (w4_w v)])
  /\ (forall s, parse_string t = Some s <-> t = TBinary s \/ t = TAtom s).
Proof.
  split; [|split; [|apply parse_string_cases]]; intros v; split.
  - unfold parse_vec3_from_list. rewrite (list_of_term_length t).
    destruct (list_of_term t) as [l|] eqn:El; simpl; [|done].
    apply list_of_term_inv in El. subst t.
    destruct (length l) as [|[|[|[|n]]]] eqn:Hlen; try done.
    destruct (length_three l Hlen) as (a & b & c & ->). simpl.
    destruct a, b, c; simpl; try done. intros H. by injection H as <-.
  - intros ->. by destruct v.
  - unfold parse_vec4_from_list. rewrite (list_of_term_length t).
    destruct (list_of_term t) as [l|] eqn:El; simpl; [|done].
    apply list_of_term_inv in El. subst t.
    destruct (length l) as [|[|[|[|[|n]]]]] eqn:Hlen; try done.
    destruct (length_four l Hlen) as (a & b & c & d & ->). simpl.
    destruct a, b, c, d; simpl; try done. intros H. by injection H as <-.
  - intros ->. by destruct v.
Qed.

Lemma pairs_get_put_ne (key key' : string) (v : term) (pairs : list (term * term)) :
  key <> key' -> pairs_get key' (pairs_put key v pairs) = pairs_get key' pairs.
Proof.
  intros Hne. induction pairs as [|[k v0] pairs IH]; simpl.
  - destruct (String.eqb_spec key key'); done.
  - destruct (is_atom_named key k) eqn:Ek; simpl; [|by rewrite IH].
    destruct k; simpl in *; try done.
    apply String.eqb_eq in Ek. subst name.
    destruct (String.eqb_spec key key'); done.
Qed.

Lemma build_depends_on_three_keys (uninit : alloc_site -> nat -> Z) (create_ok : bool)
  (m1 m2 : term) :
  get_map_list m1 "nodes" = get_map_list m2 "nodes" ->
  get_map_list m1 "meshes" = get_map_list m2 "meshes" ->
  get_map_list m1 "materials" = get_map_list m2 "materials" ->
  build_ufbxw_scene_from_map uninit create_ok m1
  = build_ufbxw_scene_from_map uninit create_ok m2.
Proof.
  intros Hn Hm Hmat.
  unfold build_ufbxw_scene_from_map, build_with_nodes, build_without_nodes, build_materials.
  by rewrite Hn, Hm, Hmat.
Qed.

(** X23.  The builder reads only the keys [nodes], [meshes] and
    [materials] of the scene term: putting any other key ([version],
    [textures], [animations], ...) changes neither the scene built nor the
    reply of [write_fbx]. *)
Theorem writer_reads_only_three_keys (uninit : alloc_site -> nat -> Z) (create_ok : bool)
  (save : ufbxw_scene -> string -> ufbxw_save_opts -> bool * string)
  (path format_atom : term) (pairs : list (term * term)) (key : string) (value : term) :
  key <> "nodes" -> key <> "meshes" -> key <> "materials" ->
  build_ufbxw_scene_from_map uninit create_ok (enif_make_map_put (TMap pairs) key value)
  = build_ufbxw_scene_from_map uninit create_ok (TMap pairs)
  /\ write_fbx_nif uninit create_ok save
                   [path; enif_make_map_put (TMap pairs) key value; format_atom]
     = write_fbx_nif uninit create_ok save [path; TMap pairs; format_atom].
Proof.
  intros Hn Hm Hmat.
  assert (E : build_ufbxw_scene_from_map uninit create_ok
                (enif_make_map_put (TMap pairs) key value)
              = build_ufbxw_scene_from_map uninit create_ok (TMap pairs)).
  { apply build_depends_on_three_keys; unfold get_map_list; simpl;
      by apply pairs_get_put_ne. }
  split; [done|]. unfold write_fbx_nif. rewrite E. reflexivity.
Qed.

Lemma Forall2_imap_eq {A B : Type} (R : A -> A -> Prop) (l1 l2 : list A) :
  Forall2 R l1 l2 ->
  forall f g : nat -> A -> B,
    (forall i a b, R a b -> f i a = g i b) -> imap f l1 = imap g l2.
Proof.
  induction 1 as [|a b l1 l2 Hab Hl IH]; intros f g Hfg; [done|].
  cbn [imap]. f_equal; [by apply Hfg|]. apply IH. intros i x y Hxy. by apply Hfg.
Qed.

Lemma Forall2_fmap_eq {A B : Type} (R : A -> A -> Prop) (l1 l2 : list A) (f g : A -> B) :
  Forall2 R l1 l2 -> (forall a b, R a b -> f a = g b) -> f <$> l1 = g <$> l2.
Proof.
  induction 1 as [|a b l1 l2 Hab Hl IH]; intros Hfg; [done|].
  cbn [fmap list_fmap]. f_equal; [by apply Hfg|by apply IH].
Qed.

Lemma recorded_ids_same (uninit : alloc_site -> nat -> Z) (site : alloc_site)
  (keys : list string) (l1 l2 : list term) :
  In "id" keys -> Forall2 (same_on keys) l1 l2 ->
  recorded_ids uninit site l1 = recorded_ids uninit site l2.
Proof.
  intros Hin H. unfold recorded_ids. apply (Forall2_imap_eq _ _ _ H).
  intros i a b Hab. unfold recorded_id, get_map_uint. by rewrite (Hab "id" Hin).
Qed.

Lemma ufbxw_scene_eq (s1 s2 : ufbxw_scene) :
  sc_nodes s1 = sc_nodes s2 -> sc_meshes s1 = sc_meshes s2 ->
  sc_materials s1 = sc_materials s2 -> s1 = s2.
Proof. destruct s1, s2. simpl. by intros -> -> ->. Qed.

(** X24.  The builder looks up only [id], [name], [translation],
    [rotation], [scale], [parent_id] and [mesh_id] in a node entry, [id],
    [name], [positions], [indices], [normals] and [texcoords] in a mesh
    entry, and [name] and [diffuse_color] in a material entry: two scene
    terms whose entries agree under these keys build the same scene.  So
    [children], [material_ids], a material's [id], [specular_color] and
    [emissive_color] have no effect, and no material is ever bound to a
    mesh. *)
Theorem builder_reads_only_these_entry_keys (uninit : alloc_site -> nat -> Z)
  (create_ok : bool) (m1 m2 : term) (ns1 ns2 ms1 ms2 ks1 ks2 : list term) :
  map_list_entries m1 "nodes" = Some ns1 ->
  map_list_entries m2 "nodes" = Some ns2 ->
  Forall2 (same_on node_keys) ns1 ns2 ->
  map_list_entries m1 "meshes" = Some ms1 ->
  map_list_entries m2 "meshes" = Some ms2 ->
  Forall2 (same_on mesh_keys) ms1 ms2 ->
  map_list_entries m1 "materials" = Some ks1 ->
  map_list_entries m2 "materials" = Some ks2 ->
  Forall2 (same_on material_keys) ks1 ks2 ->
  build_ufbxw_scene_from_map uninit create_ok m1
  = build_ufbxw_scene_from_map uninit create_ok m2.
Proof.
  intros Hn1 Hn2 Hns Hm1 Hm2 Hms Hk1 Hk2 Hks.
  destruct create_ok; [|reflexivity].
  destruct (build_scene_spec uninit m1) as (s1 & -> & Hsn1 & Hsm1 & Hsk1).
  destruct (build_scene_spec uninit m2) as (s2 & -> & Hsn2 & Hsm2 & Hsk2).
  f_equal. apply ufbxw_scene_eq.
  - rewrite Hsn1, Hsn2. unfold built_nodes. rewrite Hn1, Hn2, Hm1, Hm2.
    apply (Forall2_fmap_eq _ _ _ _ _ Hns). intros a b Hab.
    unfold final_node, wired_node, resolved_parent, resolved_mesh, built_node,
      get_map_uint, get_map_string, get_map_vec3, get_map_vec4.
    rewrite (recorded_ids_same uninit NodeIds node_keys ns1 ns2) by (simpl; tauto || done).
    rewrite (recorded_ids_same uninit MeshIds mesh_keys ms1 ms2) by (simpl; tauto || done).
    rewrite (Forall2_length _ _ _ Hns), (Forall2_length _ _ _ Hms).
    rewrite !(Hab "name"), !(Hab "translation"), !(Hab "rotation"), !(Hab "scale"),
      !(Hab "parent_id"), !(Hab "mesh_id") by (simpl; tauto).
    reflexivity.
  - rewrite Hsm1, Hsm2. unfold built_meshes. rewrite Hm1, Hm2. simpl.
    unfold map_list_entries in Hn1, Hn2.
    destruct (get_map_list m1 "nodes") as [nl1|]; [|done].
    destruct (get_map_list m2 "nodes") as [nl2|]; [|done].
    rewrite (list_of_term_length nl1), (list_of_term_length nl2), Hn1, Hn2. simpl.
    apply (Forall2_imap_eq _ _ _ Hms). intros i a b Hab.
    unfold built_mesh, uvs_update, normals_update, triangles_update, positions_update,
      get_map_string, get_map_list.
    rewrite !(Hab "name"), !(Hab "positions"), !(Hab "indices"), !(Hab "normals"),
      !(Hab "texcoords") by (simpl; tauto).
    reflexivity.
  - rewrite Hsk1, Hsk2. unfold built_materials. rewrite Hk1, Hk2. simpl.
    apply (Forall2_fmap_eq _ _ _ _ _ Hks). intros a b Hab.
    unfold built_material, get_map_string, get_map_vec3.
    by rewrite !(Hab "name"), !(Hab "diffuse_color") by (simpl; tauto).
Qed.

Lemma built_mesh_name (uninit : alloc_site -> nat -> Z) (full : bool) (i : nat)
  (head : term) :
  wm_name (built_mesh uninit full i head) = get_map_string head "name".
Proof.
  unfold built_mesh. cbv zeta.
  assert (Hu : forall d, wm_name (uvs_update head d) = wm_name d).
  { intros d. unfold uvs_update. destruct (get_map_list head "texcoords") as [t|]; [|done].
    destruct (enif_get_list_length t); [|done]. cbv zeta. by destruct (_ && _). }
  assert (Hn : forall d, wm_name (normals_update head d) = wm_name d).
  { intros d. unfold normals_update. destruct (get_map_list head "normals") as [t|]; [|done].
    destruct (enif_get_list_length t); [|done]. cbv zeta. by destruct (_ && _). }
  assert (Ht : forall d, wm_name (triangles_update uninit i head d) = wm_name d).
  { intros d. unfold triangles_update.
    destruct (get_map_list head "indices") as [t|]; [|done].
    by destruct (enif_get_list_length t). }
  assert (Hp : forall d, wm_name (positions_update head d) = wm_name d).
  { intros d. unfold positions_update.
    destruct (get_map_list head "positions") as [t|]; [|done].
    destruct (enif_get_list_length t); [|done]. cbv zeta. by destruct (_ && _). }
  destruct full; rewrite ?Hu, ?Hn, Ht, Hp; by destruct (get_map_string head "name").
Qed.

Lemma built_mesh_not_map (uninit : alloc_site -> nat -> Z) (full : bool) (i : nat)
  (head : term) :
  enif_is_map head = false -> built_mesh uninit full i head = new_mesh.
Proof.
  intros Hnot.
  unfold built_mesh, uvs_update, normals_update, triangles_update, positions_update,
    get_map_string, get_map_list.
  rewrite !(get_map_not_map head) by done. by destruct full.
Qed.

(** X25.  When the [nodes] key is absent or holds a proper list, the
    builder creates one mesh per element of the [meshes] list, in list
    order (none when [meshes] is absent or not a proper list); a mesh gets
    its name exactly when the entry's [name] decodes, and an element that
    is not a map still yields a mesh, a blank one. *)
Theorem one_mesh_per_entry (uninit : alloc_site -> nat -> Z) (scene_data_map : term) :
  nodes_absent_or_list scene_data_map ->
  let entries := default [] (map_list_entries scene_data_map "meshes") in
  exists scene,
    build_ufbxw_scene_from_map uninit true scene_data_map = Some scene
    /\ length (sc_meshes scene) = length entries
    /\ forall i head, entries !! i = Some head ->
         exists mesh,
           sc_meshes scene !! i = Some mesh
           /\ wm_name mesh = get_map_string head "name"
           /\ (enif_is_map head = false -> mesh = new_mesh).
Proof.
  intros Hnodes entries.
  destruct (build_meshes_spec uninit scene_data_map) as (scene & Hbuild & Hmeshes).
  exists scene. split; [done|]. rewrite Hmeshes. unfold built_meshes. fold entries.
  assert (Hfull : exists full,
             match get_map_list scene_data_map "nodes" with
             | Some nodes_list =>
                 match enif_get_list_length nodes_list with
                 | Some _ => imap (built_mesh uninit true) entries
                 | None => []
                 end
             | None => imap (built_mesh uninit false) entries
             end = imap (built_mesh uninit full) entries).
  { unfold nodes_absent_or_list, map_list_entries in Hnodes.
    destruct (get_map_list scene_data_map "nodes") as [nl|]; [|by exists false].
    exists true. rewrite (list_of_term_length nl).
    destruct Hnodes as [?|[l Hl]]; [done|]. by rewrite Hl. }
  destruct Hfull as [full ->]. split; [by rewrite length_imap|].
  intros i head Hi. exists (built_mesh uninit full i head).
  rewrite list_lookup_imap, Hi. split; [done|].
  split; [apply built_mesh_name|by apply built_mesh_not_map].
Qed.

(** ** Loading, then writing *)

Lemma parse_string_make_string (alloc : nat -> bool) (name : ufbx_string) :
  parse_string (make_string alloc name) = written_name alloc name.
Proof.
  rewrite make_string_cases. unfold written_name.
  destruct (String.eqb name ""); [done|].
  destruct (alloc (String.length name)); reflexivity.
Qed.

Lemma built_node_of_extracted (alloc : nat -> bool) (node : ufbx_node) (node_id : Z) :
  let d := built_node (extract_node alloc node node_id) in
  wn_name d = written_name alloc (node_name node)
  /\ wn_translation d = Some (w3_of (translation (node_local_transform node)))
  /\ wn_rotation d
     = Some (wq_of (rotation (node_local_transform node)), UFBXW_ROTATION_ORDER_XYZ)
  /\ wn_scaling d = Some (w3_of (scale (node_local_transform node))).
Proof.
  cbv zeta.
  destruct (built_node_fields (extract_node alloc node node_id)) as (-> & -> & -> & ->).
  unfold get_map_string, get_map_vec3, get_map_vec4.
  destruct (extract_node_lookups alloc node node_id)
    as (_ & -> & _ & _ & _ & -> & -> & ->).
  rewrite parse_string_make_string. repeat split.
Qed.

(** X26.  Building from an extracted scene yields one node per parsed
    node, in order, with the parsed local translation, rotation and scale;
    the name survives when it is not empty (an empty name is left unset,
    and a name whose binary the runtime refused comes back as "error"). *)
Theorem loaded_node_transform_survives_write (uninit : alloc_site -> nat -> Z)
  (alloc : nat -> bool)
  (bake : ufbx_scene -> ufbx_anim -> ufbx_bake_opts -> option ufbx_baked_anim)
  (scene : ufbx_scene) :
  exists built,
    build_ufbxw_scene_from_map uninit true (extract_scene_data alloc bake scene)
    = Some built
    /\ length (sc_nodes built) = length (nodes scene)
    /\ forall i node, nodes scene !! i = Some node ->
         exists d,
           sc_nodes built !! i = Some d
           /\ wn_name d = written_name alloc (node_name node)
           /\ wn_translation d = Some (w3_of (translation (node_local_transform node)))
           /\ wn_rotation d
              = Some (wq_of (rotation (node_local_transform node)),
                      UFBXW_ROTATION_ORDER_XYZ)
           /\ wn_scaling d = Some (w3_of (scale (node_local_transform node))).
Proof.
  destruct (build_scene_spec uninit (extract_scene_data alloc bake scene))
    as (built & Hbuild & Hnodes & _ & _).
  exists built. split; [done|]. rewrite Hnodes. unfold built_nodes, map_list_entries,
    get_map_list.
  destruct (scene_entry_lists alloc bake scene) as (-> & -> & _).
  rewrite !list_of_term_list. rewrite !length_fmap. split; [done|].
  intros i node Hi. eexists. rewrite !list_lookup_fmap, Hi. split; [reflexivity|].
  match goal with
  | |- context [final_node uninit ?es ?ms ?h] =>
      destruct (final_node_fields uninit es ms h) as (-> & -> & -> & -> & _ & _)
  end.
  apply built_node_of_extracted.
Qed.

Lemma search_id_index (count : nat) (ids : list Z) (key : Z) :
  (forall m, (m < count)%nat -> ids !!! m = Z.of_nat m) ->
  0 <= key -> (Z.to_nat key < count)%nat ->
  search_id count 0 ids key = Some (Z.to_nat key).
Proof.
  intros Hids Hk Hlt. apply search_id_first.
  - lia.
  - rewrite Hids by done. lia.
  - intros m [_ Hm]. rewrite Hids by lia. lia.
Qed.

Lemma enif_get_uint_in_range (v : Z) :
  0 <= v <= UINT_MAX -> enif_get_uint (TInt v) = Some v.
Proof.
  intros [H0 H1]. simpl.
  destruct (Z.leb_spec 0 v), (Z.leb_spec v UINT_MAX); try lia. done.
Qed.

(** The id tables over a scene the extractor emitted hold each element's
    index, when typed ids are indices as the parser guarantees. *)
Lemma recorded_ids_of_extracted {A : Type} (uninit : alloc_site -> nat -> Z)
  (site : alloc_site) (elements : list A) (typed_id : A -> Z) (extract : A -> term) :
  (forall a, enif_get_map_value (extract a) "id" = Some (TInt (typed_id a))) ->
  (forall k a, elements !! k = Some a -> typed_id a = Z.of_nat k) ->
  Z.of_nat (length elements) <= UINT_MAX + 1 ->
  forall m, (m < length (extract <$> elements))%nat ->
            recorded_ids uninit site (extract <$> elements) !!! m = Z.of_nat m.
Proof.
  intros Hid Hix Hlen m Hm. rewrite length_fmap in Hm.
  destruct (lookup_lt_is_Some_2 elements m Hm) as [a Ha].
  assert (He : (extract <$> elements) !! m = Some (extract a)).
  { by rewrite list_lookup_fmap, Ha. }
  rewrite (list_lookup_total_correct _ _ _ (recorded_ids_lookup uninit site _ _ _ He)).
  unfold recorded_id, get_map_uint. rewrite Hid, (Hix m a Ha).
  rewrite enif_get_uint_in_range; [done|]. unfold UINT_MAX in *. lia.
Qed.

(** X27.  When typed ids are indices into the scene's arrays, as the
    parser has them, building from an extracted scene gives every node the
    parent the parsed node had, and the mesh it had unless that mesh has
    typed id 0: a link to mesh 0 is dropped. *)
Theorem loaded_hierarchy_survives_write (uninit : alloc_site -> nat -> Z)
  (alloc : nat -> bool)
  (bake : ufbx_scene -> ufbx_anim -> ufbx_bake_opts -> option ufbx_baked_anim)
  (scene : ufbx_scene) :
  (forall k n, nodes scene !! k = Some n -> node_typed_id n = Z.of_nat k) ->
  (forall k m, meshes scene !! k = Some m -> mesh_typed_id m = Z.of_nat k) ->
  Z.of_nat (length (nodes scene)) <= UINT_MAX + 1 ->
  Z.of_nat (length (meshes scene)) <= UINT_MAX + 1 ->
  (forall k n p, nodes scene !! k = Some n -> node_parent n = Some p ->
                 0 <= ptr_typed_id p < Z.of_nat (length (nodes scene))) ->
  (forall k n m, nodes scene !! k = Some n -> node_mesh n = Some m ->
                 0 <= ptr_typed_id m < Z.of_nat (length (meshes scene))) ->
  exists built,
    build_ufbxw_scene_from_map uninit true (extract_scene_data alloc bake scene)
    = Some built
    /\ length (sc_meshes built) = length (meshes scene)
    /\ forall i node, nodes scene !! i = Some node ->
         exists d,
           sc_nodes built !! i = Some d
           /\ wn_parent d = (fun p => Z.to_nat (ptr_typed_id p)) <$> node_parent node
           /\ wn_attribute d = written_mesh_link (node_mesh node).
Proof.
  intros Hnix Hmix Hnlen Hmlen Hpar Hmesh.
  destruct (build_scene_spec uninit (extract_scene_data alloc bake scene))
    as (built & Hbuild & Hnodes & Hmeshes & _).
  exists built. split; [done|]. rewrite Hnodes, Hmeshes.
  unfold built_nodes, built_meshes, map_list_entries, get_map_list.
  destruct (scene_entry_lists alloc bake scene) as (-> & -> & _).
  rewrite !list_of_term_list, get_list_length_term_list. simpl.
  split; [by rewrite length_imap, length_fmap|].
  intros i node Hi. eexists. rewrite !list_lookup_fmap, Hi. split; [reflexivity|].
  match goal with
  | |- context [final_node uninit ?es ?ms ?h] =>
      destruct (final_node_fields uninit es ms h) as (_ & _ & _ & _ & -> & ->)
  end.
  unfold resolved_parent, resolved_mesh, get_map_uint.
  destruct (extract_node_lookups alloc node (node_typed_id node))
    as (_ & _ & -> & _ & -> & _).
  split.
  - destruct (node_parent node) as [p|] eqn:Hp; [|done].
    destruct (Hpar i node p Hi Hp) as [Hp0 Hp1].
    cbn [fmap option_fmap option_map]. unfold id_term.
    rewrite enif_get_uint_in_range by (unfold UINT_MAX in *; lia).
    rewrite search_id_index; [done| |done|rewrite length_fmap; lia].
    apply (recorded_ids_of_extracted uninit NodeIds (nodes scene) node_typed_id
             (fun n => extract_node alloc n (node_typed_id n))); [|done|done].
    intros a. by destruct (extract_node_lookups alloc a (node_typed_id a)) as (-> & _).
  - unfold written_mesh_link.
    destruct (node_mesh node) as [m|] eqn:Hm; [|done].
    destruct (Hmesh i node m Hi Hm) as [Hm0 Hm1].
    cbn [fmap option_fmap option_map]. unfold id_term.
    rewrite enif_get_uint_in_range by (unfold UINT_MAX in *; lia).
    destruct (ptr_typed_id m =? 0); [done|]. cbn [fmap option_fmap option_map].
    rewrite search_id_index; [done| |done|rewrite length_fmap; lia].
    apply (recorded_ids_of_extracted uninit MeshIds (meshes scene) mesh_typed_id
             (extract_mesh alloc)); [|done|done].
    intros a. by destruct (extract_mesh_lookups alloc a) as (-> & _).
Qed.

Lemma group3_defaults (z0 : double) (count : nat) :
  forall elems : list term,
    length elems = (3 * count)%nat ->
    Forall (fun t => is_double t = false) elems ->
    group3 z0 elems = replicate count {| w3_x := 0; w3_y := 0; w3_z := z0 |}.
Proof.
  induction count as [|count IH]; intros elems Hlen Hall.
  { by destruct elems. }
  destruct elems as [|x [|y [|z rest]]]; simpl in Hlen; try lia.
  apply Forall_cons in Hall as [Hx Hall]. apply Forall_cons in Hall as [Hy Hall].
  apply Forall_cons in Hall as [Hz Hall].
  cbn [group3 replicate]. rewrite IH by (done || lia).
  by destruct x, y, z.
Qed.

Lemma group2_defaults (count : nat) :
  forall elems : list term,
    length elems = (2 * count)%nat ->
    Forall (fun t => is_double t = false) elems ->
    group2 elems = replicate count {| w2_x := 0; w2_y := 0 |}.
Proof.
  induction count as [|count IH]; intros elems Hlen Hall.
  { by destruct elems. }
  destruct elems as [|x [|y rest]]; simpl in Hlen; try lia.
  apply Forall_cons in Hall as [Hx Hall]. apply Forall_cons in Hall as [Hy Hall].
  cbn [group2 replicate]. rewrite IH by (done || lia).
  by destruct x, y.
Qed.

Lemma arity_check_cases (arity len : nat) :
  arity <> O ->
  ((0 <? len)%nat && (len mod arity =? 0)%nat = true
   /\ len <> O /\ (len mod arity = 0)%nat)
  \/ ((0 <? len)%nat && (len mod arity =? 0)%nat = false
      /\ ((len mod arity)%nat <> O \/ len = O)).
Proof.
  intros Ha. destruct len as [|len]; [right; split; [done|by right]|].
  destruct (Nat.eqb_spec (S len mod arity) 0) as [E|E].
  - left. by rewrite E.
  - right. split; [done|by left].
Qed.

(** An attribute list whose elements are not doubles decodes to defaults. *)
Lemma positions_update_nested (head : term) (elems : list term) :
  get_map_list head "positions" = Some (term_list elems) ->
  Forall (fun t => is_double t = false) elems ->
  wm_vertices (positions_update head new_mesh)
  = (if (0 <? length elems)%nat && (length elems mod 3 =? 0)%nat
     then Some (replicate (length elems / 3) {| w3_x := 0; w3_y := 0; w3_z := 0 |})
     else None).
Proof.
  intros Hget Hall.
  destruct (arity_check_cases 3 (length elems)) as [(-> & Hne & Hmod)|(-> & Hbad)]; [lia| |].
  - rewrite (positions_update_flat head elems) by (done || by destruct elems).
    cbn [wm_vertices mesh_set_vertices]. f_equal. apply group3_defaults; [|done].
    pose proof (Nat.div_mod_eq (length elems) 3). lia.
  - by rewrite (positions_update_rejected head (term_list elems) (length elems))
      by (done || apply get_list_length_term_list).
Qed.

Lemma normals_update_nested (head : term) (elems : list term) :
  get_map_list head "normals" = Some (term_list elems) ->
  Forall (fun t => is_double t = false) elems ->
  wm_normals (normals_update head new_mesh)
  = (if (0 <? length elems)%nat && (length elems mod 3 =? 0)%nat
     then Some (replicate (length elems / 3) {| w3_x := 0; w3_y := 0; w3_z := 1 |},
                UFBXW_ATTRIBUTE_MAPPING_VERTEX)
     else None).
Proof.
  intros Hget Hall.
  destruct (arity_check_cases 3 (length elems)) as [(-> & Hne & Hmod)|(-> & Hbad)]; [lia| |].
  - rewrite (normals_update_flat head elems) by (done || by destruct elems).
    cbn [wm_normals mesh_set_normals]. do 2 f_equal. apply group3_defaults; [|done].
    pose proof (Nat.div_mod_eq (length elems) 3). lia.
  - unfold normals_update. rewrite Hget, get_list_length_term_list. cbv zeta.
    by rewrite arity_check_fails.
Qed.

Lemma uvs_update_nested (head : term) (elems : list term) :
  get_map_list head "texcoords" = Some (term_list elems) ->
  Forall (fun t => is_double t = false) elems ->
  wm_uvs (uvs_update head new_mesh)
  = (if (0 <? length elems)%nat && (length elems mod 2 =? 0)%nat
     then [(0, (replicate (length elems / 2) {| w2_x := 0; w2_y := 0 |},
                UFBXW_ATTRIBUTE_MAPPING_VERTEX))]
     else []).
Proof.
  intros Hget Hall.
  destruct (arity_check_cases 2 (length elems)) as [(-> & Hne & Hmod)|(-> & Hbad)]; [lia| |].
  - rewrite (uvs_update_flat head elems) by (done || by destruct elems).
    cbn [wm_uvs mesh_set_uvs new_mesh]. do 3 f_equal. apply group2_defaults; [|done].
    pose proof (Nat.div_mod_eq (length elems) 2). lia.
  - unfold uvs_update. rewrite Hget, get_list_length_term_list. cbv zeta.
    by rewrite arity_check_fails.
Qed.

Lemma fmap_not_double {A : Type} (f : A -> term) (l : list A) :
  (forall a, is_double (f a) = false) -> Forall (fun t => is_double t = false) (f <$> l).
Proof. intros H. apply Forall_fmap, Forall_forall. intros a _. apply H. Qed.

Lemma nonempty_length {A : Type} (l : list A) : nonempty l = (0 <? length l)%nat.
Proof. by destruct l. Qed.

Lemma imap_decoded_uints (uninit : alloc_site -> nat -> Z) (i : nat) (indices : list Z) :
  Forall (fun v => 0 <= v <= UINT_MAX) indices ->
  imap (fun k t => match enif_get_uint t with
                   | Some idx_val => to_int32 idx_val
                   | None => uninit (Indices i) k
                   end) (TInt <$> indices)
  = to_int32 <$> indices.
Proof.
  intros Hall. apply list_eq. intros k.
  rewrite list_lookup_imap, !list_lookup_fmap.
  destruct (indices !! k) as [v|] eqn:Hk; simpl; [|done].
  rewrite Forall_lookup in Hall. specialize (Hall k v Hk).
  destruct (Z.leb_spec 0 v), (Z.leb_spec v UINT_MAX); try lia. done.
Qed.

(** X28.  Building from an extracted scene yields one mesh per parsed
    mesh whose attributes hold no parsed value: the extractor emits one
    list per vertex and the builder reads every such list as a non-double,
    so for [n] parsed values it sets [n / 3] vertices (0,0,0) and normals
    (0,0,1), and [n / 2] texture coordinates (0,0), when [n] is a multiple
    of 3 (of 2), and nothing otherwise.  Only the indices come through:
    they are set exactly when [positions] and [indices] were emitted. *)
Theorem loaded_geometry_is_lost_on_write (uninit : alloc_site -> nat -> Z)
  (alloc : nat -> bool)
  (bake : ufbx_scene -> ufbx_anim -> ufbx_bake_opts -> option ufbx_baked_anim)
  (scene : ufbx_scene) :
  exists built,
    build_ufbxw_scene_from_map uninit true (extract_scene_data alloc bake scene)
    = Some built
    /\ length (sc_meshes built) = length (meshes scene)
    /\ forall i mesh, meshes scene !! i = Some mesh ->
         let pos := vertex_position mesh in
         let nrm := vertex_normal mesh in
         let uvs := vertex_uv mesh in
         exists d,
           sc_meshes built !! i = Some d
           /\ wm_name d = written_name alloc (mesh_name mesh)
           /\ wm_vertices d
              = (if vv3_exists pos && (0 <? length (vv3_values pos))%nat
                    && (length (vv3_values pos) mod 3 =? 0)%nat
                 then Some (replicate (length (vv3_values pos) / 3)
                                      {| w3_x := 0; w3_y := 0; w3_z := 0 |})
                 else None)
           /\ wm_normals d
              = (if vv3_exists nrm && (0 <? length (vv3_values nrm))%nat
                    && (length (vv3_values nrm) mod 3 =? 0)%nat
                 then Some (replicate (length (vv3_values nrm) / 3)
                                      {| w3_x := 0; w3_y := 0; w3_z := 1 |},
                            UFBXW_ATTRIBUTE_MAPPING_VERTEX)
                 else None)
           /\ wm_uvs d
              = (if vv2_exists uvs && (0 <? length (vv2_values uvs))%nat
                    && (length (vv2_values uvs) mod 2 =? 0)%nat
                 then [(0, (replicate (length (vv2_values uvs) / 2)
                                      {| w2_x := 0; w2_y := 0 |},
                            UFBXW_ATTRIBUTE_MAPPING_VERTEX))]
                 else [])
           /\ (Forall (fun v => 0 <= v <= UINT_MAX) (vv3_indices pos) ->
               wm_triangles d
               = (if vv3_exists pos && (0 <? length (vv3_values pos))%nat
                     && (0 <? length (vv3_indices pos))%nat
                  then Some (to_int32 <$> vv3_indices pos) else None)).
Proof.
  destruct (build_scene_spec uninit (extract_scene_data alloc bake scene))
    as (built & Hbuild & _ & Hmeshes & _).
  exists built. split; [done|]. rewrite Hmeshes.
  unfold built_meshes, map_list_entries, get_map_list.
  destruct (scene_entry_lists alloc bake scene) as (-> & -> & _).
  rewrite !list_of_term_list, get_list_length_term_list. simpl.
  split; [by rewrite length_imap, length_fmap|].
  intros i mesh Hi.
  set (pos := vertex_position mesh). set (nrm := vertex_normal mesh).
  set (uvs := vertex_uv mesh).
  exists (built_mesh uninit true i (extract_mesh alloc mesh)).
  rewrite list_lookup_imap, list_lookup_fmap, Hi. split; [done|].
  destruct (extract_mesh_lookups alloc mesh) as (_ & Hname & Hp & Hix & Hn & Hu & _).
  fold pos nrm uvs in Hp, Hix, Hn, Hu.
  rewrite !nonempty_length in Hp. rewrite !nonempty_length in Hix.
  rewrite !nonempty_length in Hn. rewrite !nonempty_length in Hu.
  rewrite built_mesh_name, built_mesh_vertices, built_mesh_normals, built_mesh_uvs,
    built_mesh_triangles.
  split; [|split; [|split; [|split]]].
  - unfold get_map_string. by rewrite Hname, parse_string_make_string.
  - destruct (vv3_exists pos && (0 <? length (vv3_values pos))%nat) eqn:E.
    + rewrite (positions_update_nested _ (make_vec3 <$> vv3_values pos)), length_fmap;
        [|done|by apply fmap_not_double].
      apply andb_prop in E as [_ ->]. done.
    + unfold positions_update, get_map_list. by rewrite Hp.
  - destruct (vv3_exists nrm && (0 <? length (vv3_values nrm))%nat) eqn:E.
    + rewrite (normals_update_nested _ (make_vec3 <$> vv3_values nrm)), length_fmap;
        [|done|by apply fmap_not_double].
      apply andb_prop in E as [_ ->]. done.
    + unfold normals_update, get_map_list. by rewrite Hn.
  - destruct (vv2_exists uvs && (0 <? length (vv2_values uvs))%nat) eqn:E.
    + rewrite (uvs_update_nested _
                 ((fun uv => term_list [TFloat (v2_x uv); TFloat (v2_y uv)])
                    <$> vv2_values uvs)), length_fmap;
        [|done|by apply fmap_not_double].
      apply andb_prop in E as [_ ->]. done.
    + unfold uvs_update, get_map_list. by rewrite Hu.
  - intros Hall.
    destruct (vv3_exists pos && (0 <? length (vv3_values pos))%nat
              && (0 <? length (vv3_indices pos))%nat).
    + rewrite (triangles_update_list uninit i _ (TInt <$> vv3_indices pos)) by done.
      simpl. f_equal. by apply imap_decoded_uints.
    + unfold triangles_update, get_map_list. by rewrite Hix.
Qed.

Lemma extract_material_lookups (alloc : nat -> bool) (material : ufbx_material) :
  enif_get_map_value (extract_material alloc material) "name"
  = Some (make_string alloc (material_name material))
  /\ enif_get_map_value (extract_material alloc material) "diffuse_color"
     = make_vec3 <$> spec_color_choice (base_color (pbr material))
                                       (diffuse_color (fbx material)).
Proof.
  unfold extract_material. rewrite !color_entry_spec.
  destruct (spec_color_choice (base_color (pbr material)) (diffuse_color (fbx material)));
    destruct (spec_color_choice (pbr_specular_color (pbr material))
                                (fbx_specular_color (fbx material)));
    destruct (spec_color_choice (pbr_emission_color (pbr material))
                                (fbx_emission_color (fbx material)));
    split; reflexivity.
Qed.

(** X29.  Building from an extracted scene yields one material per
    parsed material; of the three extracted colours only the diffuse one
    (the physically-based base colour, else the legacy diffuse colour) is
    written, as "DiffuseColor". *)
Theorem loaded_material_keeps_only_diffuse (uninit : alloc_site -> nat -> Z)
  (alloc : nat -> bool)
  (bake : ufbx_scene -> ufbx_anim -> ufbx_bake_opts -> option ufbx_baked_anim)
  (scene : ufbx_scene) :
  exists built,
    build_ufbxw_scene_from_map uninit true (extract_scene_data alloc bake scene)
    = Some built
    /\ sc_materials built
       = (fun material =>
            {| wmat_name := written_name alloc (material_name material);
               wmat_props :=
                 match spec_color_choice (base_color (pbr material))
                                         (diffuse_color (fbx material)) with
                 | Some color => [("DiffuseColor", w3_of color)]
                 | None => []
                 end |}) <$> materials scene.
Proof.
  destruct (build_scene_spec uninit (extract_scene_data alloc bake scene))
    as (built & Hbuild & _ & _ & Hmat).
  exists built. split; [done|]. rewrite Hmat.
  unfold built_materials, map_list_entries, get_map_list.
  destruct (scene_entry_lists alloc bake scene) as (_ & _ & -> & _).
  rewrite list_of_term_list. simpl. rewrite <- list_fmap_compose.
  apply list_fmap_ext. intros _ material _. simpl.
  unfold built_material, get_map_string, get_map_vec3.
  destruct (extract_material_lookups alloc material) as [-> ->].
  rewrite parse_string_make_string. f_equal.
  by destruct (spec_color_choice _ _).
Qed.

(** ** Where the code departs from the specification *)

(** C1, evaluated.  Loading a file whose one mesh has two vertices yields
    [positions] and [normals] as lists of two 3-element lists and
    [texcoords] as a list of two 2-element lists: nested tuples, not flat
    sequences of doubles. *)
Theorem extracted_attributes_are_nested :
  let mesh_term := extract_mesh alloc_always edge_mesh in
  load_fbx_nif alloc_always never_baked edge_parser (TBinary "edge.fbx")
  = Return (enif_make_tuple2 (enif_make_atom "ok")
              (extract_scene_data alloc_always never_baked edge_scene))
  /\ load_fbx_binary_nif alloc_always never_baked edge_parser (TBinary "Kaydara FBX")
     = Return (enif_make_tuple2 (enif_make_atom "ok")
                 (extract_scene_data alloc_always never_baked edge_scene))
  /\ map_list_entries (extract_scene_data alloc_always never_baked edge_scene) "meshes"
     = Some [mesh_term]
  /\ enif_get_map_value mesh_term "positions"
     = Some (term_list [term_list [TFloat 0; TFloat 0; TFloat 0];
                        term_list [TFloat 1; TFloat 2; TFloat 3]])
  /\ enif_get_map_value mesh_term "normals"
     = Some (term_list [term_list [TFloat 0; TFloat 0; TFloat 1];
                        term_list [TFloat 0; TFloat 0; TFloat 1]])
  /\ enif_get_map_value mesh_term "texcoords"
     = Some (term_list [term_list [TFloat 0; TFloat 0];
                        term_list [TFloat 1; TFloat 0.5]])
  /\ flat_doubles <$> enif_get_map_value mesh_term "positions" = Some false
  /\ flat_doubles <$> enif_get_map_value mesh_term "normals" = Some false
  /\ flat_doubles <$> enif_get_map_value mesh_term "texcoords" = Some false.
Proof. repeat split; reflexivity. Qed.

(** C2, evaluated.  For the scene of Scenario A, whose node refers to
    its mesh by [mesh_id = 0], the built node has no mesh attached,
    whatever the allocated memory held; the same scene with the id 1 in
    place of 0 has the mesh attached. *)
Theorem mesh_id_zero_not_attached (uninit : alloc_site -> nat -> Z) :
  (exists scene node,
      build_ufbxw_scene_from_map uninit true (root_cube_term 0) = Some scene
      /\ length (sc_meshes scene) = 1%nat
      /\ sc_nodes scene !! 0%nat = Some node
      /\ wn_attribute node = None)
  /\ (exists scene node,
        build_ufbxw_scene_from_map uninit true (root_cube_term 1) = Some scene
        /\ length (sc_meshes scene) = 1%nat
        /\ sc_nodes scene !! 0%nat = Some node
        /\ wn_attribute node = Some (IdMesh 0)).
Proof. split; eexists _, _; repeat split; reflexivity. Qed.

(** C3, evaluated.  A scene term with one mesh entry carrying all four
    attributes and no [nodes] key yields a mesh with vertices and
    triangles but neither normals nor texture coordinates; with an
    (empty) [nodes] list added, the same entry yields all four. *)
Theorem normals_and_uvs_dropped_without_nodes (uninit : alloc_site -> nat -> Z) :
  (exists scene mesh,
      build_ufbxw_scene_from_map uninit true (lone_mesh_term false) = Some scene
      /\ sc_meshes scene !! 0%nat = Some mesh
      /\ wm_vertices mesh = Some [{| w3_x := 0; w3_y := 0; w3_z := 0 |}]
      /\ wm_triangles mesh = Some [0; 0; 0]
      /\ wm_normals mesh = None
      /\ wm_uvs mesh = [])
  /\ (exists scene mesh,
        build_ufbxw_scene_from_map uninit true (lone_mesh_term true) = Some scene
        /\ sc_meshes scene !! 0%nat = Some mesh
        /\ wm_vertices mesh = Some [{| w3_x := 0; w3_y := 0; w3_z := 0 |}]
        /\ wm_triangles mesh = Some [0; 0; 0]
        /\ wm_normals mesh
           = Some ([{| w3_x := 0; w3_y := 0; w3_z := 1 |}], UFBXW_ATTRIBUTE_MAPPING_VERTEX)
        /\ wm_uvs mesh
           = [(0, ([{| w2_x := 0.5; w2_y := 0.5 |}], UFBXW_ATTRIBUTE_MAPPING_VERTEX))]).
Proof. split; eexists _, _; repeat split; reflexivity. Qed.

(** C6, evaluated.  Of the two node entries below the first declares
    no id and the second names the parent 0, the id of no entry.  The
    first entry's slot of the id table is never written, and the search
    for the parent reads it: whatever the fresh table holds, the second
    node gets the first as its parent exactly when that slot holds 0.  So
    with zeroed memory the node has a parent, and with memory full of 9 it
    has none.  Either way [write_fbx] returns [{ok, path}].  In the scene
    of Scenario B, where both entries declare their id, the node whose
    parent is missing has no parent whatever the memory held. *)
Theorem undeclared_parent_id_matches_unwritten_slot (uninit : alloc_site -> nat -> Z) :
  (fun e => get_map_uint e "id") <$> default [] (map_list_entries idless_parent_term "nodes")
  = [None; Some 1]
  /\ (exists scene node,
        build_ufbxw_scene_from_map uninit true idless_parent_term = Some scene
        /\ sc_nodes scene !! 1%nat = Some node
        /\ wn_parent node = if uninit NodeIds 0%nat =? 0 then Some 0%nat else None)
  /\ (exists scene node,
        build_ufbxw_scene_from_map zeroed_memory true idless_parent_term = Some scene
        /\ sc_nodes scene !! 1%nat = Some node
        /\ wn_parent node = Some 0%nat)
  /\ (exists scene node,
        build_ufbxw_scene_from_map stale_memory true idless_parent_term = Some scene
        /\ sc_nodes scene !! 1%nat = Some node
        /\ wn_parent node = None)
  /\ write_fbx_nif uninit true writer_succeeds
                   [TBinary "out.fbx"; idless_parent_term; TAtom "binary"]
     = Return (TTuple [TAtom "ok"; charlist "out.fbx"])
  /\ (exists scene node,
        build_ufbxw_scene_from_map uninit true orphan_term = Some scene
        /\ sc_nodes scene !! 1%nat = Some node
        /\ wn_parent node = None).
Proof.
  split; [reflexivity|]. split; [|split; [|split; [|split]]];
    [|eexists _, _; repeat split; reflexivity..|reflexivity
     |eexists _, _; repeat split; reflexivity].
  destruct (build_scene_spec uninit idless_parent_term) as (scene & Hbuild & Hnodes & _).
  exists scene. rewrite Hbuild, Hnodes. eexists. split; [reflexivity|].
  split; [reflexivity|]. vm_compute.
  destruct (uninit NodeIds 0%nat) as [|p|p]; reflexivity.
Qed.

(** C9, evaluated.  The mesh entry below holds the same six elements, of
    which four are integers, under [positions], [normals] and [texcoords].
    In a scene term without [nodes] key its positions are set with the
    integers read as 0.0, but its normals and texture coordinates are not
    set at all; with an (empty) [nodes] list all three are set, each
    integer read as the default of its component; with a [nodes] that is
    not a list no mesh is built. *)
Theorem non_double_elements_without_nodes (uninit : alloc_site -> nat -> Z) :
  (exists scene mesh,
      build_ufbxw_scene_from_map uninit true mixed_term_without_nodes = Some scene
      /\ sc_meshes scene !! 0%nat = Some mesh
      /\ wm_vertices mesh
         = Some [{| w3_x := 1; w3_y := 0; w3_z := 3 |}; {| w3_x := 0; w3_y := 0; w3_z := 0 |}]
      /\ wm_normals mesh = None
      /\ wm_uvs mesh = [])
  /\ (exists scene mesh,
        build_ufbxw_scene_from_map uninit true mixed_term = Some scene
        /\ sc_meshes scene !! 0%nat = Some mesh
        /\ wm_vertices mesh
           = Some [{| w3_x := 1; w3_y := 0; w3_z := 3 |};
                   {| w3_x := 0; w3_y := 0; w3_z := 0 |}]
        /\ wm_normals mesh
           = Some ([{| w3_x := 1; w3_y := 0; w3_z := 3 |};
                    {| w3_x := 0; w3_y := 0; w3_z := 1 |}], UFBXW_ATTRIBUTE_MAPPING_VERTEX)
        /\ wm_uvs mesh
           = [(0, ([{| w2_x := 1; w2_y := 0 |}; {| w2_x := 3; w2_y := 0 |};
                    {| w2_x := 0; w2_y := 0 |}], UFBXW_ATTRIBUTE_MAPPING_VERTEX))])
  /\ (exists scene,
        build_ufbxw_scene_from_map uninit true mixed_term_odd_nodes = Some scene
        /\ sc_meshes scene = []).
Proof.
  split; [|split]; [eexists _, _; repeat split; reflexivity..|].
  eexists. split; reflexivity.
Qed.

(** ** The theorems at sample inputs *)

Lemma positions_arity_guard_witness :
  exists scene,
    build_ufbxw_scene_from_map zeroed_memory true short_positions_term = Some scene
    /\ (forall mesh, sc_meshes scene !! 0%nat = Some mesh -> wm_vertices mesh = None)
    /\ (nodes_absent_or_list short_positions_term -> is_Some (sc_meshes scene !! 0%nat))
    /\ ((writer_succeeds scene (c_str "out.fbx") (save_opts_for (TAtom "binary"))).1 = true ->
        write_fbx_nif zeroed_memory true writer_succeeds
                      [TBinary "out.fbx"; short_positions_term; TAtom "binary"]
        = Return (enif_make_tuple2 (enif_make_atom "ok")
                                   (enif_make_string (c_str "out.fbx")))).
Proof.
  apply (positions_arity_guard zeroed_memory writer_succeeds "out.fbx"
           short_positions_term (TAtom "binary") [short_positions_entry] 0
           short_positions_entry
           (term_list [TFloat 0; TFloat 0; TFloat 0; TFloat 1]) 4);
    [reflexivity | reflexivity | reflexivity | reflexivity | left; simpl; lia].
Defined.


Lemma keyframes_time_ordered_witness :
  let emitted :=
    List.filter (keyframe_in 3 Translation)
                (animation_keyframes (extract_animation alloc_always two_key_anim take_one)) in
  emitted = channel_keyframe_terms two_key_node Translation
  /\ map keyframe_time emitted = map Some (channel_times two_key_node Translation)
  /\ (Sorted double_le (channel_times two_key_node Translation) ->
      Sorted keyframe_time_le emitted).
Proof.
  apply (keyframes_time_ordered alloc_always two_key_anim take_one two_key_node
           Translation).
  - simpl. apply List.NoDup_cons; [simpl; tauto | apply List.NoDup_nil].
  - simpl. tauto.
Defined.

Lemma non_double_elements_take_defaults_witness :
  exists scene mesh,
    build_ufbxw_scene_from_map zeroed_memory true mixed_term = Some scene
    /\ sc_meshes scene !! 0%nat = Some mesh
    /\ (get_map_list mixed_entry "positions" = Some (term_list mixed_elements) ->
        (length mixed_elements mod 3 = 0)%nat ->
        wm_vertices mesh = Some (group3 0 mixed_elements))
    /\ (is_Some (map_list_entries mixed_term "nodes") ->
        get_map_list mixed_entry "normals" = Some (term_list mixed_elements) ->
        (length mixed_elements mod 3 = 0)%nat ->
        wm_normals mesh = Some (group3 1 mixed_elements, UFBXW_ATTRIBUTE_MAPPING_VERTEX))
    /\ (is_Some (map_list_entries mixed_term "nodes") ->
        get_map_list mixed_entry "texcoords" = Some (term_list mixed_elements) ->
        (length mixed_elements mod 2 = 0)%nat ->
        wm_uvs mesh = [(0, (group2 mixed_elements, UFBXW_ATTRIBUTE_MAPPING_VERTEX))]).
Proof.
  apply (non_double_elements_take_defaults zeroed_memory mixed_term [mixed_entry] 0
           mixed_entry mixed_elements);
    [reflexivity | reflexivity | right; eexists; reflexivity | discriminate].
Defined.

Lemma name_field_always_emitted_witness :
  let name_term (str : ufbx_string) :=
    Some (if String.eqb str "" then charlist "" else TBinary str) in
  (forall node node_id,
      enif_get_map_value (extract_node alloc_always node node_id) "name"
      = name_term (node_name node))
  /\ (forall mesh,
      enif_get_map_value (extract_mesh alloc_always mesh) "name"
      = name_term (mesh_name mesh))
  /\ (forall material,
      enif_get_map_value (extract_material alloc_always material) "name"
      = name_term (material_name material))
  /\ (forall texture,
      enif_get_map_value (extract_texture alloc_always texture) "name"
      = name_term (texture_name texture))
  /\ (forall baked anim_stack,
      enif_get_map_value (extract_animation alloc_always baked anim_stack) "name"
      = name_term (stack_name anim_stack)).
Proof.
  apply (name_field_always_emitted alloc_always). reflexivity.
Defined.

Lemma nonzero_mesh_id_attached_witness :
  (exists scene node,
      build_ufbxw_scene_from_map zeroed_memory true (root_cube_term 1) = Some scene
      /\ sc_nodes scene !! 0%nat = Some node
      /\ wn_attribute node = Some (IdMesh 0)
      /\ sc_meshes scene !! 0%nat
         = Some (built_mesh zeroed_memory true 0
                   (atom_map [("id", TInt 1); ("name", TBinary "Cube");
                              ("positions", term_list [TFloat 0; TFloat 0; TFloat 0])])))
  /\ (exists scene node,
        build_ufbxw_scene_from_map sevens_memory true idless_mesh_term = Some scene
        /\ sc_nodes scene !! 0%nat = Some node
        /\ wn_attribute node = Some (IdMesh 0)
        /\ sc_meshes scene !! 0%nat
           = Some (built_mesh sevens_memory true 0 (atom_map [("name", TBinary "NoId")]))).
Proof.
  split.
  - apply (nonzero_mesh_id_attached zeroed_memory (root_cube_term 1)
             [atom_map [("id", TInt 0); ("name", TBinary "Root"); ("mesh_id", TInt 1)]]
             [atom_map [("id", TInt 1); ("name", TBinary "Cube");
                        ("positions", term_list [TFloat 0; TFloat 0; TFloat 0])]]
             0 0
             (atom_map [("id", TInt 0); ("name", TBinary "Root"); ("mesh_id", TInt 1)])
             (atom_map [("id", TInt 1); ("name", TBinary "Cube");
                        ("positions", term_list [TFloat 0; TFloat 0; TFloat 0])])
             1);
      [reflexivity | reflexivity | reflexivity | reflexivity | discriminate
      | reflexivity | reflexivity | intros j' e Hj'; lia].
  - apply (nonzero_mesh_id_attached sevens_memory idless_mesh_term
             [atom_map [("id", TInt 0); ("mesh_id", TInt 7)]]
             [atom_map [("name", TBinary "NoId")]]
             0 0
             (atom_map [("id", TInt 0); ("mesh_id", TInt 7)])
             (atom_map [("name", TBinary "NoId")])
             7);
      [reflexivity | reflexivity | reflexivity | reflexivity | discriminate
      | reflexivity | reflexivity | intros j' e Hj'; lia].
Defined.

Lemma no_nodes_key_drops_normals_and_uvs_witness :
  exists scene,
    build_ufbxw_scene_from_map zeroed_memory true (lone_mesh_term false) = Some scene
    /\ length (sc_meshes scene)
       = length (default [] (map_list_entries (lone_mesh_term false) "meshes"))
    /\ (forall i mesh, sc_meshes scene !! i = Some mesh ->
                       wm_normals mesh = None /\ wm_uvs mesh = []).
Proof.
  apply (no_nodes_key_drops_normals_and_uvs zeroed_memory (lone_mesh_term false)).
  reflexivity.
Defined.

Lemma failed_stacks_contribute_nothing_witness :
  enif_get_map_value (extract_scene_data alloc_always never_baked take_scene) "animations"
  = Some TNil.
Proof.
  apply (failed_stacks_contribute_nothing alloc_always never_baked take_scene).
  intros anim_stack _. reflexivity.
Defined.

Lemma version_string_fits_its_buffer_witness :
  (String.length (version_string 7400) < 32)%nat
  /\ enif_make_string (version_string 7400) = charlist (version_string 7400).
Proof. apply (version_string_fits_its_buffer 7400). unfold UINT_MAX. lia. Defined.

Lemma save_failure_message_is_bounded_witness :
  exists msg,
    write_fbx_nif zeroed_memory true writer_fails
                  [TBinary "out.fbx"; TMap one_node_pairs; TAtom "binary"]
    = Return (TTuple [TAtom "error"; charlist msg])
    /\ msg = substring 0 255 ("Failed to save FBX: " ++ c_str "disk full")
    /\ (String.length msg <= 255)%nat
    /\ ((String.length (c_str "disk full") <= 235)%nat ->
        msg = ("Failed to save FBX: " ++ c_str "disk full")%string).
Proof.
  eapply (save_failure_message_is_bounded zeroed_memory writer_fails "out.fbx"
            one_node_pairs (TAtom "binary") _ "disk full");
    reflexivity.
Defined.

Lemma paths_are_c_strings_witness :
  load_fbx_nif alloc_always never_baked edge_parser (TBinary nul_path)
  = load_fbx_nif alloc_always never_baked edge_parser (TBinary "out.fbx")
  /\ write_fbx_nif zeroed_memory true writer_succeeds
                   [TBinary nul_path; TMap one_node_pairs; TAtom "binary"]
     = write_fbx_nif zeroed_memory true writer_succeeds
                     [TBinary "out.fbx"; TMap one_node_pairs; TAtom "binary"].
Proof.
  apply (paths_are_c_strings alloc_always never_baked edge_parser zeroed_memory true
           writer_succeeds nul_path "out.fbx" (TMap one_node_pairs) (TAtom "binary")).
  reflexivity.
Defined.

Lemma load_fbx_replies_witness :
  finite_doubles (extract_scene_data alloc_always never_baked edge_scene) = true
  /\ load_fbx_nif alloc_always never_baked edge_parser (TBinary "edge.fbx")
     = Return (TTuple [TAtom "ok"; extract_scene_data alloc_always never_baked edge_scene])
  /\ load_fbx_binary_nif alloc_always never_baked edge_parser (TBinary "edge.fbx")
     = Return (TTuple [TAtom "ok"; extract_scene_data alloc_always never_baked edge_scene])
  /\ load_fbx_nif alloc_always never_baked edge_parser (charlist "edge.fbx") = Badarg.
Proof.
  split; [reflexivity|].
  destruct (load_fbx_replies alloc_always never_baked edge_parser edge_parser
              (TBinary "edge.fbx")) as [_ Hbin].
  destruct (Hbin "edge.fbx" eq_refl) as (_ & Hpath & _ & Hbytes).
  split; [apply Hpath; reflexivity|]. split; [apply Hbytes; reflexivity|].
  apply (load_fbx_replies alloc_always never_baked edge_parser edge_parser
           (charlist "edge.fbx")).
  discriminate.
Defined.

Lemma parent_resolved_to_first_match_witness :
  exists scene node,
    build_ufbxw_scene_from_map zeroed_memory true self_parent_term = Some scene
    /\ sc_nodes scene !! 0%nat = Some node
    /\ wn_parent node = Some 0%nat.
Proof.
  apply (parent_resolved_to_first_match zeroed_memory self_parent_term
           [self_parent_entry] 0 0 self_parent_entry self_parent_entry 5);
    [reflexivity | reflexivity | reflexivity | reflexivity | reflexivity
    | intros j' e Hj'; lia].
Defined.

Lemma unresolved_mesh_id_left_unattached_witness :
  exists scene node,
    build_ufbxw_scene_from_map zeroed_memory true stray_mesh_id_term = Some scene
    /\ sc_nodes scene !! 0%nat = Some node
    /\ wn_attribute node = None.
Proof.
  apply (unresolved_mesh_id_left_unattached zeroed_memory stray_mesh_id_term
           [stray_mesh_id_entry] 0 stray_mesh_id_entry);
    [reflexivity | reflexivity |].
  intros mesh_entries mesh_id Hm Hid. vm_compute in Hm, Hid.
  injection Hm as <-. injection Hid as <-.
  intros [|j] e He; simpl in He; [|discriminate].
  injection He as <-. vm_compute. discriminate.
Defined.

Lemma indices_decoded_without_arity_check_witness :
  exists scene mesh triangles,
    build_ufbxw_scene_from_map zeroed_memory true odd_indices_term = Some scene
    /\ sc_meshes scene !! 0%nat = Some mesh
    /\ wm_triangles mesh = Some triangles
    /\ length triangles = length odd_indices
    /\ (forall k v, odd_indices !! k = Some (TInt v) -> 0 <= v <= UINT_MAX ->
                    triangles !! k
                    = Some (if v <? 2147483648 then v else v - 4294967296))
    /\ (forall k t, odd_indices !! k = Some t -> enif_get_uint t = None ->
                    triangles !! k = Some (zeroed_memory (Indices 0) k)).
Proof.
  apply (indices_decoded_without_arity_check zeroed_memory odd_indices_term
           [odd_indices_entry] 0 odd_indices_entry odd_indices);
    [reflexivity | reflexivity | left; reflexivity | reflexivity].
Defined.

Lemma writer_reads_only_three_keys_witness :
  build_ufbxw_scene_from_map zeroed_memory true
    (enif_make_map_put (TMap one_node_pairs) "animations" (term_list [TInt 1]))
  = build_ufbxw_scene_from_map zeroed_memory true (TMap one_node_pairs)
  /\ write_fbx_nif zeroed_memory true writer_succeeds
       [TBinary "out.fbx";
        enif_make_map_put (TMap one_node_pairs) "animations" (term_list [TInt 1]);
        TAtom "binary"]
     = write_fbx_nif zeroed_memory true writer_succeeds
         [TBinary "out.fbx"; TMap one_node_pairs; TAtom "binary"].
Proof.
  apply (writer_reads_only_three_keys zeroed_memory true writer_succeeds
           (TBinary "out.fbx") (TAtom "binary") one_node_pairs "animations"
           (term_list [TInt 1])); discriminate.
Defined.

Lemma loaded_hierarchy_survives_write_witness :
  exists built,
    build_ufbxw_scene_from_map zeroed_memory true
      (extract_scene_data alloc_always never_baked family_scene)
    = Some built
    /\ length (sc_meshes built) = length (meshes family_scene)
    /\ forall i node, nodes family_scene !! i = Some node ->
         exists d,
           sc_nodes built !! i = Some d
           /\ wn_parent d = (fun p => Z.to_nat (ptr_typed_id p)) <$> node_parent node
           /\ wn_attribute d = written_mesh_link (node_mesh node).
Proof.
  apply (loaded_hierarchy_survives_write zeroed_memory alloc_always never_baked
           family_scene).
  - intros [|[|k]] n H; simpl in H; try discriminate; injection H as <-; reflexivity.
  - intros [|[|k]] m H; simpl in H; try discriminate; injection H as <-; reflexivity.
  - simpl. unfold UINT_MAX. lia.
  - simpl. unfold UINT_MAX. lia.
  - intros [|[|k]] n p H Hp; simpl in H; try discriminate; injection H as <-;
      simpl in Hp; try discriminate; injection Hp as <-; simpl; lia.
  - intros [|[|k]] n m H Hm; simpl in H; try discriminate; injection H as <-;
      simpl in Hm; injection Hm as <-; simpl; lia.
Defined.

Lemma one_mesh_per_entry_witness :
  let entries := default [] (map_list_entries (lone_mesh_term false) "meshes") in
  exists scene,
    build_ufbxw_scene_from_map zeroed_memory true (lone_mesh_term false) = Some scene
    /\ length (sc_meshes scene) = length entries
    /\ forall i head, entries !! i = Some head ->
         exists mesh,
           sc_meshes scene !! i = Some mesh
           /\ wm_name mesh = get_map_string head "name"
           /\ (enif_is_map head = false -> mesh = new_mesh).
Proof.
  apply (one_mesh_per_entry zeroed_memory (lone_mesh_term false)). left. reflexivity.
Defined.

Lemma builder_reads_only_these_entry_keys_witness :
  build_ufbxw_scene_from_map zeroed_memory true linked_term
  = build_ufbxw_scene_from_map zeroed_memory true unlinked_term.
Proof.
  apply (builder_reads_only_these_entry_keys zeroed_memory true linked_term unlinked_term
           [atom_map [("id", TInt 0); ("children", term_list [TInt 1])];
            atom_map [("id", TInt 1); ("parent_id", TInt 0); ("mesh_id", TInt 1)]]
           [atom_map [("id", TInt 0)];
            atom_map [("id", TInt 1); ("parent_id", TInt 0); ("mesh_id", TInt 1)]]
           [atom_map [("id", TInt 1); ("material_ids", term_list [TInt 0])]]
           [atom_map [("id", TInt 1)]]
           [atom_map [("id", TInt 0); ("name", TBinary "Red");
                      ("specular_color", term_list [TFloat 1; TFloat 0; TFloat 0])]]
           [atom_map [("name", TBinary "Red")]]).
  1, 2, 4, 5, 7, 8: reflexivity.
  - constructor; [|constructor; [|constructor]].
    all: intros key Hin; simpl in Hin.
    all: repeat (destruct Hin as [<-|Hin]; [reflexivity|]).
    all: destruct Hin.
  - constructor; [|constructor].
    intros key Hin; simpl in Hin.
    repeat (destruct Hin as [<-|Hin]; [reflexivity|]). destruct Hin.
  - constructor; [|constructor].
    intros key Hin; simpl in Hin.
    repeat (destruct Hin as [<-|Hin]; [reflexivity|]). destruct Hin.
Defined.
